(** * Alert-AID client services: hazard scoring, TTL caches, data aggregation

    A shallow embedding of three TypeScript services of the dashboard,
    [src/services/locationHazardService.ts], [src/services/disasterDataService.ts]
    and [src/services/shelterService.ts], together with the properties their
    specification states about them; then of the hazard panel that calls the
    first, of the weather service with a backup API and of the real disaster
    alert service, with further properties of all six.

    Conventions of the embedding.
    - JavaScript numbers are rationals ([Q]).  Every number the scoring code
      computes is an integer sum divided by 100 and compared with a decimal
      literal; IEEE division and literal conversion both round the same
      rational to the nearest double, so the comparisons agree with the exact
      ones.  Risk scores, being sums of integer literals, are kept in [Z].
    - [Date.now()] readings and cache timestamps are integers ([Z], ms).
    - Strings are byte strings; [toLowerCase] and [trim] act on ASCII.
    - The clock ([new Date()], [Date.now()]) and the network are explicit:
      the current month is an argument, effectful functions run in a state
      monad over a [World], responses come from an environment.
    - [Math.sin], [Math.cos], [Math.sqrt] and [Math.atan2] are left to the
      host ([JsMath]); what the distances need of them is stated as laws. *)

From Stdlib Require Import ZArith QArith Qminmax Qround Qabs String Ascii List Bool Lia Lqa.
From Stdlib Require Import Sorting.Sorted Sorting.Permutation.
From stdpp Require Import gmap strings pretty.
Import ListNotations.

Local Open Scope string_scope.
Local Open Scope Z_scope.
Local Open Scope list_scope.

(** ** JavaScript primitives used by the services *)

(** [x < y] and [x > y] on numbers. *)
Definition Qltb (x y : Q) : bool := negb (Qle_bool y x).
Definition Qgtb (x y : Q) : bool := negb (Qle_bool x y).
(** [x >= y]. *)
Definition Qgeb (x y : Q) : bool := Qle_bool y x.

(** [Math.round]: nearest integer, ties towards plus infinity. *)
Definition Math_round (x : Q) : Z := Qfloor (x + (1 # 2))%Q.

(** Number formatting ([`${x}`] and [x.toFixed(d)]) is left to the host. *)
Class NumberFormat := {
  numToString : Q -> string;
  toFixed : Q -> nat -> string
}.

(** A formatter for closed examples: [decimalFixed x d] prints [x] rounded
    to [d] decimals, half away from zero. *)
Definition zeros (n : nat) : string := String.concat "" (repeat "0" n).

Definition decimalFixed (x : Q) (digits : nat) : string :=
  let n := Qfloor (Qabs x * inject_Z (10 ^ Z.of_nat digits) + (1 # 2))%Q in
  let whole := n / 10 ^ Z.of_nat digits in
  let part := pretty (n mod 10 ^ Z.of_nat digits) in
  (if Qle_bool 0 x then "" else "-") +:+ pretty whole +:+
  (match digits with
   | O => ""
   | _ => "." +:+ zeros (digits - String.length part) +:+ part
   end).

Definition decimalFormat : NumberFormat :=
  {| numToString := fun x =>
       if Qeq_bool x (inject_Z (Qfloor x)) then decimalFixed x 0 else decimalFixed x 6;
     toFixed := decimalFixed |}.

(** [String.prototype.toLowerCase] on ASCII letters. *)
Definition lowerAscii (c : ascii) : ascii :=
  let n := nat_of_ascii c in
  if ((65 <=? n) && (n <=? 90))%nat then ascii_of_nat (n + 32) else c.

Fixpoint toLowerCase (s : string) : string :=
  match s with
  | EmptyString => EmptyString
  | String c s' => String (lowerAscii c) (toLowerCase s')
  end.

(** White space removed by [String.prototype.trim]: TAB, LF, VT, FF, CR, SP. *)
Definition isWhiteSpace (c : ascii) : bool :=
  let n := nat_of_ascii c in
  (((9 <=? n) && (n <=? 13)) || (n =? 32))%nat.

Fixpoint trimStart (s : string) : string :=
  match s with
  | EmptyString => EmptyString
  | String c s' => if isWhiteSpace c then trimStart s' else s
  end.

(** [trimEnd] keeps a character when it is not white space or when something
    is kept after it. *)
Fixpoint trimEnd (s : string) : string :=
  match s with
  | EmptyString => EmptyString
  | String c s' =>
      match trimEnd s' with
      | EmptyString => if isWhiteSpace c then EmptyString else String c EmptyString
      | rest => String c rest
      end
  end.

Definition trim (s : string) : string := trimEnd (trimStart s).

(** [s.includes(sub)]: [sub] occurs in [s] at some position. *)
Fixpoint includes (s sub : string) : bool :=
  String.prefix sub s
  || match s with
     | EmptyString => false
     | String _ s' => includes s' sub
     end.

(** ** TTL caches, the clock and the network *)

(** The value type of the caches: [{ data, timestamp }]. *)
Record Entry (A : Type) := { data : A; timestamp : Z }.
Arguments data {A} _.
Arguments timestamp {A} _.

(** How a [fetch] settles.  [Rejected] is a network failure or the abort of
    [AbortSignal.timeout]; [body] is what [response.json()] resolves to, [None]
    when it rejects. *)
Inductive FetchOutcome (B : Type) :=
  | Rejected
  | Responded (ok : bool) (status : Z) (body : option B).
Arguments Rejected {B}.
Arguments Responded {B} _ _ _.

(** The environment's answer to a request: from the URLs sent so far (the
    request itself last) and the time of sending, the time at which the
    request settles and how. *)
Definition Network (B : Type) : Type := list string -> Z -> Z * FetchOutcome B.

(** What a service's code can observe and change: the wall clock read by
    [Date.now()], the requests it has sent, and its cache ([Map]). *)
Record World (D : Type) := {
  clock : Z;
  outbound : list string;
  store : gmap string (Entry D)
}.
Arguments clock {D} _.
Arguments outbound {D} _.
Arguments store {D} _.

Definition M (D A : Type) : Type := World D -> A * World D.

Definition ret {D A} (a : A) : M D A := fun w => (a, w).
Definition bind {D A B} (m : M D A) (k : A -> M D B) : M D B :=
  fun w => let '(a, w') := m w in k a w'.

Notation "x <- m ;; k" := (bind m (fun x => k))
  (at level 100, m at next level, right associativity).

(** [Date.now()] *)
Definition Date_now {D} : M D Z := fun w => (clock w, w).

(** [cache.get(key)] *)
Definition Map_get {D} (key : string) : M D (option (Entry D)) :=
  fun w => (store w !! key, w).

(** [cache.set(key, { data, timestamp: Date.now() })] *)
Definition Map_set_now {D} (key : string) (d : D) : M D unit :=
  fun w => (tt, {| clock := clock w;
                   outbound := outbound w;
                   store := <[ key := {| data := d; timestamp := clock w |} ]> (store w) |}).

(** [fetch(url)] up to its first suspension: the request is logged and the
    environment fixes when and how it will settle. *)
Definition sendRequest {D B} (net : Network B) (url : string) : M D (Z * FetchOutcome B) :=
  fun w =>
    let sent := outbound w ++ [url] in
    (net sent (clock w), {| clock := clock w; outbound := sent; store := store w |}).

(** Resuming after an [await]: the clock has moved to the time of settling. *)
Definition settle {D} (settled : Z) : M D unit :=
  fun w => (tt, {| clock := settled; outbound := outbound w; store := store w |}).

(** [await fetch(url)] *)
Definition fetch {D B} (net : Network B) (url : string) : M D (FetchOutcome B) :=
  p <- sendRequest net url ;;
  _ <- settle (fst p) ;;
  ret (snd p).

(** An environment for closed examples: every request is aborted by its
    timeout ten seconds after it was sent. *)
Definition offline {B} : Network B := fun _ sentAt => (sentAt + 10000, Rejected).

(** [cached && Date.now() - cached.timestamp < duration], as a test on the
    entry found and the clock reading. *)
Definition fresh {D} (duration now : Z) (cached : Entry D) : bool :=
  now - timestamp cached <? duration.

(** [xs.map(f)] for a callback that may throw: the first exception ends it. *)
Fixpoint mapOrThrow {A B} (f : A -> option B) (xs : list A) : option (list B) :=
  match xs with
  | [] => Some []
  | x :: rest =>
      match f x with
      | None => None
      | Some y =>
          match mapOrThrow f rest with
          | None => None
          | Some ys => Some (y :: ys)
          end
      end
  end.

(** The month of the local calendar date at a clock reading
    ([new Date().getMonth()], 0 = January) is left to the host. *)
Class Calendar := {
  getMonth : Z -> Z;
  (** [new Date(t).toISOString().split('T')[0]] *)
  isoDate : Z -> string
}.

(** A calendar for closed examples: months of equal length (a twelfth of a
    mean Gregorian year) counted from the epoch. *)
Definition meanCalendar : Calendar :=
  {| getMonth := fun now => (now / 2629746000) mod 12;
     isoDate := fun now =>
       pretty (1970 + now / 31556952000) +:+ "-"
       +:+ pretty (1 + (now / 2629746000) mod 12) +:+ "-"
       +:+ pretty (1 + (now mod 2629746000) / 86400000) |}.

(** ** LocationHazardService *)

Module LocationHazardService.

Inductive Terrain := flat | hilly | mountainous | coastal | delta.
Inductive Vegetation := urban | dense | moderate | sparse | desert.
Inductive FloodHistory := none | rare | occasional | frequent.

Record CityGeographicData := {
  elevation : Q;
  terrain : Terrain;
  nearRiver : bool;
  riverDistance : Q;
  nearCoast : bool;
  coastDistance : Q;
  seismicZone : Z;
  annualRainfall : Q;
  vegetation : Vegetation;
  floodHistory : FloodHistory
}.

Definition Terrain_eqb (a b : Terrain) : bool :=
  match a, b with
  | flat, flat | hilly, hilly | mountainous, mountainous
  | coastal, coastal | delta, delta => true
  | _, _ => false
  end.

Definition Vegetation_eqb (a b : Vegetation) : bool :=
  match a, b with
  | urban, urban | dense, dense | moderate, moderate
  | sparse, sparse | desert, desert => true
  | _, _ => false
  end.

Definition FloodHistory_eqb (a b : FloodHistory) : bool :=
  match a, b with
  | none, none | rare, rare | occasional, occasional | frequent, frequent => true
  | _, _ => false
  end.

Definition mkCity (el : Q) (t : Terrain) (nr : bool) (rd : Q) (nc : bool) (cd : Q)
    (sz : Z) (ar : Q) (v : Vegetation) (fh : FloodHistory) : CityGeographicData :=
  {| elevation := el; terrain := t; nearRiver := nr; riverDistance := rd;
     nearCoast := nc; coastDistance := cd; seismicZone := sz;
     annualRainfall := ar; vegetation := v; floodHistory := fh |}.

(** The geographic table, in the order of the object literal (which is the
    order [Object.entries] enumerates it in). *)
Definition CITY_GEOGRAPHIC_DATA : list (string * CityGeographicData) :=
  [ ("delhi",     mkCity 216 flat true 5 false 1000 4 797 urban occasional);
    ("new delhi", mkCity 216 flat true 8 false 1000 4 797 urban rare);
    ("gurgaon",   mkCity 217 flat false 25 false 950 4 650 urban rare);
    ("noida",     mkCity 200 flat true 3 false 1020 4 800 urban occasional);
    ("mumbai",    mkCity 14 coastal true 2 true 0 3 2422 urban frequent);
    ("chennai",   mkCity 6 coastal true 1 true 0 3 1400 urban frequent);
    ("kolkata",   mkCity 9 delta true 0 false 100 3 1582 urban frequent);
    ("bangalore", mkCity 920 hilly false 50 false 350 2 970 urban occasional);
    ("bengaluru", mkCity 920 hilly false 50 false 350 2 970 urban occasional);
    ("shimla",    mkCity 2276 mountainous true 10 false 1200 4 1575 dense rare);
    ("dehradun",  mkCity 435 hilly true 5 false 1100 4 2073 moderate occasional);
    ("jaipur",    mkCity 431 flat false 50 false 500 2 650 sparse rare);
    ("default",   mkCity 200 flat false 100 false 500 2 800 moderate rare) ].

Record WeatherData := {
  temperature : Q;
  humidity : Q;
  windSpeed : Q;
  rainfall24h : Q;
  pressure : Q;
  description : string;
  clouds : Q
}.

Inductive HazardType := flood | earthquake | storm | fire | landslide.
Inductive RiskLevel := low | moderate_risk | high | critical.
Inductive Trend := decreasing | stable | increasing.

Record HazardRiskResult := {
  type : HazardType;
  name : string;
  icon : string;
  riskLevel : RiskLevel;
  probability : Q;
  confidence : Q;
  factors : list string;
  trend : Trend;
  timeframe : string;
  recommendations : list string;
  dataSource : string
}.

(** *** getGeographicData *)

(** What the expression [CITY_GEOGRAPHIC_DATA[key]] can evaluate to.  The table
    is an ordinary object literal, so besides its own entries a key also
    reaches the members it inherits from [Object.prototype]; those are
    functions or objects, hence truthy, and are not geographic records. *)
Inductive JsValue :=
  | GeoRecord (d : CityGeographicData)
  | PrototypeMember (key : string).

Definition objectPrototypeKeys : list string :=
  [ "constructor"; "__defineGetter__"; "__defineSetter__"; "hasOwnProperty";
    "__lookupGetter__"; "__lookupSetter__"; "isPrototypeOf";
    "propertyIsEnumerable"; "toString"; "valueOf"; "__proto__";
    "toLocaleString" ].

Fixpoint ownProperty (key : string) (tbl : list (string * CityGeographicData))
    : option CityGeographicData :=
  match tbl with
  | [] => None
  | (k, d) :: rest => if String.eqb k key then Some d else ownProperty key rest
  end.

Definition getProperty (key : string) : option JsValue :=
  match ownProperty key CITY_GEOGRAPHIC_DATA with
  | Some d => Some (GeoRecord d)
  | None =>
      if existsb (String.eqb key) objectPrototypeKeys
      then Some (PrototypeMember key) else None
  end.

(** The loop over [Object.entries]: first entry whose key contains the city
    name or is contained in it. *)
Fixpoint partialMatch (normalizedCity : string)
    (tbl : list (string * CityGeographicData)) : option CityGeographicData :=
  match tbl with
  | [] => None
  | (key, data) :: rest =>
      if includes normalizedCity key || includes key normalizedCity
      then Some data
      else partialMatch normalizedCity rest
  end.

Definition estimateGeographicData (lat lon : Q) : CityGeographicData :=
  let isHimalayanRegion := Qgtb lat 28 && Qltb lat 36 && Qgtb lon 74 && Qltb lon 92 in
  let isCoastal := (Qltb lon 73 || Qgtb lon 87) || Qltb lat 12 in
  let isGangeticPlain := Qgtb lat 22 && Qltb lat 28 && Qgtb lon 78 && Qltb lon 90 in
  let isTharDesert := Qgtb lat 24 && Qltb lat 30 && Qgtb lon 68 && Qltb lon 76 in
  let isWesternGhats := Qgtb lon 73 && Qltb lon 78 && Qgtb lat 8 && Qltb lat 21 in
  let '(terrain, seismicZone, elevation) :=
    if isHimalayanRegion then (mountainous, 5, 2000%Q)
    else if isWesternGhats then (hilly, 3, 800%Q)
    else if isCoastal then (coastal, 3, 10%Q)
    else if isGangeticPlain then (flat, 4, 80%Q)
    else (flat, 2, 200%Q) in
  {| elevation := elevation;
     terrain := terrain;
     nearRiver := isGangeticPlain || isCoastal;
     riverDistance := if isGangeticPlain then 20 else 100;
     nearCoast := isCoastal;
     coastDistance := if isCoastal then 10 else 500;
     seismicZone := seismicZone;
     annualRainfall := if isCoastal then 2000 else (if isTharDesert then 300 else 800);
     vegetation := if isTharDesert then desert else (if isCoastal then moderate else urban);
     floodHistory := if isGangeticPlain || isCoastal then occasional else rare |}.

Definition getGeographicData (cityName : string) (lat lon : Q) : JsValue :=
  let normalizedCity := trim (toLowerCase cityName) in
  match getProperty normalizedCity with
  | Some v => v
  | None =>
      match partialMatch normalizedCity CITY_GEOGRAPHIC_DATA with
      | Some data => GeoRecord data
      | None => GeoRecord (estimateGeographicData lat lon)
      end
  end.


(** *** Scoring *)

(** The pair of locals [riskScore] and [factors] that every scoring function
    updates together. *)
Definition Tally : Type := Z * list string.

Definition start : Tally := (0, []).
(** [riskScore += k; factors.push(msg)] *)
Definition add (k : Z) (msg : string) (t : Tally) : Tally := (fst t + k, snd t ++ [msg]).
(** [riskScore = k; factors.push(msg)] *)
Definition assign (k : Z) (msg : string) (t : Tally) : Tally := (k, snd t ++ [msg]).
(** [factors.push(msg)] *)
Definition note (msg : string) (t : Tally) : Tally := (fst t, snd t ++ [msg]).

(** [riskScore / 100] *)
Definition scaled (riskScore : Z) : Q := (inject_Z riskScore / 100)%Q.

Definition getRiskLevel (probability : Q) : RiskLevel :=
  if Qgeb probability 0.70 then critical
  else if Qgeb probability 0.45 then high
  else if Qgeb probability 0.20 then moderate_risk
  else low.

Definition getFloodRecommendations (risk : Q) : list string :=
  if Qltb risk 0.20 then
    [ "Standard preparedness is sufficient";
      "Keep emergency contacts handy";
      "Monitor weather forecasts during monsoon" ]
  else if Qltb risk 0.45 then
    [ "Monitor local weather updates";
      "Keep important documents elevated";
      "Know your evacuation routes";
      "Have emergency supplies ready" ]
  else
    [ "⚠️ Prepare for potential flooding";
      "Move valuables to higher ground";
      "Stock emergency supplies and water";
      "Avoid low-lying areas";
      "Keep emergency evacuation bag ready" ].

Definition getEarthquakeRecommendations (risk : Q) : list string :=
  let base :=
    [ "Secure heavy furniture to walls";
      "Identify safe spots (under sturdy tables)";
      "Keep emergency kit accessible" ] in
  if Qgeb risk 0.25 then
    base ++
    [ "⚠️ Area is in high seismic zone";
      "Practice drop, cover, and hold on";
      "Know how to turn off gas/electricity" ]
  else base.

Definition getStormRecommendations (risk : Q) : list string :=
  if Qltb risk 0.20 then
    [ "No storm precautions needed currently"; "Continue monitoring forecasts" ]
  else if Qltb risk 0.45 then
    [ "Secure loose outdoor items";
      "Keep devices charged";
      "Stay updated on weather alerts" ]
  else
    [ "⚠️ Storm conditions developing";
      "Stay indoors during storm";
      "Secure all outdoor objects";
      "Have flashlights and batteries ready";
      "Avoid windows and electrical equipment" ].

Definition getFireRecommendations (risk : Q) : list string :=
  if Qltb risk 0.15 then
    [ "Urban area - standard fire safety applies"; "Ensure smoke detectors work" ]
  else
    [ "Clear dry vegetation from property";
      "Have evacuation plan ready";
      "Keep important documents accessible";
      "Monitor air quality alerts" ].

Definition getLandslideRecommendations (risk : Q) (terrain : Terrain) : list string :=
  if Terrain_eqb terrain flat then
    [ "Flat terrain - landslide risk negligible"; "No special precautions needed" ]
  else if Qltb risk 0.20 then
    [ "Low risk but monitor during heavy rain";
      "Avoid steep slopes in wet weather" ]
  else
    [ "⚠️ Be alert in hilly/mountainous areas";
      "Avoid steep slopes during rain";
      "Watch for cracks in ground";
      "Be alert to unusual sounds (rumbling)";
      "Know evacuation routes away from slopes" ].


Section Scoring.
Context {fmt : NumberFormat}.

(** The tally of [calculateFloodRisk] before normalisation.  [month] is the
    reading of [new Date().getMonth()] (0 = January). *)
Definition floodTally (month : Z) (geoData : CityGeographicData) (weather : WeatherData)
    : Tally :=
  let t := start in
  let t :=
    if nearRiver geoData && Qltb (riverDistance geoData) 10 then
      add 25 ("Located " +:+ numToString (riverDistance geoData) +:+ "km from river") t
    else if nearRiver geoData then add 10 "River in vicinity" t
    else t in
  let t :=
    if nearCoast geoData then add 20 "Coastal location - storm surge risk" t else t in
  let t :=
    if Terrain_eqb (terrain geoData) delta then add 25 "Low-lying delta region" t
    else if Terrain_eqb (terrain geoData) flat && Qltb (elevation geoData) 50 then
      add 15 "Low elevation flat terrain" t
    else t in
  let t :=
    if FloodHistory_eqb (floodHistory geoData) frequent then
      add 20 "Area has frequent flooding history" t
    else if FloodHistory_eqb (floodHistory geoData) occasional then
      add 10 "Occasional flooding in region" t
    else t in
  let t :=
    if Qgtb (rainfall24h weather) 50 then
      add 30 ("Heavy rainfall: " +:+ toFixed (rainfall24h weather) 1 +:+ "mm") t
    else if Qgtb (rainfall24h weather) 20 then
      add 15 ("Moderate rainfall: " +:+ toFixed (rainfall24h weather) 1 +:+ "mm") t
    else if Qgtb (rainfall24h weather) 5 then add 5 "Light rainfall recorded" t
    else t in
  let t :=
    if Qgtb (humidity weather) 85 then
      add 10 ("High humidity: " +:+ numToString (humidity weather) +:+ "%") t
    else t in
  let t :=
    if (5 <=? month) && (month <=? 8) && Qgtb (annualRainfall geoData) 1000 then
      add 15 "Active monsoon season" t
    else t in
  t.

Definition calculateFloodRisk (month : Z) (geoData : CityGeographicData)
    (weather : WeatherData) : HazardRiskResult :=
  let '(riskScore, factors) := floodTally month geoData weather in
  let probability := Qmin (scaled riskScore) 0.95 in
  if negb (nearRiver geoData) && negb (nearCoast geoData)
     && Terrain_eqb (terrain geoData) flat then
    let cappedProbability := Qmin probability 0.25 in
    {| type := flood;
       name := "Flood";
       icon := "🌊";
       riskLevel := getRiskLevel cappedProbability;
       probability := cappedProbability;
       confidence := 0.85;
       factors :=
         if (0 <? Z.of_nat (length factors)) then factors
         else ["No significant flood risk factors in area"];
       trend := if Qgtb (rainfall24h weather) 10 then increasing else stable;
       timeframe := "Next 24-48 hours";
       recommendations := getFloodRecommendations cappedProbability;
       dataSource := "Geographic analysis + Real-time weather" |}
  else
    {| type := flood;
       name := "Flood";
       icon := "🌊";
       riskLevel := getRiskLevel probability;
       probability := probability;
       confidence := 0.85;
       factors :=
         if (0 <? Z.of_nat (length factors)) then factors
         else ["Low flood risk area"];
       trend := if Qgtb (rainfall24h weather) 10 then increasing else stable;
       timeframe := "Next 24-48 hours";
       recommendations := getFloodRecommendations probability;
       dataSource := "Geographic analysis + Real-time weather" |}.

(** The [switch] on the seismic zone is written as the chain of strict
    equality tests it performs. *)
Definition earthquakeTally (geoData : CityGeographicData) : Tally :=
  let t := start in
  let t :=
    if seismicZone geoData =? 5 then
      note "Himalayan fault line proximity"
        (assign 45 "Located in Seismic Zone V (Very High Risk)" t)
    else if seismicZone geoData =? 4 then
      assign 25 "Located in Seismic Zone IV (High Risk)" t
    else if seismicZone geoData =? 3 then
      assign 15 "Located in Seismic Zone III (Moderate Risk)" t
    else if seismicZone geoData =? 2 then
      assign 8 "Located in Seismic Zone II (Low Risk)" t
    else assign 5 "Located in Seismic Zone I (Very Low Risk)" t in
  let t :=
    if Terrain_eqb (terrain geoData) mountainous then
      add 10 "Mountainous terrain - higher seismic activity" t
    else t in
  t.

Definition calculateEarthquakeRisk (geoData : CityGeographicData) : HazardRiskResult :=
  let '(riskScore, factors) := earthquakeTally geoData in
  let probability := Qmin (scaled riskScore) 0.60 in
  {| type := earthquake;
     name := "Earthquake";
     icon := "🏚️";
     riskLevel := getRiskLevel probability;
     probability := probability;
     confidence := 0.55;
     factors := factors;
     trend := stable;
     timeframe := "Ongoing monitoring";
     recommendations := getEarthquakeRecommendations probability;
     dataSource := "Indian Seismic Zonation Map" |}.

Definition stormTally (geoData : CityGeographicData) (weather : WeatherData) : Tally :=
  let t := start in
  let t :=
    if Qgtb (windSpeed weather) 20 then
      add 40 ("High winds: " +:+ toFixed (windSpeed weather) 1 +:+ " m/s") t
    else if Qgtb (windSpeed weather) 10 then
      add 20 ("Moderate winds: " +:+ toFixed (windSpeed weather) 1 +:+ " m/s") t
    else if Qgtb (windSpeed weather) 5 then add 5 "Light winds" t
    else t in
  let t :=
    if Qltb (pressure weather) 1000 then
      add 25 ("Low pressure system: " +:+ numToString (pressure weather) +:+ " hPa") t
    else if Qltb (pressure weather) 1010 then add 10 "Slightly low pressure" t
    else t in
  let t := if Qgtb (clouds weather) 80 then add 15 "Heavy cloud cover" t else t in
  let t := if nearCoast geoData then add 15 "Coastal exposure to cyclones" t else t in
  let t :=
    if includes (description weather) "storm" || includes (description weather) "thunder"
    then add 30 ("Current conditions: " +:+ description weather) t
    else t in
  t.

Definition calculateStormRisk (geoData : CityGeographicData) (weather : WeatherData)
    : HazardRiskResult :=
  let '(riskScore, factors) := stormTally geoData weather in
  let probability := Qmin (scaled riskScore) 0.90 in
  {| type := storm;
     name := "Severe Storm";
     icon := "⛈️";
     riskLevel := getRiskLevel probability;
     probability := probability;
     confidence := 0.80;
     factors :=
       if (0 <? Z.of_nat (length factors)) then factors else ["Calm weather conditions"];
     trend :=
       if Qgtb (windSpeed weather) 10 || Qltb (pressure weather) 1005
       then increasing else stable;
     timeframe := "Next 6-12 hours";
     recommendations := getStormRecommendations probability;
     dataSource := "Real-time meteorological data" |}.

Definition fireTally (geoData : CityGeographicData) (weather : WeatherData) : Tally :=
  let t := start in
  let t :=
    if Vegetation_eqb (vegetation geoData) urban then
      assign 5 "Urban area - minimal wildfire risk" t
    else
      let t :=
        if Vegetation_eqb (vegetation geoData) dense then add 25 "Dense vegetation cover" t
        else if Vegetation_eqb (vegetation geoData) moderate then
          add 15 "Moderate vegetation" t
        else t in
      let t :=
        if Qltb (humidity weather) 30 then
          add 30 ("Very low humidity: " +:+ numToString (humidity weather) +:+ "%") t
        else if Qltb (humidity weather) 50 then
          add 15 ("Low humidity: " +:+ numToString (humidity weather) +:+ "%") t
        else t in
      let t :=
        if Qgtb (temperature weather) 40 then
          add 25 ("Extreme heat: " +:+ toFixed (temperature weather) 1 +:+ "°C") t
        else if Qgtb (temperature weather) 35 then
          add 15 ("High temperature: " +:+ toFixed (temperature weather) 1 +:+ "°C") t
        else t in
      let t :=
        if Qgtb (windSpeed weather) 15 then add 20 "High winds can spread fire" t
        else t in
      t in
  let t :=
    if Qgtb (rainfall24h weather) 5 then
      assign (Z.max 0 (fst t - 20)) "Recent rainfall reduces risk" t
    else t in
  t.

Definition calculateFireRisk (geoData : CityGeographicData) (weather : WeatherData)
    : HazardRiskResult :=
  let '(riskScore, factors) := fireTally geoData weather in
  let probability := Qmin (scaled riskScore) 0.80 in
  {| type := fire;
     name := "Wildfire";
     icon := "🔥";
     riskLevel := getRiskLevel probability;
     probability := probability;
     confidence := 0.75;
     factors := factors;
     trend :=
       if Qltb (humidity weather) 40 && Qgtb (temperature weather) 35
       then increasing else stable;
     timeframe := "Seasonal assessment";
     recommendations := getFireRecommendations probability;
     dataSource := "Weather data + Vegetation analysis" |}.

Definition landslideTally (geoData : CityGeographicData) (weather : WeatherData) : Tally :=
  let t := start in
  let t :=
    if Terrain_eqb (terrain geoData) mountainous then
      add 35 "Mountainous terrain - high landslide risk" t
    else if Terrain_eqb (terrain geoData) hilly then
      add 20 "Hilly terrain - moderate slope risk" t
    else if Terrain_eqb (terrain geoData) flat then
      assign 2 "Flat terrain - minimal landslide risk" t
    else t in
  let t :=
    if negb (Terrain_eqb (terrain geoData) flat) then
      let t :=
        if Qgtb (rainfall24h weather) 50 then
          add 35 ("Heavy rainfall saturating slopes: "
                  +:+ toFixed (rainfall24h weather) 1 +:+ "mm") t
        else if Qgtb (rainfall24h weather) 20 then
          add 20 "Moderate rainfall affecting soil stability" t
        else t in
      let t :=
        if 4 <=? seismicZone geoData then
          add 15 "High seismic activity can trigger slides" t
        else t in
      let t :=
        if Qgtb (elevation geoData) 1500 then
          add 10 ("High elevation: " +:+ numToString (elevation geoData) +:+ "m") t
        else t in
      t
    else t in
  t.

Definition calculateLandslideRisk (geoData : CityGeographicData) (weather : WeatherData)
    : HazardRiskResult :=
  let '(riskScore, factors) := landslideTally geoData weather in
  let probability := Qmin (scaled riskScore) 0.85 in
  {| type := landslide;
     name := "Landslide";
     icon := "🏔️";
     riskLevel := getRiskLevel probability;
     probability := probability;
     confidence := if Terrain_eqb (terrain geoData) flat then 0.95 else 0.70;
     factors := factors;
     trend :=
       if Qgtb (rainfall24h weather) 30 && negb (Terrain_eqb (terrain geoData) flat)
       then increasing else stable;
     timeframe := "Next 72 hours";
     recommendations := getLandslideRecommendations probability (terrain geoData);
     dataSource := "Topographic analysis + Weather data" |}.

(** The array literal returned by [getHazardPredictions]. *)
Definition hazardResults (month : Z) (geoData : CityGeographicData) (weather : WeatherData)
    : list HazardRiskResult :=
  [ calculateFloodRisk month geoData weather;
    calculateEarthquakeRisk geoData;
    calculateStormRisk geoData weather;
    calculateFireRisk geoData weather;
    calculateLandslideRisk geoData weather ].

(** The five scoring functions addressed by hazard type, for statements that
    range over all of them: the function [getHazardPredictions] calls for the
    hazard, its tally, and the constant its probability is clamped to. *)
Definition scoreHazard (h : HazardType) (month : Z) (geoData : CityGeographicData)
    (weather : WeatherData) : HazardRiskResult :=
  match h with
  | flood => calculateFloodRisk month geoData weather
  | earthquake => calculateEarthquakeRisk geoData
  | storm => calculateStormRisk geoData weather
  | fire => calculateFireRisk geoData weather
  | landslide => calculateLandslideRisk geoData weather
  end.

Definition tallyOf (h : HazardType) (month : Z) (geoData : CityGeographicData)
    (weather : WeatherData) : Tally :=
  match h with
  | flood => floodTally month geoData weather
  | earthquake => earthquakeTally geoData
  | storm => stormTally geoData weather
  | fire => fireTally geoData weather
  | landslide => landslideTally geoData weather
  end.

Definition maxProbability (h : HazardType) : Q :=
  match h with
  | flood => 0.95
  | earthquake => 0.60
  | storm => 0.90
  | fire => 0.80
  | landslide => 0.85
  end.

(** The condition under which [calculateFloodRisk] takes its first [return]:
    flat terrain away from river and coast. *)
Definition floodCapped (geoData : CityGeographicData) : bool :=
  negb (nearRiver geoData) && negb (nearCoast geoData)
  && Terrain_eqb (terrain geoData) flat.

End Scoring.

(** *** Weather lookup and the prediction entry point *)

Definition API_KEY : string := "1801423b3942e324ab80f5b47afe0859".
Definition CACHE_DURATION : Z := 1000 * 60 * 10.

(** The fields [getWeatherData] reads from the OpenWeatherMap JSON, each
    [None] where the optional chain yields [undefined] or the value is null. *)
Record OpenWeatherBody := {
  main_temp : option Q;
  main_humidity : option Q;
  wind_speed : option Q;
  rain_1h : option Q;
  rain_3h : option Q;
  main_pressure : option Q;
  weather_0_description : option string;
  clouds_all : option Q
}.

(** The weather returned from the [catch] block. *)
Definition defaultWeather : WeatherData :=
  {| temperature := 25; humidity := 50; windSpeed := 5; rainfall24h := 0;
     pressure := 1013; description := "clear"; clouds := 20 |}.

Section Async.
Context {fmt : NumberFormat} {cal : Calendar}.
Variable openWeatherMap : Network OpenWeatherBody.

(** The [try] block of [getWeatherData]: a rejected fetch, a non-OK status
    and a body that cannot be read all end in the [catch] block. *)
Definition requestWeather (lat lon : Q) (cacheKey : string) : M WeatherData WeatherData :=
  response <- fetch openWeatherMap
    ("https://api.openweathermap.org/data/2.5/weather?lat=" +:+ numToString lat
     +:+ "&lon=" +:+ numToString lon +:+ "&appid=" +:+ API_KEY +:+ "&units=metric") ;;
  match response with
  | Responded true _ (Some body) =>
      let weatherData :=
        {| temperature := default 25%Q (main_temp body);
           humidity := default 50%Q (main_humidity body);
           windSpeed := default 0%Q (wind_speed body);
           rainfall24h := default (default 0%Q (rain_3h body)) (rain_1h body);
           pressure := default 1013%Q (main_pressure body);
           description := default "clear" (weather_0_description body);
           clouds := default 0%Q (clouds_all body) |} in
      _ <- Map_set_now cacheKey weatherData ;;
      ret weatherData
  | _ => ret defaultWeather
  end.

Definition getWeatherData (lat lon : Q) : M WeatherData WeatherData :=
  let cacheKey := toFixed lat 2 +:+ "," +:+ toFixed lon 2 in
  cached <- Map_get cacheKey ;;
  now <- Date_now ;;
  match cached with
  | Some entry =>
      if fresh CACHE_DURATION now entry then ret (data entry)
      else requestWeather lat lon cacheKey
  | None => requestWeather lat lon cacheKey
  end.

(** A member of [Object.prototype] has none of the ten fields: every read of
    one yields [undefined], every comparison and equality test the scoring
    functions make on [undefined] is false, and the [switch] takes its default.
    [absentFields] is a record on which each of those tests has that same
    outcome; [fieldsOf] is the view the scoring functions get of a value. *)
Definition absentFields : CityGeographicData :=
  mkCity 0 coastal false 0 false 0 1 0 sparse none.

Definition fieldsOf (v : JsValue) : CityGeographicData :=
  match v with
  | GeoRecord d => d
  | PrototypeMember _ => absentFields
  end.

Definition getHazardPredictions (cityName : string) (lat lon : Q)
    : M WeatherData (list HazardRiskResult) :=
  let geoData := fieldsOf (getGeographicData cityName lat lon) in
  weather <- getWeatherData lat lon ;;
  now <- Date_now ;;
  ret (hazardResults (getMonth now) geoData weather).

End Async.

End LocationHazardService.

(** ** DisasterDataService *)

(** [Math] functions the distance computation calls; their values are
    implementation-approximated doubles and are left to the host. *)
Class JsMath := {
  Math_PI : Q;
  Math_sin : Q -> Q;
  Math_cos : Q -> Q;
  Math_sqrt : Q -> Q;
  Math_atan2 : Q -> Q -> Q
}.

(** Rational stand-ins for closed examples, kept to six decimals: truncated
    series around 0, and Newton steps for the square root. *)
Definition micro (x : Q) : Q := (inject_Z (Qfloor (x * 1000000)) / 1000000)%Q.

Fixpoint newtonSqrt (steps : nat) (x guess : Q) : Q :=
  match steps with
  | O => guess
  | S n => newtonSqrt n x (micro ((guess + x / guess) / 2))
  end.

Definition coarseMath : JsMath :=
  {| Math_PI := 3.141593;
     Math_sin := fun x => micro (x - x * x * x / 6);
     Math_cos := fun x => micro (1 - x * x / 2);
     Math_sqrt := fun x => if Qle_bool x 0 then 0%Q else newtonSqrt 24 (micro x) 1;
     Math_atan2 := fun y x =>
       if Qle_bool x 0 then 1.570796%Q
       else micro (y / x - (y / x) * (y / x) * (y / x) / 3) |}.


Module DisasterDataService.

Module Status.
Inductive t := active | error | loading.
End Status.

Module DataSource.
Record t := {
  name : string;
  status : Status.t;
  lastUpdated : option Z;
  confidence : Q;
  dataCount : Z
}.
End DataSource.

Module Geometry.
Record t := { date : string; type : string; coordinates : Q * Q }.
End Geometry.

Module NASAEvent.
Record t := {
  id : string;
  title : string;
  description : string;
  category : string;
  geometry : option (list Geometry.t);
  sources : list (string * string)
}.
End NASAEvent.

Module Intensity.
Inductive t := low | moderate | high | extreme.
Definition eqb (a b : t) : bool :=
  match a, b with
  | low, low | moderate, moderate | high, high | extreme, extreme => true
  | _, _ => false
  end.
Definition toString (a : t) : string :=
  match a with
  | low => "low" | moderate => "moderate" | high => "high" | extreme => "extreme"
  end.
End Intensity.

Module FIRMSFire.
Record t := {
  latitude : Q;
  longitude : Q;
  brightness : Q;
  frp : Q;
  confidence : string;
  intensity : Intensity.t;
  distance_km : option Q;
  acq_date : option string;
  acq_time : option string;
  source : string
}.
End FIRMSFire.

Module AlertLevel.
Inductive t := Green | Orange | Red.
End AlertLevel.

Module LatLon.
Record t := { lat : Q; lon : Q }.
End LatLon.

Module GDACSAlert.
Record t := {
  eventId : string;
  eventType : string;
  alertLevel : AlertLevel.t;
  title : string;
  description : string;
  pubDate : string;
  link : string;
  coordinates : LatLon.t
}.
End GDACSAlert.

Module WarningLevel.
Inductive t := Yellow | Orange | Red.
End WarningLevel.

Module IMDWarning.
Record t := {
  type : string;
  severity : WarningLevel.t;
  message : string;
  instructions : list string;
  valid_from : string;
  valid_until : string
}.
End IMDWarning.

Module USGSEarthquake.
Record t := {
  id : string;
  magnitude : Q;
  place : string;
  time : Z;
  coordinates : Q * Q * Q;
  tsunami : bool;
  alert : option string;
  significance : Q
}.
End USGSEarthquake.

Module Severity.
Inductive t := low | moderate | high | critical.
End Severity.

Module Threat.
Record t := {
  type : string;
  distance : Z;
  severity : Severity.t;
  source : string;
  description : string
}.
End Threat.

Module Events.
Record t := {
  earthquakes : list USGSEarthquake.t;
  wildfires : list NASAEvent.t;
  activeFires : list FIRMSFire.t;
  storms : list NASAEvent.t;
  floods : list NASAEvent.t;
  volcanoes : list NASAEvent.t;
  gdacsAlerts : list GDACSAlert.t;
  imdWarnings : list IMDWarning.t
}.
End Events.

Module AggregatedDisasterData.
Record t := {
  sources : list DataSource.t;
  events : Events.t;
  nearbyThreats : list Threat.t;
  overallConfidence : Q;
  lastUpdated : Z
}.
End AggregatedDisasterData.

Section Threats.
Context {fmt : NumberFormat} {math : JsMath}.

(** Haversine distance in km, over the host's [Math] functions. *)
Definition calculateDistance (lat1 lon1 lat2 lon2 : Q) : Q :=
  (let R := 6371 in
   let dLat := (lat2 - lat1) * Math_PI / 180 in
   let dLon := (lon2 - lon1) * Math_PI / 180 in
   let a :=
     Math_sin (dLat / 2) * Math_sin (dLat / 2)
     + Math_cos (lat1 * Math_PI / 180) * Math_cos (lat2 * Math_PI / 180)
       * Math_sin (dLon / 2) * Math_sin (dLon / 2) in
   let c := 2 * Math_atan2 (Math_sqrt a) (Math_sqrt (1 - a)) in
   R * c)%Q.

(** [threats.push(t)] *)
Definition push (threats : list Threat.t) (t : Threat.t) : list Threat.t := threats ++ [t].

Definition earthquakeThreats (lat lon : Q) (earthquakes : list USGSEarthquake.t)
    (threats : list Threat.t) : list Threat.t :=
  fold_left
    (fun threats eq =>
       let '(c0, c1, _) := USGSEarthquake.coordinates eq in
       let distance := calculateDistance lat lon c1 c0 in
       if Qltb distance 500 then
         let severity :=
           if Qgeb (USGSEarthquake.magnitude eq) 6 then Severity.critical
           else if Qgeb (USGSEarthquake.magnitude eq) 5 then Severity.high
           else if Qgeb (USGSEarthquake.magnitude eq) 4 then Severity.moderate
           else Severity.low in
         push threats
           {| Threat.type := "Earthquake";
              Threat.distance := Math_round distance;
              Threat.severity := severity;
              Threat.source := "USGS";
              Threat.description :=
                "M" +:+ toFixed (USGSEarthquake.magnitude eq) 1 +:+ " - "
                +:+ USGSEarthquake.place eq |}
       else threats)
    earthquakes threats.

Definition nasaThreats (lat lon : Q) (nasaEvents : list NASAEvent.t)
    (threats : list Threat.t) : list Threat.t :=
  fold_left
    (fun threats event =>
       match NASAEvent.geometry event with
       | Some (first :: _) =>
           let coords := Geometry.coordinates first in
           let distance := calculateDistance lat lon (snd coords) (fst coords) in
           if Qltb distance 1000 then
             let severity :=
               if Qltb distance 100 then Severity.critical
               else if Qltb distance 300 then Severity.high
               else Severity.moderate in
             push threats
               {| Threat.type := NASAEvent.category event;
                  Threat.distance := Math_round distance;
                  Threat.severity := severity;
                  Threat.source := "NASA EONET";
                  Threat.description := NASAEvent.title event |}
           else threats
       | _ => threats
       end)
    nasaEvents threats.

Definition fireThreats (activeFires : list FIRMSFire.t) (threats : list Threat.t)
    : list Threat.t :=
  fold_left
    (fun threats fire =>
       match FIRMSFire.distance_km fire with
       | Some distance_km =>
           if negb (Qeq_bool distance_km 0) && Qltb distance_km 200 then
             let severity :=
               if Intensity.eqb (FIRMSFire.intensity fire) Intensity.extreme
                  || Qltb distance_km 20 then Severity.critical
               else if Intensity.eqb (FIRMSFire.intensity fire) Intensity.high
                       || Qltb distance_km 50 then Severity.high
               else if Intensity.eqb (FIRMSFire.intensity fire) Intensity.low
               then Severity.low
               else Severity.moderate in
             push threats
               {| Threat.type := "Active Fire";
                  Threat.distance := Math_round distance_km;
                  Threat.severity := severity;
                  Threat.source := "NASA FIRMS";
                  Threat.description :=
                    "Fire hotspot (" +:+ Intensity.toString (FIRMSFire.intensity fire)
                    +:+ " intensity, FRP: " +:+ numToString (FIRMSFire.frp fire) +:+ ")" |}
           else threats
       | None => threats
       end)
    activeFires threats.

Definition imdThreats (imdWarnings : list IMDWarning.t) (threats : list Threat.t)
    : list Threat.t :=
  fold_left
    (fun threats warning =>
       let severity :=
         match IMDWarning.severity warning with
         | WarningLevel.Red => Severity.critical
         | WarningLevel.Orange => Severity.high
         | WarningLevel.Yellow => Severity.moderate
         end in
       push threats
         {| Threat.type := IMDWarning.type warning;
            Threat.distance := 0;
            Threat.severity := severity;
            Threat.source := "IMD";
            Threat.description := IMDWarning.message warning |})
    imdWarnings threats.

Definition gdacsThreats (lat lon : Q) (gdacsAlerts : list GDACSAlert.t)
    (threats : list Threat.t) : list Threat.t :=
  fold_left
    (fun threats alert =>
       let coordinates := GDACSAlert.coordinates alert in
       if negb (Qeq_bool (LatLon.lat coordinates) 0)
          && negb (Qeq_bool (LatLon.lon coordinates) 0) then
         let distance :=
           calculateDistance lat lon (LatLon.lat coordinates) (LatLon.lon coordinates) in
         if Qltb distance 1000 then
           let severity :=
             match GDACSAlert.alertLevel alert with
             | AlertLevel.Red => Severity.critical
             | AlertLevel.Orange => Severity.high
             | AlertLevel.Green => Severity.moderate
             end in
           push threats
             {| Threat.type := GDACSAlert.eventType alert;
                Threat.distance := Math_round distance;
                Threat.severity := severity;
                Threat.source := "GDACS";
                Threat.description := GDACSAlert.title alert |}
         else threats
       else threats)
    gdacsAlerts threats.

(** [threats.sort((a, b) => a.distance - b.distance)]: the sort is stable, so
    an element goes in front of the first one that is not nearer. *)
Fixpoint insertByDistance (t : Threat.t) (sorted : list Threat.t) : list Threat.t :=
  match sorted with
  | [] => [t]
  | u :: rest =>
      if Threat.distance t <=? Threat.distance u then t :: u :: rest
      else u :: insertByDistance t rest
  end.

Definition sortByDistance (threats : list Threat.t) : list Threat.t :=
  fold_right insertByDistance [] threats.

Definition calculateNearbyThreats (lat lon : Q)
    (earthquakes : list USGSEarthquake.t) (nasaEvents : list NASAEvent.t)
    (gdacsAlerts : list GDACSAlert.t) (activeFires : list FIRMSFire.t)
    (imdWarnings : list IMDWarning.t) : list Threat.t :=
  let threats := [] in
  let threats := earthquakeThreats lat lon earthquakes threats in
  let threats := nasaThreats lat lon nasaEvents threats in
  let threats := fireThreats activeFires threats in
  let threats := imdThreats imdWarnings threats in
  let threats := gdacsThreats lat lon gdacsAlerts threats in
  firstn 10 (sortByDistance threats).

End Threats.

(** *** Cache and per-source fetches *)

(** What the cache, typed [{ data: any }], holds: the list one of the five
    fetch functions stored.  The keys of the five start differently
    (nasa_eonet, gdacs_alerts, firms_, imd_, usgs_), so a function finds
    under its key only what it stored itself; the casts below answer [[]] for
    the other shapes. *)
Inductive CachedData :=
  | NASAEvents (events : list NASAEvent.t)
  | GDACSAlerts (alerts : list GDACSAlert.t)
  | FIRMSFires (fires : list FIRMSFire.t)
  | IMDWarnings (warnings : list IMDWarning.t)
  | USGSEarthquakes (earthquakes : list USGSEarthquake.t).

Definition asNASAEvents (d : CachedData) : list NASAEvent.t :=
  match d with NASAEvents l => l | _ => [] end.
Definition asGDACSAlerts (d : CachedData) : list GDACSAlert.t :=
  match d with GDACSAlerts l => l | _ => [] end.
Definition asFIRMSFires (d : CachedData) : list FIRMSFire.t :=
  match d with FIRMSFires l => l | _ => [] end.
Definition asIMDWarnings (d : CachedData) : list IMDWarning.t :=
  match d with IMDWarnings l => l | _ => [] end.
Definition asUSGSEarthquakes (d : CachedData) : list USGSEarthquake.t :=
  match d with USGSEarthquakes l => l | _ => [] end.

Definition CACHE_DURATION : Z := 5 * 60 * 1000.

Definition getFromCache (key : string) : M CachedData (option CachedData) :=
  cached <- Map_get key ;;
  now <- Date_now ;;
  ret (match cached with
       | Some entry =>
           if fresh CACHE_DURATION now entry then Some (data entry) else None
       | None => None
       end).

Definition setCache (key : string) (d : CachedData) : M CachedData unit :=
  Map_set_now key d.

(** An event of the EONET JSON.  [description] is [None] when absent or
    null; [categories] is [None] when reading [categories[0]] throws, and
    otherwise lists the titles, [None] for a missing one. *)
Module RawEvent.
Record t := {
  id : string;
  title : string;
  description : option string;
  categories : option (list (option string));
  geometry : option (list Geometry.t);
  sources : list (string * string)
}.
End RawEvent.

(** A feature of the USGS GeoJSON; [properties] and [geometry] are [None]
    when reading a member of them throws. *)
Module RawProperties.
Record t := {
  mag : Q;
  place : string;
  time : Z;
  tsunami : Z;
  alert : option string;
  sig : Q
}.
End RawProperties.

Module RawFeature.
Record t := {
  id : string;
  properties : option RawProperties.t;
  geometry : option (Q * Q * Q)
}.
End RawFeature.

(** The JSON of the backend proxy routes: [{ success, alerts | fires |
    warnings }], the list [None] when absent or null. *)
Module ProxyBody.
Record t (A : Type) := { success : bool; items : option (list A) }.
Arguments success {A} _.
Arguments items {A} _.
End ProxyBody.

(** [x || y] on strings: the empty string is falsy. *)
Definition orElse (x : option string) (y : string) : string :=
  match x with
  | Some (String c s) => String c s
  | _ => y
  end.

(** The callback of [data.events.map]; [None] when it throws. *)
Definition toNASAEvent (event : RawEvent.t) : option NASAEvent.t :=
  match RawEvent.categories event with
  | None => None
  | Some categories =>
      Some {| NASAEvent.id := RawEvent.id event;
              NASAEvent.title := RawEvent.title event;
              NASAEvent.description :=
                orElse (RawEvent.description event) (RawEvent.title event);
              NASAEvent.category :=
                orElse (match categories with c :: _ => c | [] => None end) "Unknown";
              NASAEvent.geometry := RawEvent.geometry event;
              NASAEvent.sources := RawEvent.sources event |}
  end.

(** The callback of [data.features.map]; [None] when it throws. *)
Definition toUSGSEarthquake (f : RawFeature.t) : option USGSEarthquake.t :=
  match RawFeature.properties f, RawFeature.geometry f with
  | Some properties, Some coordinates =>
      Some {| USGSEarthquake.id := RawFeature.id f;
              USGSEarthquake.magnitude := RawProperties.mag properties;
              USGSEarthquake.place := RawProperties.place properties;
              USGSEarthquake.time := RawProperties.time properties;
              USGSEarthquake.coordinates := coordinates;
              USGSEarthquake.tsunami := RawProperties.tsunami properties =? 1;
              USGSEarthquake.alert := RawProperties.alert properties;
              USGSEarthquake.significance := RawProperties.sig properties |}
  | _, _ => None
  end.

(** *** getAggregatedData *)

(** The locals the five [.then] callbacks of [getAggregatedData] fill in: the
    [sources] array they push to and the five lists [Promise.all] collects. *)
Module Locals.
Record t := {
  sources : list DataSource.t;
  nasaEvents : list NASAEvent.t;
  gdacsAlerts : list GDACSAlert.t;
  earthquakes : list USGSEarthquake.t;
  activeFires : list FIRMSFire.t;
  imdWarnings : list IMDWarning.t
}.
Definition empty : t :=
  {| sources := []; nasaEvents := []; gdacsAlerts := []; earthquakes := [];
     activeFires := []; imdWarnings := [] |}.
Definition pushSource (s : DataSource.t) (l : t) : t :=
  {| sources := sources l ++ [s]; nasaEvents := nasaEvents l;
     gdacsAlerts := gdacsAlerts l; earthquakes := earthquakes l;
     activeFires := activeFires l; imdWarnings := imdWarnings l |}.
Definition setNasaEvents (v : list NASAEvent.t) (l : t) : t :=
  {| sources := sources l; nasaEvents := v; gdacsAlerts := gdacsAlerts l;
     earthquakes := earthquakes l; activeFires := activeFires l;
     imdWarnings := imdWarnings l |}.
Definition setGdacsAlerts (v : list GDACSAlert.t) (l : t) : t :=
  {| sources := sources l; nasaEvents := nasaEvents l; gdacsAlerts := v;
     earthquakes := earthquakes l; activeFires := activeFires l;
     imdWarnings := imdWarnings l |}.
Definition setEarthquakes (v : list USGSEarthquake.t) (l : t) : t :=
  {| sources := sources l; nasaEvents := nasaEvents l; gdacsAlerts := gdacsAlerts l;
     earthquakes := v; activeFires := activeFires l; imdWarnings := imdWarnings l |}.
Definition setActiveFires (v : list FIRMSFire.t) (l : t) : t :=
  {| sources := sources l; nasaEvents := nasaEvents l; gdacsAlerts := gdacsAlerts l;
     earthquakes := earthquakes l; activeFires := v; imdWarnings := imdWarnings l |}.
Definition setImdWarnings (v : list IMDWarning.t) (l : t) : t :=
  {| sources := sources l; nasaEvents := nasaEvents l; gdacsAlerts := gdacsAlerts l;
     earthquakes := earthquakes l; activeFires := activeFires l; imdWarnings := v |}.
End Locals.

(** One element of the array given to [Promise.all]: a started fetch with
    its [.then] callback.  [due] is when the fetch settles, [None] if it was
    answered from the cache; [continue] runs the rest of the fetch function and
    then the callback. *)
Record Chain := {
  due : option Z;
  continue : Locals.t -> M CachedData Locals.t
}.

Definition dueOf {A B} (started : A + Z * FetchOutcome B) : option Z :=
  match started with
  | inl _ => None
  | inr (settled, _) => Some settled
  end.

(** Chains answered from the cache continue first, in call order; the others
    continue as their requests settle, the earlier call first on a tie. *)
Definition earlier (a b : Chain) : bool :=
  match due a, due b with
  | None, _ => true
  | Some _, None => false
  | Some x, Some y => x <=? y
  end.

Fixpoint enqueue (c : Chain) (queue : list Chain) : list Chain :=
  match queue with
  | [] => [c]
  | q :: rest => if earlier c q then c :: q :: rest else q :: enqueue c rest
  end.

Definition settleOrder (chains : list Chain) : list Chain :=
  fold_right enqueue [] chains.

Fixpoint runAll (queue : list Chain) (locals : Locals.t) : M CachedData Locals.t :=
  match queue with
  | [] => ret locals
  | c :: rest => locals' <- continue c locals ;; runAll rest locals'
  end.

(** [list.length >= 0 ? 'active' : 'error'] *)
Definition statusOf {A} (l : list A) : Status.t :=
  if 0 <=? Z.of_nat (length l) then Status.active else Status.error.

(** [list.length > 0 ? yes : no] *)
Definition ifAny {A} (l : list A) (yes no : Q) : Q :=
  if 0 <? Z.of_nat (length l) then yes else no.

Section Fetching.
Context {fmt : NumberFormat} {cal : Calendar}.
Variable BACKEND_URL : string.
Variable eonet : Network (option (list RawEvent.t)).
Variable gdacsProxy : Network (ProxyBody.t GDACSAlert.t).
Variable firmsProxy : Network (ProxyBody.t FIRMSFire.t).
Variable imdProxy : Network (ProxyBody.t IMDWarning.t).
Variable usgs : Network (option (list RawFeature.t)).

(** An async fetch function up to its first [await]: either the cached value
    it returns at once, or the settling time and outcome of the request it
    has just sent. *)
Definition begin {B A} (net : Network B) (cacheKey url : string)
    (cast : CachedData -> A) : M CachedData (A + Z * FetchOutcome B) :=
  cached <- getFromCache cacheKey ;;
  match cached with
  | Some d => ret (inl (cast d))
  | None => p <- sendRequest net url ;; ret (inr p)
  end.

(** The rest of the function, run when the request has settled. *)
Definition resume {B A} (started : A + Z * FetchOutcome B)
    (finish : FetchOutcome B -> M CachedData A) : M CachedData A :=
  match started with
  | inl value => ret value
  | inr (settled, response) => _ <- settle settled ;; finish response
  end.

(** [try { ... } catch { return [] }]: a body that threw is [None]. *)
Definition catchEmpty {A} (body : M CachedData (option (list A))) : M CachedData (list A) :=
  r <- body ;; ret (default [] r).

Definition nasaKey : string := "nasa_eonet".
Definition nasaUrl : string :=
  "https://eonet.gsfc.nasa.gov/api/v3/events?limit=50&days=7&status=open".

Definition finishNASAEvents (response : FetchOutcome (option (list RawEvent.t)))
    : M CachedData (list NASAEvent.t) :=
  catchEmpty
    match response with
    | Responded true _ (Some (Some raw)) =>
        match mapOrThrow toNASAEvent raw with
        | Some events =>
            _ <- setCache nasaKey (NASAEvents events) ;;
            ret (Some events)
        | None => ret None
        end
    | _ => ret None
    end.

Definition fetchNASAEvents : M CachedData (list NASAEvent.t) :=
  started <- begin eonet nasaKey nasaUrl asNASAEvents ;;
  resume started finishNASAEvents.

(** The body shared by the three proxy routes: not OK returns [[]]; a body
    with [success] and a list stores and returns the list; anything else
    returns [[]]; exceptions are caught. *)
Definition finishProxy {A} (cacheKey : string) (wrap : list A -> CachedData)
    (response : FetchOutcome (ProxyBody.t A)) : M CachedData (list A) :=
  catchEmpty
    match response with
    | Rejected => ret None
    | Responded false _ _ => ret (Some [])
    | Responded true _ None => ret None
    | Responded true _ (Some body) =>
        match ProxyBody.success body, ProxyBody.items body with
        | true, Some items =>
            _ <- setCache cacheKey (wrap items) ;;
            ret (Some items)
        | _, _ => ret (Some [])
        end
    end.

Definition gdacsKey : string := "gdacs_alerts".
Definition gdacsUrl : string := BACKEND_URL +:+ "/api/external/gdacs".

Definition fetchGDACSAlerts : M CachedData (list GDACSAlert.t) :=
  started <- begin gdacsProxy gdacsKey gdacsUrl asGDACSAlerts ;;
  resume started (finishProxy gdacsKey GDACSAlerts).

Definition firmsKey (lat lon : Q) : string :=
  "firms_" +:+ toFixed lat 1 +:+ "_" +:+ toFixed lon 1.
Definition firmsUrl (lat lon : Q) : string :=
  BACKEND_URL +:+ "/api/external/firms?lat=" +:+ numToString lat
  +:+ "&lon=" +:+ numToString lon +:+ "&days=1".

Definition fetchNASAFIRMS (lat lon : Q) : M CachedData (list FIRMSFire.t) :=
  started <- begin firmsProxy (firmsKey lat lon) (firmsUrl lat lon) asFIRMSFires ;;
  resume started (finishProxy (firmsKey lat lon) FIRMSFires).

Definition imdKey (lat lon : Q) : string :=
  "imd_" +:+ toFixed lat 2 +:+ "_" +:+ toFixed lon 2.
Definition imdUrl (lat lon : Q) : string :=
  BACKEND_URL +:+ "/api/external/imd-warnings?lat=" +:+ numToString lat
  +:+ "&lon=" +:+ numToString lon.

Definition fetchIMDWarnings (lat lon : Q) : M CachedData (list IMDWarning.t) :=
  started <- begin imdProxy (imdKey lat lon) (imdUrl lat lon) asIMDWarnings ;;
  resume started (finishProxy (imdKey lat lon) IMDWarnings).

Definition usgsKey (lat lon : Q) : string :=
  "usgs_" +:+ toFixed lat 2 +:+ "_" +:+ toFixed lon 2.

(** The query URL; the two dates are read from the clock before the request
    is sent. *)
Definition usgsUrl (now : Z) (lat lon radiusKm : Q) : string :=
  let endDate := isoDate now in
  let startDate := isoDate (now - 7 * 24 * 60 * 60 * 1000) in
  "https://earthquake.usgs.gov/fdsnws/event/1/query?format=geojson&starttime="
  +:+ startDate +:+ "&endtime=" +:+ endDate +:+ "&latitude=" +:+ numToString lat
  +:+ "&longitude=" +:+ numToString lon +:+ "&maxradiuskm=" +:+ numToString radiusKm
  +:+ "&minmagnitude=2.5&orderby=magnitude".

Definition finishUSGSEarthquakes (lat lon : Q)
    (response : FetchOutcome (option (list RawFeature.t)))
    : M CachedData (list USGSEarthquake.t) :=
  catchEmpty
    match response with
    | Responded true _ (Some (Some features)) =>
        match mapOrThrow toUSGSEarthquake features with
        | Some earthquakes =>
            _ <- setCache (usgsKey lat lon) (USGSEarthquakes earthquakes) ;;
            ret (Some earthquakes)
        | None => ret None
        end
    | _ => ret None
    end.

Definition beginUSGSEarthquakes (lat lon radiusKm : Q)
    : M CachedData (list USGSEarthquake.t + Z * FetchOutcome (option (list RawFeature.t))) :=
  now <- Date_now ;;
  begin usgs (usgsKey lat lon) (usgsUrl now lat lon radiusKm) asUSGSEarthquakes.

Definition fetchUSGSEarthquakes (lat lon radiusKm : Q)
    : M CachedData (list USGSEarthquake.t) :=
  started <- beginUSGSEarthquakes lat lon radiusKm ;;
  resume started (finishUSGSEarthquakes lat lon).

Definition nasaChain (started : list NASAEvent.t + Z * FetchOutcome (option (list RawEvent.t)))
    : Chain :=
  {| due := dueOf started;
     continue := fun locals =>
       events <- resume started finishNASAEvents ;;
       now <- Date_now ;;
       ret (Locals.setNasaEvents events
              (Locals.pushSource
                 {| DataSource.name := "NASA EONET";
                    DataSource.status := statusOf events;
                    DataSource.lastUpdated := Some now;
                    DataSource.confidence := ifAny events 95 50;
                    DataSource.dataCount := Z.of_nat (length events) |} locals)) |}.

Definition gdacsChain (started : list GDACSAlert.t + Z * FetchOutcome (ProxyBody.t GDACSAlert.t))
    : Chain :=
  {| due := dueOf started;
     continue := fun locals =>
       alerts <- resume started (finishProxy gdacsKey GDACSAlerts) ;;
       now <- Date_now ;;
       ret (Locals.setGdacsAlerts alerts
              (Locals.pushSource
                 {| DataSource.name := "GDACS";
                    DataSource.status := statusOf alerts;
                    DataSource.lastUpdated := Some now;
                    DataSource.confidence := ifAny alerts 92 60;
                    DataSource.dataCount := Z.of_nat (length alerts) |} locals)) |}.

Definition usgsChain (lat lon : Q)
    (started : list USGSEarthquake.t + Z * FetchOutcome (option (list RawFeature.t)))
    : Chain :=
  {| due := dueOf started;
     continue := fun locals =>
       quakes <- resume started (finishUSGSEarthquakes lat lon) ;;
       now <- Date_now ;;
       ret (Locals.setEarthquakes quakes
              (Locals.pushSource
                 {| DataSource.name := "USGS Earthquake";
                    DataSource.status := statusOf quakes;
                    DataSource.lastUpdated := Some now;
                    DataSource.confidence := 98;
                    DataSource.dataCount := Z.of_nat (length quakes) |} locals)) |}.

Definition firmsChain (lat lon : Q)
    (started : list FIRMSFire.t + Z * FetchOutcome (ProxyBody.t FIRMSFire.t)) : Chain :=
  {| due := dueOf started;
     continue := fun locals =>
       fires <- resume started (finishProxy (firmsKey lat lon) FIRMSFires) ;;
       now <- Date_now ;;
       ret (Locals.setActiveFires fires
              (Locals.pushSource
                 {| DataSource.name := "NASA FIRMS";
                    DataSource.status := statusOf fires;
                    DataSource.lastUpdated := Some now;
                    DataSource.confidence := ifAny fires 94 70;
                    DataSource.dataCount := Z.of_nat (length fires) |} locals)) |}.

Definition imdChain (lat lon : Q)
    (started : list IMDWarning.t + Z * FetchOutcome (ProxyBody.t IMDWarning.t)) : Chain :=
  {| due := dueOf started;
     continue := fun locals =>
       warnings <- resume started (finishProxy (imdKey lat lon) IMDWarnings) ;;
       now <- Date_now ;;
       ret (Locals.setImdWarnings warnings
              (Locals.pushSource
                 {| DataSource.name := "IMD Warnings";
                    DataSource.status := Status.active;
                    DataSource.lastUpdated := Some now;
                    DataSource.confidence := ifAny warnings 88 75;
                    DataSource.dataCount := Z.of_nat (length warnings) |} locals)) |}.

(** [e.category.toLowerCase().includes(word)] *)
Definition categoryHas (word : string) (e : NASAEvent.t) : bool :=
  includes (toLowerCase (NASAEvent.category e)) word.

Section Aggregation.
Context {math : JsMath}.

Definition getAggregatedData (lat lon : Q) : M CachedData AggregatedDisasterData.t :=
  nasa <- begin eonet nasaKey nasaUrl asNASAEvents ;;
  gdacs <- begin gdacsProxy gdacsKey gdacsUrl asGDACSAlerts ;;
  quakes <- beginUSGSEarthquakes lat lon 1000 ;;
  firms <- begin firmsProxy (firmsKey lat lon) (firmsUrl lat lon) asFIRMSFires ;;
  imd <- begin imdProxy (imdKey lat lon) (imdUrl lat lon) asIMDWarnings ;;
  locals <- runAll
    (settleOrder
       [ nasaChain nasa; gdacsChain gdacs; usgsChain lat lon quakes;
         firmsChain lat lon firms; imdChain lat lon imd ])
    Locals.empty ;;
  now <- Date_now ;;
  let sources :=
    Locals.sources locals ++
    [ {| DataSource.name := "OpenWeatherMap";
         DataSource.status := Status.active;
         DataSource.lastUpdated := Some now;
         DataSource.confidence := 85;
         DataSource.dataCount := 1 |} ] in
  let nasaEvents := Locals.nasaEvents locals in
  let wildfires :=
    filter (fun e => categoryHas "wildfire" e || categoryHas "fire" e) nasaEvents in
  let storms :=
    filter (fun e => categoryHas "storm" e || categoryHas "cyclone" e) nasaEvents in
  let floods := filter (fun e => categoryHas "flood" e) nasaEvents in
  let volcanoes := filter (fun e => categoryHas "volcano" e) nasaEvents in
  let nearbyThreats :=
    calculateNearbyThreats lat lon (Locals.earthquakes locals) nasaEvents
      (Locals.gdacsAlerts locals) (Locals.activeFires locals)
      (Locals.imdWarnings locals) in
  let overallConfidence :=
    (fold_left (fun sum s => sum + DataSource.confidence s) sources 0
     / inject_Z (Z.of_nat (length sources)))%Q in
  ret {| AggregatedDisasterData.sources := sources;
         AggregatedDisasterData.events :=
           {| Events.earthquakes := Locals.earthquakes locals;
              Events.wildfires := wildfires;
              Events.activeFires := Locals.activeFires locals;
              Events.storms := storms;
              Events.floods := floods;
              Events.volcanoes := volcanoes;
              Events.gdacsAlerts := Locals.gdacsAlerts locals;
              Events.imdWarnings := Locals.imdWarnings locals |};
         AggregatedDisasterData.nearbyThreats := nearbyThreats;
         AggregatedDisasterData.overallConfidence := overallConfidence;
         AggregatedDisasterData.lastUpdated := now |}.

End Aggregation.

End Fetching.

End DisasterDataService.

(** ** shelterService *)

Module ShelterService.

Inductive ShelterType :=
  shelter | hospital | fire_station | police | school | community_center.

(** What a lookup [mapping[key] || fallback] in one of the mapping tables
    yields: a value of the table (or the fallback), or, for a key naming a
    member of [Object.prototype], that member. *)
Inductive Mapped (A : Type) :=
  | Known (value : A)
  | Inherited (key : string).
Arguments Known {A} _.
Arguments Inherited {A} _.

Module RealShelter.
Record t := {
  id : string;
  name : string;
  address : string;
  lat : Q;
  lng : Q;
  type : Mapped ShelterType;
  phone : option string;
  rating : option Q;
  isOpen : option bool;
  distance : option Q;
  placeId : option string
}.
End RealShelter.

Definition CACHE_DURATION : Z := 15 * 60 * 1000.

(** A result of the Places response; [location] is [None] when reading
    [place.geometry.location] throws. *)
Module Place.
Record t := {
  place_id : string;
  name : string;
  vicinity : option string;
  formatted_address : option string;
  location : option (Q * Q);
  rating : option Q;
  open_now : option bool
}.
End Place.

(** The Places JSON; [results] is [None] when [data.results.slice] throws. *)
Module PlacesBody.
Record t := { status : string; results : option (list Place.t) }.
End PlacesBody.

(** The [tags] of an Overpass element, each [None] when absent. *)
Module Tags.
Record t := {
  name : option string;
  amenity : option string;
  emergency : option string;
  addr_full : option string;
  addr_street : option string;
  phone : option string
}.
Definition absent : t :=
  {| name := None; amenity := None; emergency := None; addr_full := None;
     addr_street := None; phone := None |}.
End Tags.

Module Element.
Record t := {
  id : string;
  lat : option Q;
  lon : option Q;
  center : option (option Q * option Q);
  tags : option Tags.t
}.
End Element.

(** [x || y] where the empty string and [undefined] are falsy. *)
Definition orElse (x : option string) (y : string) : string :=
  match x with
  | Some (String c s) => String c s
  | _ => y
  end.

(** [x || y] on optional strings, the result possibly [undefined]. *)
Definition orElseOpt (x y : option string) : option string :=
  match x with
  | Some (String c s) => Some (String c s)
  | _ => y
  end.

(** [x || y] on optional numbers: 0 and [undefined] are falsy. *)
Definition orElseNum (x y : option Q) : option Q :=
  match x with
  | Some q => if Qeq_bool q 0 then y else Some q
  | None => y
  end.

Definition objectPrototypeKeys : list string :=
  [ "constructor"; "__defineGetter__"; "__defineSetter__"; "hasOwnProperty";
    "__lookupGetter__"; "__lookupSetter__"; "isPrototypeOf";
    "propertyIsEnumerable"; "toString"; "valueOf"; "__proto__";
    "toLocaleString" ].

(** [mapping[key] || fallback]; an absent key is the property name
    undefined. *)
Definition lookupOr {A} (mapping : list (string * A)) (key : option string)
    (fallback : A) : Mapped A :=
  let k := default "undefined" key in
  match find (fun entry => String.eqb (fst entry) k) mapping with
  | Some entry => Known (snd entry)
  | None =>
      if existsb (String.eqb k) objectPrototypeKeys then Inherited k
      else Known fallback
  end.

Definition mapGoogleTypeToShelterType (type : string) : Mapped ShelterType :=
  lookupOr
    [ ("hospital", hospital); ("fire_station", fire_station); ("police", police);
      ("school", school); ("local_government_office", community_center) ]
    (Some type) shelter.

Definition mapOsmAmenityToType (amenity : option string) : Mapped ShelterType :=
  lookupOr
    [ ("hospital", hospital); ("fire_station", fire_station); ("police", police);
      ("school", school); ("shelter", shelter); ("assembly_point", shelter) ]
    amenity shelter.

Definition mapOsmAmenityToName (amenity : option string) : Mapped string :=
  lookupOr
    [ ("hospital", "Hospital"); ("fire_station", "Fire Station");
      ("police", "Police Station"); ("school", "School");
      ("shelter", "Emergency Shelter") ]
    amenity "Emergency Facility".

Definition placeTypes : list string :=
  [ "hospital"; "fire_station"; "police"; "school"; "local_government_office" ].

Section Search.
Context {fmt : NumberFormat} {math : JsMath}.
(** Host functions: [encodeURIComponent], and the string a template literal
    makes of a member of [Object.prototype]. *)
Variable encodeURIComponent : string -> string.
Variable memberToString : string -> string.
Variable places : Network PlacesBody.t.
Variable overpass : Network (option (list Element.t)).

(** Haversine distance in km, rounded to one decimal. *)
Definition calculateDistance (lat1 lng1 lat2 lng2 : Q) : Q :=
  (let R := 6371 in
   let dLat := (lat2 - lat1) * Math_PI / 180 in
   let dLng := (lng2 - lng1) * Math_PI / 180 in
   let a :=
     Math_sin (dLat / 2) * Math_sin (dLat / 2)
     + Math_cos (lat1 * Math_PI / 180) * Math_cos (lat2 * Math_PI / 180)
       * Math_sin (dLng / 2) * Math_sin (dLng / 2) in
   let c := 2 * Math_atan2 (Math_sqrt a) (Math_sqrt (1 - a)) in
   inject_Z (Math_round (R * c * 10)) / 10)%Q.

(** [shelters.sort((a, b) => (a.distance || 0) - (b.distance || 0))] *)
Definition distanceOrZero (s : RealShelter.t) : Q := default 0%Q (RealShelter.distance s).

Fixpoint insertShelter (s : RealShelter.t) (sorted : list RealShelter.t)
    : list RealShelter.t :=
  match sorted with
  | [] => [s]
  | u :: rest =>
      if Qle_bool (distanceOrZero s) (distanceOrZero u) then s :: u :: rest
      else u :: insertShelter s rest
  end.

Definition sortShelters (shelters : list RealShelter.t) : list RealShelter.t :=
  fold_right insertShelter [] shelters.

Definition cacheKeyOf (lat lng radius : Q) : string :=
  toFixed lat 3 +:+ "," +:+ toFixed lng 3 +:+ "," +:+ numToString radius.

(** The callback of [data.elements.map] followed by the [filter] on truthy
    coordinates: the shelter of an element, if it is kept. *)
Definition elementShelter (lat lng : Q) (index : nat) (el : Element.t)
    : option RealShelter.t :=
  let tags := default Tags.absent (Element.tags el) in
  let center := default (None, None) (Element.center el) in
  let elLat := orElseNum (Element.lat el) (fst center) in
  let elLng := orElseNum (Element.lon el) (snd center) in
  match elLat, elLng with
  | Some elLat, Some elLng =>
      if negb (Qeq_bool elLat 0) && negb (Qeq_bool elLng 0) then
        Some {| RealShelter.id := "osm-" +:+ Element.id el;
                RealShelter.name :=
                  orElse (Tags.name tags)
                    (match mapOsmAmenityToName (Tags.amenity tags) with
                     | Known label => label
                     | Inherited key => memberToString key
                     end +:+ " #" +:+ numToString (inject_Z (Z.of_nat index + 1)));
                RealShelter.address :=
                  orElse (Tags.addr_full tags)
                    (orElse (Tags.addr_street tags) "Address not available");
                RealShelter.lat := elLat;
                RealShelter.lng := elLng;
                RealShelter.type :=
                  mapOsmAmenityToType (orElseOpt (Tags.amenity tags) (Tags.emergency tags));
                RealShelter.phone := Tags.phone tags;
                RealShelter.rating := None;
                RealShelter.isOpen := Some true;
                RealShelter.distance := Some (calculateDistance lat lng elLat elLng);
                RealShelter.placeId := None |}
      else None
  | _, _ => None
  end.

Fixpoint elementShelters (lat lng : Q) (index : nat) (elements : list Element.t)
    : list RealShelter.t :=
  match elements with
  | [] => []
  | el :: rest =>
      match elementShelter lat lng index el with
      | Some s => s :: elementShelters lat lng (S index) rest
      | None => elementShelters lat lng (S index) rest
      end
  end.

Definition nl : string := String (ascii_of_nat 10) EmptyString.
Definition dq : string := String (ascii_of_nat 34) EmptyString.

(** One line of the Overpass query, such as [node[k=v](bbox);] with [k] and
    [v] in double quotes. *)
Definition clause (kind key value bbox : string) : string :=
  "      " +:+ kind +:+ "[" +:+ dq +:+ key +:+ dq +:+ "=" +:+ dq +:+ value +:+ dq
  +:+ "](" +:+ bbox +:+ ");" +:+ nl.

Definition overpassQuery (bbox : string) : string :=
  nl +:+ "    [out:json][timeout:25];" +:+ nl
  +:+ "    (" +:+ nl
  +:+ clause "node" "amenity" "hospital" bbox
  +:+ clause "node" "amenity" "fire_station" bbox
  +:+ clause "node" "amenity" "police" bbox
  +:+ clause "node" "amenity" "shelter" bbox
  +:+ clause "node" "amenity" "school" bbox
  +:+ clause "node" "emergency" "assembly_point" bbox
  +:+ clause "way" "amenity" "hospital" bbox
  +:+ clause "way" "amenity" "fire_station" bbox
  +:+ clause "way" "amenity" "police" bbox
  +:+ "    );" +:+ nl
  +:+ "    out center;" +:+ nl
  +:+ "  ".

(** The POST to Overpass, logged as the URL, a space and the body. *)
Definition overpassRequest (lat lng radius : Q) : string :=
  let delta := (radius / 111000)%Q in
  let bbox :=
    numToString (lat - delta)%Q +:+ "," +:+ numToString (lng - delta)%Q +:+ ","
    +:+ numToString (lat + delta)%Q +:+ "," +:+ numToString (lng + delta)%Q in
  "https://overpass-api.de/api/interpreter data="
  +:+ encodeURIComponent (overpassQuery bbox).

Definition searchOpenStreetMapShelters (lat lng radius : Q)
    : M (list RealShelter.t) (list RealShelter.t) :=
  response <- fetch overpass (overpassRequest lat lng radius) ;;
  match response with
  | Responded true _ (Some (Some elements)) =>
      let shelters := sortShelters (elementShelters lat lng 0 elements) in
      _ <- Map_set_now (cacheKeyOf lat lng radius) shelters ;;
      ret (firstn 20 shelters)
  | _ => ret []
  end.

(** The body of the loop over the results of one place type; [None] when it
    throws. *)
Definition placeShelter (lat lng : Q) (type : string) (place : Place.t)
    : option RealShelter.t :=
  match Place.location place with
  | None => None
  | Some (placeLat, placeLng) =>
      Some {| RealShelter.id := Place.place_id place;
              RealShelter.name := Place.name place;
              RealShelter.address :=
                orElse (Place.vicinity place) (orElse (Place.formatted_address place) "");
              RealShelter.lat := placeLat;
              RealShelter.lng := placeLng;
              RealShelter.type := mapGoogleTypeToShelterType type;
              RealShelter.phone := None;
              RealShelter.rating := Place.rating place;
              RealShelter.isOpen := Place.open_now place;
              RealShelter.distance := Some (calculateDistance lat lng placeLat placeLng);
              RealShelter.placeId := Some (Place.place_id place) |}
  end.

Definition placesUrl (lat lng radius : Q) (type apiKey : string) : string :=
  "https://maps.googleapis.com/maps/api/place/nearbysearch/json?"
  +:+ "location=" +:+ numToString lat +:+ "," +:+ numToString lng
  +:+ "&radius=" +:+ numToString radius +:+ "&type=" +:+ type +:+ "&key=" +:+ apiKey.

(** The loop over [placeTypes] inside the [try]: [None] when an exception
    leaves it. *)
Fixpoint searchPlaces (lat lng radius : Q) (apiKey : string) (types : list string)
    (shelters : list RealShelter.t)
    : M (list RealShelter.t) (option (list RealShelter.t)) :=
  match types with
  | [] => ret (Some shelters)
  | type :: rest =>
      response <- fetch places (placesUrl lat lng radius type apiKey) ;;
      match response with
      | Rejected => ret None
      | Responded false _ _ => searchPlaces lat lng radius apiKey rest shelters
      | Responded true _ None => ret None
      | Responded true _ (Some body) =>
          if negb (String.eqb (PlacesBody.status body) "OK") then
            searchPlaces lat lng radius apiKey rest shelters
          else
            match PlacesBody.results body with
            | None => ret None
            | Some results =>
                match mapOrThrow (placeShelter lat lng type) (firstn 5 results) with
                | None => ret None
                | Some found =>
                    searchPlaces lat lng radius apiKey rest (shelters ++ found)
                end
            end
      end
  end.

(** [searchRealShelters] after the cache check. *)
Definition searchUncached (lat lng : Q) (apiKey : string) (radius : Q)
    : M (list RealShelter.t) (list RealShelter.t) :=
  if String.eqb apiKey "" || String.eqb apiKey "demo-key" || includes apiKey "your_" then
    searchOpenStreetMapShelters lat lng radius
  else
    found <- searchPlaces lat lng radius apiKey placeTypes [] ;;
    match found with
    | Some shelters =>
        let shelters := sortShelters shelters in
        _ <- Map_set_now (cacheKeyOf lat lng radius) shelters ;;
        ret shelters
    | None => searchOpenStreetMapShelters lat lng radius
    end.

Definition searchRealShelters (lat lng : Q) (apiKey : string) (radius : Q)
    : M (list RealShelter.t) (list RealShelter.t) :=
  let cacheKey := cacheKeyOf lat lng radius in
  cached <- Map_get cacheKey ;;
  now <- Date_now ;;
  match cached with
  | Some entry =>
      if fresh CACHE_DURATION now entry then ret (data entry)
      else searchUncached lat lng apiKey radius
  | None => searchUncached lat lng apiKey radius
  end.

End Search.

End ShelterService.

(** ** MultiHazardPanel *)

(** The part of the component that calls [getHazardPredictions]: the
    callback [generateHazardPredictions] and the state it sets.  The trend
    chart it also fills is drawn from [Math.random] and is left out. *)
Module MultiHazardPanel.
Import LocationHazardService.

Definition RiskLevel_eqb (a b : RiskLevel) : bool :=
  match a, b with
  | low, low | moderate_risk, moderate_risk | high, high | critical, critical => true
  | _, _ => false
  end.

Definition levels : list RiskLevel := [low; moderate_risk; high; critical].

(** [xs.indexOf(x)], counting from [i]. *)
Fixpoint indexOfFrom (i : Z) (xs : list RiskLevel) (x : RiskLevel) : Z :=
  match xs with
  | [] => -1
  | y :: rest => if RiskLevel_eqb y x then i else indexOfFrom (i + 1) rest x
  end.

Definition indexOf (xs : list RiskLevel) (x : RiskLevel) : Z := indexOfFrom 0 xs x.

(** [cityName || 'unknown'] *)
Definition cityOrUnknown (cityName : string) : string :=
  match cityName with
  | EmptyString => "unknown"
  | String _ _ => cityName
  end.

(** The reduction that computes the overall risk. *)
Definition maxRisk (predictions : list HazardRiskResult) : RiskLevel :=
  fold_left
    (fun max h =>
       if indexOf levels (riskLevel h) >? indexOf levels max then riskLevel h else max)
    predictions low.

Record State := {
  hazards : list HazardRiskResult;
  dataSource : string;
  lastUpdated : Z;
  overallRisk : RiskLevel;
  loading : bool
}.

Section Panel.
Context {fmt : NumberFormat} {cal : Calendar}.
Variable openWeatherMap : Network OpenWeatherBody.

Definition generateHazardPredictions (latitude longitude : Q) (cityName : string)
    : M WeatherData State :=
  realPredictions <-
    getHazardPredictions openWeatherMap (cityOrUnknown cityName) latitude longitude ;;
  now <- Date_now ;;
  ret {| hazards := realPredictions;
         dataSource := "Real-time geographic & weather analysis";
         lastUpdated := now;
         overallRisk := maxRisk realPredictions;
         loading := false |}.

End Panel.

End MultiHazardPanel.

(** ** SimpleWeatherService *)

(** The weather service with Open-Meteo as backup.  A number field is [None]
    where the response leaves it out (the field is then [undefined], or [NaN]
    for the converted wind speed); a function that throws returns [None]. *)
Module SimpleWeatherService.

Definition OPENWEATHER_API_KEY : string := "1801423b3942e324ab80f5b47afe0859".
Definition OPENWEATHER_URL : string := "https://api.openweathermap.org/data/2.5/weather".
Definition OPEN_METEO_URL : string := "https://api.open-meteo.com/v1/forecast".

Module WeatherItem.
Record t := { main : string; description : string; icon : string }.
End WeatherItem.

Module Current.
Record t := {
  temp : option Q;
  feels_like : option Q;
  humidity : option Q;
  pressure : option Q;
  wind_speed : option Q;
  visibility : Q;
  uvi : Q;
  weather : list WeatherItem.t
}.
End Current.

Module SimpleWeatherData.
Record t := {
  current : Current.t;
  last_updated : string;
  is_real : bool;
  source : string
}.
End SimpleWeatherData.

Definition CACHE_DURATION : Z := 5 * 60 * 1000.

(** The OpenWeatherMap JSON: [main] and [wind] are [None] when reading a
    member of them throws; [wind] holds the speed. *)
Module OwmMain.
Record t := {
  temp : option Q;
  feels_like : option Q;
  humidity : option Q;
  pressure : option Q
}.
End OwmMain.

Module OwmBody.
Record t := {
  main : option OwmMain.t;
  wind : option (option Q);
  visibility : option Q;
  weather : option (list WeatherItem.t)
}.
End OwmBody.

(** The Open-Meteo JSON: [current] is [None] when reading a member of it
    throws. *)
Module MeteoCurrent.
Record t := {
  temperature_2m : option Q;
  apparent_temperature : option Q;
  relative_humidity_2m : option Q;
  surface_pressure : option Q;
  wind_speed_10m : option Q;
  visibility : option Q;
  weather_code : option Z
}.
End MeteoCurrent.

Module MeteoBody.
Record t := { current : option MeteoCurrent.t }.
End MeteoBody.

(** [x || y] on numbers: 0 and [undefined] are falsy. *)
Definition orElseNum (x : option Q) (y : Q) : Q :=
  match x with
  | Some q => if Qeq_bool q 0 then y else q
  | None => y
  end.

(** [current.weather_code || 0] *)
Definition orElseCode (x : option Z) (y : Z) : Z :=
  match x with
  | Some c => if c =? 0 then y else c
  | None => y
  end.

Definition item (main description icon : string) : WeatherItem.t :=
  {| WeatherItem.main := main; WeatherItem.description := description;
     WeatherItem.icon := icon |}.

Definition weatherMap : list (Z * WeatherItem.t) :=
  [ (0, item "Clear" "clear sky" "01d");
    (1, item "Clear" "mainly clear" "01d");
    (2, item "Clouds" "partly cloudy" "02d");
    (3, item "Clouds" "overcast" "04d");
    (45, item "Fog" "fog" "50d");
    (48, item "Fog" "depositing rime fog" "50d");
    (51, item "Drizzle" "light drizzle" "09d");
    (53, item "Drizzle" "moderate drizzle" "09d");
    (55, item "Drizzle" "dense drizzle" "09d");
    (61, item "Rain" "slight rain" "10d");
    (63, item "Rain" "moderate rain" "10d");
    (65, item "Rain" "heavy rain" "10d");
    (71, item "Snow" "slight snow" "13d");
    (73, item "Snow" "moderate snow" "13d");
    (75, item "Snow" "heavy snow" "13d");
    (77, item "Snow" "snow grains" "13d");
    (80, item "Rain" "slight rain showers" "09d");
    (81, item "Rain" "moderate rain showers" "09d");
    (82, item "Rain" "violent rain showers" "09d");
    (85, item "Snow" "slight snow showers" "13d");
    (86, item "Snow" "heavy snow showers" "13d");
    (95, item "Thunderstorm" "thunderstorm" "11d");
    (96, item "Thunderstorm" "thunderstorm with slight hail" "11d");
    (99, item "Thunderstorm" "thunderstorm with heavy hail" "11d") ].

(** [weatherMap[code] || { main: 'Unknown', ... }] for a whole-number code. *)
Definition mapWeatherCode (code : Z) : WeatherItem.t :=
  match find (fun entry => fst entry =? code) weatherMap with
  | Some entry => snd entry
  | None => item "Unknown" "unknown" "01d"
  end.

(** [weatherCache.clear()] *)
Definition clearCache : M SimpleWeatherData.t unit :=
  fun w => (tt, {| clock := clock w; outbound := outbound w; store := ∅ |}).

Section Service.
Context {fmt : NumberFormat}.
(** [new Date(t).toISOString()] is left to the host. *)
Variable toISOString : Z -> string.
Variable openWeatherMap : Network OwmBody.t.
Variable openMeteo : Network MeteoBody.t.

Definition owmUrl (lat lon : Q) : string :=
  OPENWEATHER_URL +:+ "?lat=" +:+ numToString lat +:+ "&lon=" +:+ numToString lon
  +:+ "&appid=" +:+ OPENWEATHER_API_KEY +:+ "&units=metric".

Definition fetchOpenWeatherMap (lat lon : Q)
    : M SimpleWeatherData.t (option SimpleWeatherData.t) :=
  response <- fetch openWeatherMap (owmUrl lat lon) ;;
  match response with
  | Responded true _ (Some data) =>
      match OwmBody.main data, OwmBody.wind data with
      | Some main, Some speed =>
          now <- Date_now ;;
          ret (Some
                 {| SimpleWeatherData.current :=
                      {| Current.temp := OwmMain.temp main;
                         Current.feels_like := OwmMain.feels_like main;
                         Current.humidity := OwmMain.humidity main;
                         Current.pressure := OwmMain.pressure main;
                         Current.wind_speed := option_map (fun v => v * 3.6)%Q speed;
                         Current.visibility := orElseNum (OwmBody.visibility data) 10000;
                         Current.uvi := 0;
                         Current.weather :=
                           default [item "Clear" "clear sky" "01d"] (OwmBody.weather data) |};
                    SimpleWeatherData.last_updated := toISOString now;
                    SimpleWeatherData.is_real := true;
                    SimpleWeatherData.source := "OpenWeatherMap" |})
      | _, _ => ret None
      end
  | _ => ret None
  end.

Definition meteoUrl (lat lon : Q) : string :=
  OPEN_METEO_URL +:+ "?latitude=" +:+ numToString lat +:+ "&longitude=" +:+ numToString lon
  +:+ "&current=temperature_2m,relative_humidity_2m,apparent_temperature,precipitation,"
  +:+ "weather_code,surface_pressure,wind_speed_10m,visibility&timezone=auto".

Definition fetchOpenMeteo (lat lon : Q)
    : M SimpleWeatherData.t (option SimpleWeatherData.t) :=
  response <- fetch openMeteo (meteoUrl lat lon) ;;
  match response with
  | Responded true _ (Some data) =>
      match MeteoBody.current data with
      | Some current =>
          let weatherCode := orElseCode (MeteoCurrent.weather_code current) 0 in
          now <- Date_now ;;
          ret (Some
                 {| SimpleWeatherData.current :=
                      {| Current.temp := MeteoCurrent.temperature_2m current;
                         Current.feels_like := MeteoCurrent.apparent_temperature current;
                         Current.humidity := MeteoCurrent.relative_humidity_2m current;
                         Current.pressure := MeteoCurrent.surface_pressure current;
                         Current.wind_speed := MeteoCurrent.wind_speed_10m current;
                         Current.visibility :=
                           orElseNum (MeteoCurrent.visibility current) 10000;
                         Current.uvi := 0;
                         Current.weather := [mapWeatherCode weatherCode] |};
                    SimpleWeatherData.last_updated := toISOString now;
                    SimpleWeatherData.is_real := true;
                    SimpleWeatherData.source := "Open-Meteo" |})
      | None => ret None
      end
  | _ => ret None
  end.

(** [getWeather] after the cache check; [cached] is the entry read before
    it, fresh or not.  [None] is the exception thrown at the end. *)
Definition fetchWithFallback (lat lon : Q) (cacheKey : string)
    (cached : option (Entry SimpleWeatherData.t))
    : M SimpleWeatherData.t (option SimpleWeatherData.t) :=
  first <- fetchOpenWeatherMap lat lon ;;
  match first with
  | Some data => _ <- Map_set_now cacheKey data ;; ret (Some data)
  | None =>
      second <- fetchOpenMeteo lat lon ;;
      match second with
      | Some data => _ <- Map_set_now cacheKey data ;; ret (Some data)
      | None =>
          match cached with
          | Some entry => ret (Some (data entry))
          | None => ret None
          end
      end
  end.

Definition getWeather (lat lon : Q) : M SimpleWeatherData.t (option SimpleWeatherData.t) :=
  let cacheKey := toFixed lat 2 +:+ "," +:+ toFixed lon 2 in
  cached <- Map_get cacheKey ;;
  now <- Date_now ;;
  match cached with
  | Some entry =>
      if fresh CACHE_DURATION now entry then ret (Some (data entry))
      else fetchWithFallback lat lon cacheKey cached
  | None => fetchWithFallback lat lon cacheKey cached
  end.

End Service.

End SimpleWeatherService.

(** ** Real disaster alert service *)

(** [fetchRealDisasterAlerts] and the two fetch functions behind it.  Both
    requests are sent before either is answered; the function goes on when
    both have settled. *)
Module DisasterAlertService.

Inductive AlertType :=
  flood | earthquake | storm | fire | tsunami | cyclone | landslide | other.
Inductive Severity := minor | moderate | severe | extreme.

Definition typeName (t : AlertType) : string :=
  match t with
  | flood => "flood" | earthquake => "earthquake" | storm => "storm" | fire => "fire"
  | tsunami => "tsunami" | cyclone => "cyclone" | landslide => "landslide"
  | other => "other"
  end.

Module Location.
Record t := { lat : Q; lng : Q; name : string }.
End Location.

(** [distance] is set by both fetch functions, to a whole number of km. *)
Module DisasterAlert.
Record t := {
  id : string;
  type : ShelterService.Mapped AlertType;
  severity : Severity;
  title : string;
  description : string;
  location : Location.t;
  startTime : option string;
  source : string;
  url : option string;
  distance : Z
}.
End DisasterAlert.

Definition CACHE_DURATION : Z := 10 * 60 * 1000.

(** A feature of the USGS GeoJSON.  [properties] and [coordinates] are [None]
    when reading a member of them throws, [mag] when [toFixed] on it throws,
    [time] when it is no valid time and [toISOString] throws. *)
Module UsgsProps.
Record t := {
  mag : option Q;
  place : option string;
  time : option Z;
  url : option string
}.
End UsgsProps.

Module UsgsFeature.
Record t := {
  id : string;
  properties : option UsgsProps.t;
  coordinates : option (Q * Q)
}.
End UsgsFeature.

(** An event of the EONET JSON, its geometries taken to be points:
    [coordinates] is the pair longitude, latitude of a geometry, [None] when
    absent; [categoryId] is [event.categories?.[0]?.id]. *)
Module EonetGeometry.
Record t := { coordinates : option (Q * Q); date : option string }.
End EonetGeometry.

Module EonetEvent.
Record t := {
  id : string;
  title : string;
  link : option string;
  geometry : option (list EonetGeometry.t);
  categoryId : option string
}.
End EonetEvent.

(** [x || y] on strings. *)
Definition orElse (x : option string) (y : string) : string :=
  match x with
  | Some (String c s) => String c s
  | _ => y
  end.

Definition mapNASACategory (categoryId : option string) : ShelterService.Mapped AlertType :=
  ShelterService.lookupOr
    [ ("wildfires", fire); ("volcanoes", other); ("severeStorms", storm);
      ("floods", flood); ("earthquakes", earthquake); ("drought", other);
      ("dustHaze", other); ("landslides", landslide); ("manmade", other);
      ("seaLakeIce", other); ("snow", storm); ("tempExtremes", other);
      ("waterColor", other) ]
    categoryId other.

Definition severityOrder (s : Severity) : Z :=
  match s with
  | extreme => 0 | severe => 1 | moderate => 2 | minor => 3
  end.

(** The comparator of [alerts.sort] is not positive: [a] may stay in front
    of [b]. *)
Definition inOrder (a b : DisasterAlert.t) : bool :=
  let sevDiff :=
    severityOrder (DisasterAlert.severity a) - severityOrder (DisasterAlert.severity b) in
  if negb (sevDiff =? 0) then sevDiff <=? 0
  else DisasterAlert.distance a - DisasterAlert.distance b <=? 0.

(** The sort is stable: an alert goes in front of the first one it may stay
    in front of. *)
Fixpoint insertAlert (a : DisasterAlert.t) (sorted : list DisasterAlert.t)
    : list DisasterAlert.t :=
  match sorted with
  | [] => [a]
  | b :: rest => if inOrder a b then a :: b :: rest else b :: insertAlert a rest
  end.

Definition sortAlerts (alerts : list DisasterAlert.t) : list DisasterAlert.t :=
  fold_right insertAlert [] alerts.

Section Service.
Context {fmt : NumberFormat} {cal : Calendar} {math : JsMath}.
(** [new Date(t).toISOString()], and the string a template literal makes of
    a member of [Object.prototype], are left to the host. *)
Variable toISOString : Z -> string.
Variable memberToString : string -> string.
Variable usgs : Network (option (list UsgsFeature.t)).
Variable eonet : Network (option (list EonetEvent.t)).

(** Haversine distance, rounded to whole km. *)
Definition calculateDistance (lat1 lng1 lat2 lng2 : Q) : Z :=
  (let R := 6371 in
   let dLat := (lat2 - lat1) * Math_PI / 180 in
   let dLng := (lng2 - lng1) * Math_PI / 180 in
   let a :=
     Math_sin (dLat / 2) * Math_sin (dLat / 2)
     + Math_cos (lat1 * Math_PI / 180) * Math_cos (lat2 * Math_PI / 180)
       * Math_sin (dLng / 2) * Math_sin (dLng / 2) in
   let c := 2 * Math_atan2 (Math_sqrt a) (Math_sqrt (1 - a)) in
   Math_round (R * c))%Q.

(** The callback of [data.features.map]; [None] when it throws. *)
Definition toEarthquakeAlert (lat lng : Q) (feature : UsgsFeature.t)
    : option DisasterAlert.t :=
  match UsgsFeature.coordinates feature, UsgsFeature.properties feature with
  | Some coords, Some props =>
      match UsgsProps.mag props, UsgsProps.time props with
      | Some magnitude, Some time =>
          let distance := calculateDistance lat lng (snd coords) (fst coords) in
          Some {| DisasterAlert.id := "usgs-" +:+ UsgsFeature.id feature;
                  DisasterAlert.type := ShelterService.Known earthquake;
                  DisasterAlert.severity :=
                    if Qgeb magnitude 6 then extreme
                    else if Qgeb magnitude 5 then severe
                    else if Qgeb magnitude 4 then moderate
                    else minor;
                  DisasterAlert.title := "M" +:+ toFixed magnitude 1 +:+ " Earthquake";
                  DisasterAlert.description :=
                    orElse (UsgsProps.place props) "Location unknown";
                  DisasterAlert.location :=
                    {| Location.lat := snd coords;
                       Location.lng := fst coords;
                       Location.name := orElse (UsgsProps.place props) "Unknown" |};
                  DisasterAlert.startTime := Some (toISOString time);
                  DisasterAlert.source := "USGS";
                  DisasterAlert.url := UsgsProps.url props;
                  DisasterAlert.distance := distance |}
      | _, _ => None
      end
  | _, _ => None
  end.

(** [fetchUSGSEarthquakes] from the response on. *)
Definition earthquakeAlerts (lat lng : Q)
    (response : FetchOutcome (option (list UsgsFeature.t))) : list DisasterAlert.t :=
  match response with
  | Responded true _ (Some (Some features)) =>
      match mapOrThrow (toEarthquakeAlert lat lng) features with
      | Some alerts => firstn 10 alerts
      | None => []
      end
  | _ => []
  end.

Definition usgsUrl (now : Z) (lat lng radiusKm : Q) : string :=
  let weekAgo := now - 7 * 24 * 60 * 60 * 1000 in
  "https://earthquake.usgs.gov/fdsnws/event/1/query?format=geojson"
  +:+ "&starttime=" +:+ isoDate weekAgo
  +:+ "&latitude=" +:+ numToString lat +:+ "&longitude=" +:+ numToString lng
  +:+ "&maxradiuskm=" +:+ numToString radiusKm
  +:+ "&minmagnitude=2.5&orderby=time".

(** The first geometry with coordinates, as the [filter] callback reads it. *)
Definition firstPlace (event : EonetEvent.t) : option (EonetGeometry.t * (Q * Q)) :=
  match EonetEvent.geometry event with
  | Some (geometry :: _) =>
      match EonetGeometry.coordinates geometry with
      | Some coordinates => Some (geometry, coordinates)
      | None => None
      end
  | _ => None
  end.

Definition withinRadius (lat lng radiusKm : Q) (event : EonetEvent.t) : bool :=
  match firstPlace event with
  | Some (_, (evtLng, evtLat)) =>
      Qle_bool (inject_Z (calculateDistance lat lng evtLat evtLng)) radiusKm
  | None => false
  end.

(** The callback of [map], on an event that passed the filter. *)
Definition toEonetAlert (lat lng : Q) (event : EonetEvent.t) : option DisasterAlert.t :=
  match firstPlace event with
  | Some (geometry, (evtLng, evtLat)) =>
      let distance := calculateDistance lat lng evtLat evtLng in
      let eventType := mapNASACategory (EonetEvent.categoryId event) in
      Some {| DisasterAlert.id := "nasa-" +:+ EonetEvent.id event;
              DisasterAlert.type := eventType;
              DisasterAlert.severity := moderate;
              DisasterAlert.title := EonetEvent.title event;
              DisasterAlert.description :=
                "Active "
                +:+ match eventType with
                    | ShelterService.Known t => typeName t
                    | ShelterService.Inherited key => memberToString key
                    end
                +:+ " event detected by NASA satellites";
              DisasterAlert.location :=
                {| Location.lat := evtLat; Location.lng := evtLng;
                   Location.name := EonetEvent.title event |};
              DisasterAlert.startTime := EonetGeometry.date geometry;
              DisasterAlert.source := "NASA EONET";
              DisasterAlert.url := EonetEvent.link event;
              DisasterAlert.distance := distance |}
  | None => None
  end.

(** [fetchNASAEONET] from the response on. *)
Definition eonetAlerts (lat lng radiusKm : Q)
    (response : FetchOutcome (option (list EonetEvent.t))) : list DisasterAlert.t :=
  match response with
  | Responded true _ (Some (Some events)) =>
      firstn 10
        (omap (toEonetAlert lat lng)
           (List.filter (withinRadius lat lng radiusKm) events))
  | _ => []
  end.

Definition eonetUrl : string := "https://eonet.gsfc.nasa.gov/api/v3/events?status=open&limit=50".

Definition cacheKeyOf (lat lng radiusKm : Q) : string :=
  toFixed lat 1 +:+ "," +:+ toFixed lng 1 +:+ "," +:+ numToString radiusKm.

(** [fetchRealDisasterAlerts] after the cache check. *)
Definition fetchUncached (lat lng radiusKm : Q)
    : M (list DisasterAlert.t) (list DisasterAlert.t) :=
  now <- Date_now ;;
  quakes <- sendRequest usgs (usgsUrl now lat lng radiusKm) ;;
  events <- sendRequest eonet eonetUrl ;;
  _ <- settle (Z.max (fst quakes) (fst events)) ;;
  let alerts := [] in
  let alerts := alerts ++ earthquakeAlerts lat lng (snd quakes) in
  let alerts := alerts ++ eonetAlerts lat lng radiusKm (snd events) in
  let alerts := sortAlerts alerts in
  _ <- Map_set_now (cacheKeyOf lat lng radiusKm) alerts ;;
  ret alerts.

Definition fetchRealDisasterAlerts (lat lng radiusKm : Q)
    : M (list DisasterAlert.t) (list DisasterAlert.t) :=
  cached <- Map_get (cacheKeyOf lat lng radiusKm) ;;
  now <- Date_now ;;
  match cached with
  | Some entry =>
      if fresh CACHE_DURATION now entry then ret (data entry)
      else fetchUncached lat lng radiusKm
  | None => fetchUncached lat lng radiusKm
  end.

End Service.

(** [alertCache.clear()] *)
Definition clearAlertCache : M (list DisasterAlert.t) unit :=
  fun w => (tt, {| clock := clock w; outbound := outbound w; store := ∅ |}).

End DisasterAlertService.

(** * Vocabulary of the properties *)

Section CacheVocabulary.
Context {D : Type}.

(** What becomes of the entries a cache held at the time [now] of a call:
    each is still there unchanged, unless it had expired by then, in which
    case its key still has an entry. *)
Definition keeps (duration now : Z) (before after : gmap string (Entry D)) : Prop :=
  forall (key : string) (entry : Entry D),
    before !! key = Some entry ->
    after !! key = Some entry
    \/ (fresh duration now entry = false /\ is_Some (after !! key)).

(** The cache test of the three services, as one function of the store, the
    key and the clock reading. *)
Definition lookupFresh (duration : Z) (w : World D) (key : string) : option D :=
  match store w !! key with
  | Some entry => if fresh duration (clock w) entry then Some (data entry) else None
  | None => None
  end.

(** The store after a step: as before, or with one entry set under the key. *)
Definition setsAtMost (key : string) (before after : gmap string (Entry D)) : Prop :=
  after = before \/ exists entry, after = <[key := entry]> before.

(** The cache holds, under the key, an entry younger than the duration. *)
Definition holdsFresh (duration : Z) (w : World D) (key : string) (entry : Entry D)
    : Prop :=
  store w !! key = Some entry /\ clock w - timestamp entry < duration.

(** The call returns the value and leaves the world as it was: nothing is
    sent, the cache is not written. *)
Definition servedFromCache {A} (call : M D A) (w : World D) (value : A) : Prop :=
  call w = (value, w).

(** The call removes no entry, and replaces none that had not expired when
    the call was made. *)
Definition evictsNothing {A} (duration : Z) (call : M D A) : Prop :=
  forall w : World D, keeps duration (clock w) (store w) (store (snd (call w))).

(** A fetch failed: the request was rejected (network failure, timeout) or
    the response status is not OK. *)
Definition failed {B} (response : FetchOutcome B) : bool :=
  match response with
  | Rejected => true
  | Responded ok _ _ => negb ok
  end.

(** The body of a response the functions go on with: none for a rejected
    fetch, a non-OK status or a body that cannot be read. *)
Definition answer {B} (response : FetchOutcome B) : option B :=
  match response with
  | Responded true _ (Some body) => Some body
  | _ => None
  end.

(** The requests the call sent, given the log before it. *)
Definition sends {A} (call : M D A) (w : World D) (urls : list string) : Prop :=
  outbound (snd (call w)) = outbound w ++ urls.

End CacheVocabulary.

Section HazardVocabulary.
Import LocationHazardService.
Context {fmt : NumberFormat}.

(** The geographic data, respectively the weather, can change the probability
    a hazard's scoring function returns. *)
Definition geographyMatters (h : HazardType) : Prop :=
  exists month g1 g2 weather,
    ~ (probability (scoreHazard h month g1 weather)
       == probability (scoreHazard h month g2 weather))%Q.

Definition weatherMatters (h : HazardType) : Prop :=
  exists month geoData w1 w2,
    ~ (probability (scoreHazard h month geoData w1)
       == probability (scoreHazard h month geoData w2))%Q.

Definition sampleGeo (t : Terrain) (coast : bool) (zone : Z) (v : Vegetation)
    : CityGeographicData :=
  mkCity 200 t false 100 coast 500 zone 800 v rare.

Definition sampleWeather (humid wind rain : Q) : WeatherData :=
  {| temperature := 25; humidity := humid; windSpeed := wind; rainfall24h := rain;
     pressure := 1013; description := "clear"; clouds := 20 |}.

Definition delhi : CityGeographicData :=
  mkCity 216 flat true 5 false 1000 4 797 urban occasional.

(** City names made of white space only. *)
Fixpoint allWhiteSpace (s : string) : bool :=
  match s with
  | EmptyString => true
  | String c s' => isWhiteSpace c && allWhiteSpace s'
  end.

Definition weatherKey (lat lon : Q) : string :=
  toFixed lat 2 +:+ "," +:+ toFixed lon 2.

(** The URL [getWeatherData] requests. *)
Definition weatherUrl (lat lon : Q) : string :=
  "https://api.openweathermap.org/data/2.5/weather?lat=" +:+ numToString lat
  +:+ "&lon=" +:+ numToString lon +:+ "&appid=" +:+ API_KEY +:+ "&units=metric".

(** The weather [getWeatherData] makes of a response body. *)
Definition weatherOf (body : OpenWeatherBody) : WeatherData :=
  {| temperature := default 25%Q (main_temp body);
     humidity := default 50%Q (main_humidity body);
     windSpeed := default 0%Q (wind_speed body);
     rainfall24h := default (default 0%Q (rain_3h body)) (rain_1h body);
     pressure := default 1013%Q (main_pressure body);
     description := default "clear" (weather_0_description body);
     clouds := default 0%Q (clouds_all body) |}.

(** [below t1 t2]: the score of [t1] is not negative and not above that of
    [t2]. *)
Definition below (t1 t2 : Tally) : Prop := 0 <= fst t1 /\ fst t1 <= fst t2.

End HazardVocabulary.

Section DisasterVocabulary.
Import DisasterDataService.
Context {fmt : NumberFormat} {cal : Calendar}.

(** Ascending by distance. *)
Definition nearerOrEqual (a b : Threat.t) : Prop :=
  Threat.distance a <= Threat.distance b.

(** No fresh entry under the key at the time of the call. *)
Definition uncached (key : string) (w : World CachedData) : Prop :=
  fst (getFromCache key w) = None.

(** The chain appends one source, of the given name, to [sources]. *)
Definition pushesSource (c : Chain) (name : string) : Prop :=
  forall locals w,
    map DataSource.name (Locals.sources (fst (continue c locals w)))
    = map DataSource.name (Locals.sources locals) ++ [name].

Definition sixSources : list string :=
  [ "NASA EONET"; "GDACS"; "USGS Earthquake"; "NASA FIRMS"; "IMD Warnings";
    "OpenWeatherMap" ].

(** A started fetch is pending only if the cache held nothing fresh. *)
Definition missed {A B} (started : A + Z * FetchOutcome B) (w : World CachedData)
    (key : string) : Prop :=
  match started with
  | inl _ => True
  | inr _ => lookupFresh CACHE_DURATION w key = None
  end.

(** Run at any later point, the chain leaves the entries held at [w0] as
    [keeps] describes. *)
Definition safeChain (w0 : World CachedData) (c : Chain) : Prop :=
  forall locals w,
    keeps CACHE_DURATION (clock w0) (store w0) (store w) ->
    keeps CACHE_DURATION (clock w0) (store w0) (store (snd (continue c locals w))).

(** Each shape of data sits under a key of the function that stores it. *)
Definition keyFits (key : string) (d : CachedData) : Prop :=
  match d with
  | NASAEvents _ => key = nasaKey
  | GDACSAlerts _ => key = gdacsKey
  | FIRMSFires _ => String.prefix "firms_" key = true
  | IMDWarnings _ => String.prefix "imd_" key = true
  | USGSEarthquakes _ => String.prefix "usgs_" key = true
  end.

Definition wellKeyed (s : gmap string (Entry CachedData)) : Prop :=
  forall key entry, s !! key = Some entry -> keyFits key (data entry).

(** A step that keeps the cache well keyed. *)
Definition keepsShapes {A} (step : M CachedData A) : Prop :=
  forall w, wellKeyed (store w) -> wellKeyed (store (snd (step w))).

Definition chainKeepsShapes (c : Chain) : Prop :=
  forall locals, keepsShapes (continue c locals).

(** The request a fetch function sends at a world: none when the cache holds
    a fresh entry under its key. *)
Definition requestIfMissed (w : World CachedData) (key url : string) : list string :=
  match lookupFresh CACHE_DURATION w key with
  | Some _ => []
  | None => [url]
  end.

(** Continuing the chain sends nothing. *)
Definition quiet (c : Chain) : Prop :=
  forall locals w, outbound (snd (continue c locals w)) = outbound w.

(** The chain appends one source, active and with a confidence in the range. *)
Definition pushesWithin (c : Chain) (range : Q * Q) : Prop :=
  forall locals w,
    exists s,
      Locals.sources (fst (continue c locals w)) = Locals.sources locals ++ [s]
      /\ DataSource.status s = Status.active
      /\ (fst range <= DataSource.confidence s <= snd range)%Q.

Definition total (l : list Q) : Q := fold_right Qplus 0%Q l.

(** A feature, respectively an event, the [map] callback throws on. *)
Definition malformedFeature (f : RawFeature.t) : Prop :=
  RawFeature.properties f = None \/ RawFeature.geometry f = None.

Definition malformedEvent (e : RawEvent.t) : Prop := RawEvent.categories e = None.

(** The world a fetch function is called in once the calls before it have
    sent [urls]: the clock and the cache of [w], the log extended. *)
Definition afterSending (w : World CachedData) (urls : list string) : World CachedData :=
  {| clock := clock w; outbound := outbound w ++ urls; store := store w |}.

(** Name and item count of a source. *)
Definition listed (s : DataSource.t) : string * Z :=
  (DataSource.name s, DataSource.dataCount s).

(** The chain appends one source, with the given name and count. *)
Definition pushesListed (c : Chain) (entry : string * Z) : Prop :=
  forall locals w,
    map listed (Locals.sources (fst (continue c locals w)))
    = map listed (Locals.sources locals) ++ [entry].

(** The chain sets the local to the value, respectively leaves it as it is. *)
Definition assigns {A} (local : Locals.t -> A) (value : A) (c : Chain) : Prop :=
  forall locals w, local (fst (continue c locals w)) = value.

Definition leaves {A} (local : Locals.t -> A) (c : Chain) : Prop :=
  forall locals w, local (fst (continue c locals w)) = local locals.

End DisasterVocabulary.

Section ThreatVocabulary.
Import DisasterDataService.
Context {fmt : NumberFormat} {math : JsMath}.

(** The threats [calculateNearbyThreats] has collected when it sorts: those of
    the five loops, in the order the loops push them. *)
Definition allThreats (lat lon : Q)
    (earthquakes : list USGSEarthquake.t) (nasaEvents : list NASAEvent.t)
    (gdacsAlerts : list GDACSAlert.t) (activeFires : list FIRMSFire.t)
    (imdWarnings : list IMDWarning.t) : list Threat.t :=
  gdacsThreats lat lon gdacsAlerts
    (imdThreats imdWarnings
       (fireThreats activeFires
          (nasaThreats lat lon nasaEvents (earthquakeThreats lat lon earthquakes [])))).

(** The bound on the distance shown for a threat, by the source named in it. *)
Definition withinReach (t : Threat.t) : Prop :=
  (Threat.source t = "USGS" /\ Threat.distance t <= 500)
  \/ (Threat.source t = "NASA EONET" /\ Threat.distance t <= 1000)
  \/ (Threat.source t = "NASA FIRMS" /\ Threat.distance t <= 200)
  \/ (Threat.source t = "IMD" /\ Threat.distance t = 0)
  \/ (Threat.source t = "GDACS" /\ Threat.distance t <= 1000).




End ThreatVocabulary.

Section ShelterVocabulary.
Import ShelterService.

(** Ascending by the distance the sort compares. *)
Definition closerOrEqual (a b : RealShelter.t) : Prop :=
  (distanceOrZero a <= distanceOrZero b)%Q.

(** An API key [searchRealShelters] does not use: empty, the demo key, or
    one containing the placeholder text. *)
Definition placeholderKey (apiKey : string) : Prop :=
  apiKey = "" \/ apiKey = "demo-key" \/ includes apiKey "your_" = true.

End ShelterVocabulary.

Section SimpleWeatherVocabulary.
Import SimpleWeatherService.

(** A weather value as the two fetch functions build it. *)
Definition genuine (d : SimpleWeatherData.t) : Prop :=
  SimpleWeatherData.is_real d = true
  /\ (SimpleWeatherData.source d = "OpenWeatherMap"
      \/ SimpleWeatherData.source d = "Open-Meteo")
  /\ Current.uvi (SimpleWeatherData.current d) = 0%Q.

Definition allGenuine (s : gmap string (Entry SimpleWeatherData.t)) : Prop :=
  forall key entry, s !! key = Some entry -> genuine (data entry).

End SimpleWeatherVocabulary.

Section AlertVocabulary.
Import DisasterAlertService.

(** The order of the alert list: more severe first, nearer first among
    alerts of one severity. *)
Definition moreUrgent (a b : DisasterAlert.t) : Prop :=
  severityOrder (DisasterAlert.severity a) < severityOrder (DisasterAlert.severity b)
  \/ (severityOrder (DisasterAlert.severity a) = severityOrder (DisasterAlert.severity b)
      /\ DisasterAlert.distance a <= DisasterAlert.distance b).

(** What an alert of either source looks like. *)
Definition fromKnownSource (radiusKm : Q) (a : DisasterAlert.t) : Prop :=
  (DisasterAlert.source a = "USGS"
   /\ DisasterAlert.type a = ShelterService.Known earthquake)
  \/ (DisasterAlert.source a = "NASA EONET"
      /\ DisasterAlert.severity a = moderate
      /\ (inject_Z (DisasterAlert.distance a) <= radiusKm)%Q).

(** What the two requests of a call that finds nothing fresh get: when each
    settles and how. *)
Definition quakeOutcome {fmt : NumberFormat} {cal : Calendar}
    (usgs : Network (option (list UsgsFeature.t))) (lat lng radiusKm : Q)
    (w : World (list DisasterAlert.t)) : Z * FetchOutcome (option (list UsgsFeature.t)) :=
  usgs (outbound w ++ [usgsUrl (clock w) lat lng radiusKm]) (clock w).

Definition eventOutcome {fmt : NumberFormat} {cal : Calendar}
    (eonet : Network (option (list EonetEvent.t))) (lat lng radiusKm : Q)
    (w : World (list DisasterAlert.t)) : Z * FetchOutcome (option (list EonetEvent.t)) :=
  eonet ((outbound w ++ [usgsUrl (clock w) lat lng radiusKm]) ++ [eonetUrl]) (clock w).

End AlertVocabulary.

Section MathVocabulary.
Context {math : JsMath}.







End MathVocabulary.

(** Environments and inputs of the closed examples. *)
Section Samples.

(** OpenWeatherMap answers after 120 ms: 31.5 degrees, 88% humidity, 12.4 mm
    of rain in the last hour. *)
Definition monsoonDay : Network LocationHazardService.OpenWeatherBody :=
  fun _ sentAt =>
    (sentAt + 120,
     Responded true 200
       (Some {| LocationHazardService.main_temp := Some 31.5%Q;
                LocationHazardService.main_humidity := Some 88%Q;
                LocationHazardService.wind_speed := Some 6.2%Q;
                LocationHazardService.rain_1h := Some 12.4%Q;
                LocationHazardService.rain_3h := None;
                LocationHazardService.main_pressure := Some 1002%Q;
                LocationHazardService.weather_0_description := Some "heavy rain";
                LocationHazardService.clouds_all := Some 90%Q |})).

(** EONET answers an empty event list after 900 ms, the GDACS proxy an empty
    alert list after 100 ms. *)
Definition slowEonet : Network (option (list DisasterDataService.RawEvent.t)) :=
  fun _ sentAt => (sentAt + 900, Responded true 200 (Some (Some []))).

Definition quickGdacs
    : Network (DisasterDataService.ProxyBody.t DisasterDataService.GDACSAlert.t) :=
  fun _ sentAt =>
    (sentAt + 100,
     Responded true 200
       (Some {| DisasterDataService.ProxyBody.success := true;
                DisasterDataService.ProxyBody.items := Some [] |})).

Definition emptyWorld {D} : World D := {| clock := 0; outbound := []; store := ∅ |}.

(** EONET answers after 700 ms with a wildfire two degrees north of Delhi;
    the GDACS proxy answers 503 after 50 ms. *)
Definition wildfireEvent : DisasterDataService.RawEvent.t :=
  {| DisasterDataService.RawEvent.id := "EONET_6011";
     DisasterDataService.RawEvent.title := "Wildfire near Shimla";
     DisasterDataService.RawEvent.description := None;
     DisasterDataService.RawEvent.categories := Some [Some "Wildfires"];
     DisasterDataService.RawEvent.geometry :=
       Some [ {| DisasterDataService.Geometry.date := "2024-05-28T00:00:00Z";
                 DisasterDataService.Geometry.type := "Point";
                 DisasterDataService.Geometry.coordinates := (77.21, 30.61)%Q |} ];
     DisasterDataService.RawEvent.sources := [] |}.

Definition wildfireEonet : Network (option (list DisasterDataService.RawEvent.t)) :=
  fun _ sentAt => (sentAt + 700, Responded true 200 (Some (Some [wildfireEvent]))).

Definition gdacsDown
    : Network (DisasterDataService.ProxyBody.t DisasterDataService.GDACSAlert.t) :=
  fun _ sentAt => (sentAt + 50, Responded false 503 None).

Definition quakeNearDelhi : DisasterDataService.USGSEarthquake.t :=
  {| DisasterDataService.USGSEarthquake.id := "us7000";
     DisasterDataService.USGSEarthquake.magnitude := 5.2;
     DisasterDataService.USGSEarthquake.place := "12 km NE of Delhi";
     DisasterDataService.USGSEarthquake.time := 1700000000000;
     DisasterDataService.USGSEarthquake.coordinates := (77.3, 28.7, 10)%Q;
     DisasterDataService.USGSEarthquake.tsunami := false;
     DisasterDataService.USGSEarthquake.alert := None;
     DisasterDataService.USGSEarthquake.significance := 416 |}.

Definition heatWarning : DisasterDataService.IMDWarning.t :=
  {| DisasterDataService.IMDWarning.type := "Heat Wave";
     DisasterDataService.IMDWarning.severity := DisasterDataService.WarningLevel.Red;
     DisasterDataService.IMDWarning.message := "Severe heat wave conditions";
     DisasterDataService.IMDWarning.instructions := ["Stay hydrated"];
     DisasterDataService.IMDWarning.valid_from := "2024-05-28";
     DisasterDataService.IMDWarning.valid_until := "2024-05-30" |}.

(** USGS answers after 300 ms with the earthquake near Delhi; in [tornFeed]
    the response also holds a feature without geometry. *)
Definition quakeFeature : DisasterDataService.RawFeature.t :=
  {| DisasterDataService.RawFeature.id := "us7000";
     DisasterDataService.RawFeature.properties :=
       Some {| DisasterDataService.RawProperties.mag := 5.2;
               DisasterDataService.RawProperties.place := "12 km NE of Delhi";
               DisasterDataService.RawProperties.time := 1700000000000;
               DisasterDataService.RawProperties.tsunami := 0;
               DisasterDataService.RawProperties.alert := None;
               DisasterDataService.RawProperties.sig := 416 |};
     DisasterDataService.RawFeature.geometry := Some (77.3, 28.7, 10)%Q |}.

Definition tornFeature : DisasterDataService.RawFeature.t :=
  {| DisasterDataService.RawFeature.id := "us7001";
     DisasterDataService.RawFeature.properties :=
       DisasterDataService.RawFeature.properties quakeFeature;
     DisasterDataService.RawFeature.geometry := None |}.

Definition quakeFeed : Network (option (list DisasterDataService.RawFeature.t)) :=
  fun _ sentAt => (sentAt + 300, Responded true 200 (Some (Some [quakeFeature]))).

Definition tornFeed : Network (option (list DisasterDataService.RawFeature.t)) :=
  fun _ sentAt =>
    (sentAt + 300, Responded true 200 (Some (Some [quakeFeature; tornFeature]))).

(** EONET answers with one event whose categories cannot be read. *)
Definition tornEvent : DisasterDataService.RawEvent.t :=
  {| DisasterDataService.RawEvent.id := "EONET_1";
     DisasterDataService.RawEvent.title := "Wildfire";
     DisasterDataService.RawEvent.description := None;
     DisasterDataService.RawEvent.categories := None;
     DisasterDataService.RawEvent.geometry := None;
     DisasterDataService.RawEvent.sources := [] |}.

Definition tornEonet : Network (option (list DisasterDataService.RawEvent.t)) :=
  fun _ sentAt => (sentAt + 900, Responded true 200 (Some (Some [tornEvent]))).




(** Overpass answers after 400 ms with a hospital node and a school way. *)
Definition twoPlaces : list ShelterService.Element.t :=
  [ {| ShelterService.Element.id := "101";
       ShelterService.Element.lat := Some 30.61%Q;
       ShelterService.Element.lon := Some 77.21%Q;
       ShelterService.Element.center := None;
       ShelterService.Element.tags :=
         Some {| ShelterService.Tags.name := Some "City Hospital";
                 ShelterService.Tags.amenity := Some "hospital";
                 ShelterService.Tags.emergency := None;
                 ShelterService.Tags.addr_full := None;
                 ShelterService.Tags.addr_street := None;
                 ShelterService.Tags.phone := None |} |};
    {| ShelterService.Element.id := "102";
       ShelterService.Element.lat := None;
       ShelterService.Element.lon := None;
       ShelterService.Element.center := Some (Some 29.61%Q, Some 77.21%Q);
       ShelterService.Element.tags :=
         Some {| ShelterService.Tags.name := None;
                 ShelterService.Tags.amenity := Some "school";
                 ShelterService.Tags.emergency := None;
                 ShelterService.Tags.addr_full := None;
                 ShelterService.Tags.addr_street := None;
                 ShelterService.Tags.phone := None |} |} ].

Definition overpassTwo : Network (option (list ShelterService.Element.t)) :=
  fun _ sentAt => (sentAt + 400, Responded true 200 (Some (Some twoPlaces))).

(** Google Places answers each type search after 200 ms with one place, each
    a degree of latitude closer than the one before. *)
Definition placesByRequest : Network ShelterService.PlacesBody.t :=
  fun sent sentAt =>
    let n := Z.of_nat (length sent) in
    (sentAt + 200,
     Responded true 200
       (Some {| ShelterService.PlacesBody.status := "OK";
                ShelterService.PlacesBody.results :=
                  Some [ {| ShelterService.Place.place_id := "place-" +:+ pretty n;
                            ShelterService.Place.name := "Shelter " +:+ pretty n;
                            ShelterService.Place.vicinity := Some "Ring Road";
                            ShelterService.Place.formatted_address := None;
                            ShelterService.Place.location :=
                              Some ((28.61 + inject_Z (6 - n))%Q, 77.21%Q);
                            ShelterService.Place.rating := None;
                            ShelterService.Place.open_now := Some true |} ] |})).

(** A weather cached an hour ago, and Open-Meteo answering after 250 ms with
    slight rain. *)
Definition agedWeather : SimpleWeatherService.SimpleWeatherData.t :=
  {| SimpleWeatherService.SimpleWeatherData.current :=
       {| SimpleWeatherService.Current.temp := Some 29.5%Q;
          SimpleWeatherService.Current.feels_like := Some 33%Q;
          SimpleWeatherService.Current.humidity := Some 70%Q;
          SimpleWeatherService.Current.pressure := Some 1004%Q;
          SimpleWeatherService.Current.wind_speed := Some 14.4%Q;
          SimpleWeatherService.Current.visibility := 8000;
          SimpleWeatherService.Current.uvi := 0;
          SimpleWeatherService.Current.weather :=
            [SimpleWeatherService.item "Clouds" "overcast" "04d"] |};
     SimpleWeatherService.SimpleWeatherData.last_updated := "2024-05-28T09:00:00.000Z";
     SimpleWeatherService.SimpleWeatherData.is_real := true;
     SimpleWeatherService.SimpleWeatherData.source := "OpenWeatherMap" |}.

Definition rainyMeteo : Network SimpleWeatherService.MeteoBody.t :=
  fun _ sentAt =>
    (sentAt + 250,
     Responded true 200
       (Some {| SimpleWeatherService.MeteoBody.current :=
                  Some {| SimpleWeatherService.MeteoCurrent.temperature_2m := Some 27.1%Q;
                          SimpleWeatherService.MeteoCurrent.apparent_temperature :=
                            Some 30.2%Q;
                          SimpleWeatherService.MeteoCurrent.relative_humidity_2m :=
                            Some 91%Q;
                          SimpleWeatherService.MeteoCurrent.surface_pressure :=
                            Some 1001%Q;
                          SimpleWeatherService.MeteoCurrent.wind_speed_10m := Some 11%Q;
                          SimpleWeatherService.MeteoCurrent.visibility := None;
                          SimpleWeatherService.MeteoCurrent.weather_code := Some 61 |} |})).

(** USGS answers after 300 ms with a magnitude 6.1 and a magnitude 4.3
    earthquake, EONET after 700 ms with a wildfire two degrees north. *)
Definition alertQuakes : Network (option (list DisasterAlertService.UsgsFeature.t)) :=
  fun _ sentAt =>
    (sentAt + 300,
     Responded true 200
       (Some (Some
          [ {| DisasterAlertService.UsgsFeature.id := "us6000a";
               DisasterAlertService.UsgsFeature.properties :=
                 Some {| DisasterAlertService.UsgsProps.mag := Some 4.3%Q;
                         DisasterAlertService.UsgsProps.place := Some "40 km W of Rohtak";
                         DisasterAlertService.UsgsProps.time := Some 1716886800000;
                         DisasterAlertService.UsgsProps.url := None |};
               DisasterAlertService.UsgsFeature.coordinates := Some (76.21, 28.61)%Q |};
            {| DisasterAlertService.UsgsFeature.id := "us6000b";
               DisasterAlertService.UsgsFeature.properties :=
                 Some {| DisasterAlertService.UsgsProps.mag := Some 6.1%Q;
                         DisasterAlertService.UsgsProps.place := None;
                         DisasterAlertService.UsgsProps.time := Some 1716890400000;
                         DisasterAlertService.UsgsProps.url := None |};
               DisasterAlertService.UsgsFeature.coordinates := Some (77.21, 31.61)%Q |} ]))).

Definition alertEvents : Network (option (list DisasterAlertService.EonetEvent.t)) :=
  fun _ sentAt =>
    (sentAt + 700,
     Responded true 200
       (Some (Some
          [ {| DisasterAlertService.EonetEvent.id := "EONET_6500";
               DisasterAlertService.EonetEvent.title := "Wildfire in Uttarakhand";
               DisasterAlertService.EonetEvent.link := None;
               DisasterAlertService.EonetEvent.geometry :=
                 Some [ {| DisasterAlertService.EonetGeometry.coordinates :=
                             Some (77.21, 30.61)%Q;
                           DisasterAlertService.EonetGeometry.date :=
                             Some "2024-05-27T00:00:00Z" |} ];
               DisasterAlertService.EonetEvent.categoryId := Some "wildfires" |} ]))).

End Samples.

(** * Properties *)

(** ** Hazard scores: range, clamping and risk level *)

Section HazardScores.
Import LocationHazardService.
Context {fmt : NumberFormat}.

Lemma fst_add k m t : fst (add k m t) = fst t + k.
Proof. reflexivity. Qed.

Lemma fst_assign k m t : fst (assign k m t) = k.
Proof. reflexivity. Qed.

Lemma fst_note m t : fst (note m t) = fst t.
Proof. reflexivity. Qed.

(** Proves [0 <= fst tally] for a tally written as a chain of [let]s and
    conditionals over [add], [assign] and [note], one update at a time. *)
Ltac tally_nonneg :=
  lazymatch goal with
  | |- 0 <= fst (let t := ?v in @?body t) =>
      let H := fresh "H" in
      assert (H : 0 <= fst v);
      [ tally_nonneg
      | revert H; generalize v;
        let x := fresh "t" in
        intros x H;
        lazymatch goal with
        | |- 0 <= fst (let t := _ in @?body' t) => change (0 <= fst (body' x)); cbv beta
        end;
        tally_nonneg ]
  | |- 0 <= fst (if ?b then _ else _) => case b; tally_nonneg
  | |- _ =>
      repeat first [rewrite fst_add | rewrite fst_assign | rewrite fst_note];
      change (fst start) with 0 in *; lia
  end.

Lemma floodTally_nonneg month geoData weather :
  0 <= fst (floodTally month geoData weather).
Proof. cbv beta delta [floodTally]. tally_nonneg. Qed.

Lemma earthquakeTally_nonneg geoData : 0 <= fst (earthquakeTally geoData).
Proof. cbv beta delta [earthquakeTally]. tally_nonneg. Qed.

Lemma stormTally_nonneg geoData weather : 0 <= fst (stormTally geoData weather).
Proof. cbv beta delta [stormTally]. tally_nonneg. Qed.

Lemma fireTally_nonneg geoData weather : 0 <= fst (fireTally geoData weather).
Proof. cbv beta delta [fireTally]. tally_nonneg. Qed.

Lemma landslideTally_nonneg geoData weather :
  0 <= fst (landslideTally geoData weather).
Proof. cbv beta delta [landslideTally]. tally_nonneg. Qed.

Lemma tallyOf_nonneg h month geoData weather :
  0 <= fst (tallyOf h month geoData weather).
Proof.
  destruct h; simpl;
    auto using floodTally_nonneg, earthquakeTally_nonneg, stormTally_nonneg,
      fireTally_nonneg, landslideTally_nonneg.
Qed.

Lemma scaled_nonneg (s : Z) : 0 <= s -> (0 <= scaled s)%Q.
Proof. intros Hs. unfold scaled, Qdiv, Qle. simpl. lia. Qed.

(** The probability each function returns, in terms of its tally. *)
Lemma probability_of_tally h month geoData weather :
  probability (scoreHazard h month geoData weather) =
  let clamped := Qmin (scaled (fst (tallyOf h month geoData weather))) (maxProbability h) in
  match h with
  | flood => if floodCapped geoData then Qmin clamped 0.25 else clamped
  | _ => clamped
  end.
Proof.
  destruct h; simpl.
  - unfold calculateFloodRisk, floodCapped.
    destruct (floodTally month geoData weather) as [riskScore fs].
    destruct (negb (nearRiver geoData) && negb (nearCoast geoData)
              && Terrain_eqb (terrain geoData) flat); reflexivity.
  - unfold calculateEarthquakeRisk.
    destruct (earthquakeTally geoData); reflexivity.
  - unfold calculateStormRisk.
    destruct (stormTally geoData weather); reflexivity.
  - unfold calculateFireRisk.
    destruct (fireTally geoData weather); reflexivity.
  - unfold calculateLandslideRisk.
    destruct (landslideTally geoData weather); reflexivity.
Qed.

Lemma maxProbability_range h : (0 <= maxProbability h /\ maxProbability h <= 1)%Q.
Proof. destruct h; simpl; split; unfold Qle; simpl; lia. Qed.

(** C1. Each of the five scoring functions returns a probability between 0
    and 1: the risk score it sums is never negative (also after the fire
    score is reduced by 20 for recent rainfall), and the probability is that
    score over 100 clamped to the maximum of the hazard (0.95 flood, 0.60
    earthquake, 0.90 storm, 0.80 fire, 0.85 landslide); the flood function
    clamps once more, to 0.25, on flat terrain away from river and coast. *)
Theorem hazard_probability_clamped (h : HazardType) (month : Z)
    (geoData : CityGeographicData) (weather : WeatherData) :
  let riskScore := fst (tallyOf h month geoData weather) in
  let p := probability (scoreHazard h month geoData weather) in
  let clamped := Qmin (scaled riskScore) (maxProbability h) in
  0 <= riskScore
  /\ p = (match h with
          | flood => if floodCapped geoData then Qmin clamped 0.25 else clamped
          | _ => clamped
          end)
  /\ (0 <= p)%Q /\ (p <= maxProbability h)%Q /\ (maxProbability h <= 1)%Q.
Proof.
  intros riskScore p clamped.
  pose proof (tallyOf_nonneg h month geoData weather) as Hs.
  pose proof (scaled_nonneg _ Hs) as Hq.
  pose proof (maxProbability_range h) as [Hlo Hhi].
  pose proof (probability_of_tally h month geoData weather) as Hp.
  cbv zeta in Hp. fold riskScore clamped p in Hp, Hq.
  assert (Hc0 : (0 <= clamped)%Q) by (apply Q.min_glb; assumption).
  assert (Hc1 : (clamped <= maxProbability h)%Q) by apply Q.le_min_r.
  split; [exact Hs|]. split; [exact Hp|].
  rewrite Hp. split; [|split; [|exact Hhi]].
  - destruct h; try exact Hc0.
    destruct (floodCapped geoData); [|exact Hc0].
    apply Q.min_glb; [exact Hc0|]. unfold Qle; simpl; lia.
  - destruct h; try exact Hc1.
    destruct (floodCapped geoData); [|exact Hc1].
    eapply Qle_trans; [apply Q.le_min_l|exact Hc1].
Qed.

Lemma Qgeb_true (x c : Q) : Qgeb x c = true <-> (c <= x)%Q.
Proof. unfold Qgeb. apply Qle_bool_iff. Qed.

Lemma Qgeb_false (x c : Q) : Qgeb x c = false <-> (x < c)%Q.
Proof.
  unfold Qgeb. split; intros H.
  - apply Qnot_le_lt. intros Hle. apply Qle_bool_iff in Hle. congruence.
  - destruct (Qle_bool c x) eqn:E; [|reflexivity].
    apply Qle_bool_iff in E. exfalso. eapply Qlt_not_le; eassumption.
Qed.

(** [getRiskLevel] read as the threshold table. *)
Lemma getRiskLevel_thresholds (p : Q) :
  (getRiskLevel p = critical <-> (0.70 <= p)%Q)
  /\ (getRiskLevel p = high <-> (0.45 <= p)%Q /\ (p < 0.70)%Q)
  /\ (getRiskLevel p = moderate_risk <-> (0.20 <= p)%Q /\ (p < 0.45)%Q)
  /\ (getRiskLevel p = low <-> (p < 0.20)%Q).
Proof.
  unfold getRiskLevel.
  destruct (Qgeb p 0.70) eqn:E1;
    [apply Qgeb_true in E1 | apply Qgeb_false in E1];
    (destruct (Qgeb p 0.45) eqn:E2;
       [apply Qgeb_true in E2 | apply Qgeb_false in E2]);
    (destruct (Qgeb p 0.20) eqn:E3;
       [apply Qgeb_true in E3 | apply Qgeb_false in E3]);
    repeat split; intros; try discriminate; try lra;
    try (exfalso; lra).
Qed.

(** Every scoring function fills [riskLevel] from the probability it returns. *)
Lemma riskLevel_of_probability h month geoData weather :
  let r := scoreHazard h month geoData weather in
  riskLevel r = getRiskLevel (probability r).
Proof.
  destruct h; simpl.
  - unfold calculateFloodRisk.
    destruct (floodTally month geoData weather) as [riskScore fs].
    destruct (negb (nearRiver geoData) && negb (nearCoast geoData)
              && Terrain_eqb (terrain geoData) flat); reflexivity.
  - unfold calculateEarthquakeRisk.
    destruct (earthquakeTally geoData); reflexivity.
  - unfold calculateStormRisk.
    destruct (stormTally geoData weather); reflexivity.
  - unfold calculateFireRisk.
    destruct (fireTally geoData weather); reflexivity.
  - unfold calculateLandslideRisk.
    destruct (landslideTally geoData weather); reflexivity.
Qed.

(** C8. In the result of each of the five scoring functions the risk level
    agrees with the probability under one threshold table: critical iff
    probability >= 0.70, high iff 0.45 <= probability < 0.70, moderate iff
    0.20 <= probability < 0.45, low iff probability < 0.20. *)
Theorem riskLevel_consistent_with_probability (h : HazardType) (month : Z)
    (geoData : CityGeographicData) (weather : WeatherData) :
  let r := scoreHazard h month geoData weather in
  (riskLevel r = critical <-> (0.70 <= probability r)%Q)
  /\ (riskLevel r = high <-> (0.45 <= probability r)%Q /\ (probability r < 0.70)%Q)
  /\ (riskLevel r = moderate_risk
        <-> (0.20 <= probability r)%Q /\ (probability r < 0.45)%Q)
  /\ (riskLevel r = low <-> (probability r < 0.20)%Q).
Proof.
  intros r. unfold r.
  rewrite (riskLevel_of_probability h month geoData weather).
  apply getRiskLevel_thresholds.
Qed.

End HazardScores.

(** ** Hazard scores: what the results depend on *)

Section HazardDependence.
Import LocationHazardService.
Context {fmt : NumberFormat}.

(** Outside June to September, or for at most 1000 mm of annual rainfall, the
    month leaves the flood tally unchanged. *)
Lemma floodTally_month (m1 m2 : Z) geoData weather :
  ((5 <=? m1) && (m1 <=? 8) = (5 <=? m2) && (m2 <=? 8)
   \/ (annualRainfall geoData <= 1000)%Q) ->
  floodTally m1 geoData weather = floodTally m2 geoData weather.
Proof.
  intros H. unfold floodTally.
  assert (E : (5 <=? m1) && (m1 <=? 8) && Qgtb (annualRainfall geoData) 1000
              = (5 <=? m2) && (m2 <=? 8) && Qgtb (annualRainfall geoData) 1000).
  { destruct H as [H | H].
    - rewrite H. reflexivity.
    - assert (Qgtb (annualRainfall geoData) 1000 = false) as ->.
      { unfold Qgtb. apply negb_false_iff, Qle_bool_iff. exact H. }
      rewrite !andb_false_r. reflexivity. }
  rewrite E. reflexivity.
Qed.

(** C3 (amended). The result of a scoring function is determined by its
    geographic-data and weather arguments, except that [calculateFloodRisk]
    also reads the current month: two runs on equal arguments return equal
    results for earthquake, storm, fire and landslide at any two times, and
    for flood whenever both months fall on the same side of the June to
    September window or the annual rainfall is at most 1000 mm. *)
Theorem hazard_result_determined (h : HazardType) (m1 m2 : Z)
    (geoData : CityGeographicData) (weather : WeatherData) :
  (h = flood ->
   (5 <=? m1) && (m1 <=? 8) = (5 <=? m2) && (m2 <=? 8)
   \/ (annualRainfall geoData <= 1000)%Q) ->
  scoreHazard h m1 geoData weather = scoreHazard h m2 geoData weather.
Proof.
  intros H. destruct h; try reflexivity.
  simpl. unfold calculateFloodRisk.
  rewrite (floodTally_month m1 m2 geoData weather (H eq_refl)).
  reflexivity.
Qed.

(** [calculateEarthquakeRisk] has no weather parameter. *)
Lemma earthquake_ignores_weather : ~ weatherMatters earthquake.
Proof.
  intros (month & geoData & w1 & w2 & H). apply H. simpl. reflexivity.
Qed.

Ltac differ := intros H; vm_compute in H; discriminate H.

Lemma geography_matters_everywhere (h : HazardType) : geographyMatters h.
Proof.
  destruct h.
  - exists 0, (sampleGeo flat true 2 urban), (sampleGeo flat false 2 urban),
      (sampleWeather 50 5 0). differ.
  - exists 0, (sampleGeo flat false 5 urban), (sampleGeo flat false 2 urban),
      (sampleWeather 50 5 0). differ.
  - exists 0, (sampleGeo flat true 2 urban), (sampleGeo flat false 2 urban),
      (sampleWeather 50 5 0). differ.
  - exists 0, (sampleGeo flat false 2 dense), (sampleGeo flat false 2 sparse),
      (sampleWeather 50 5 0). differ.
  - exists 0, (sampleGeo mountainous false 2 urban), (sampleGeo hilly false 2 urban),
      (sampleWeather 50 5 0). differ.
Qed.

(** C5 (amended). For flood, storm, fire and landslide both the geographic
    data and the weather can change the returned probability; for earthquake
    the geographic data can and the weather cannot, the function taking the
    geographic data only. *)
Theorem hazard_probability_inputs (h : HazardType) :
  geographyMatters h /\ (weatherMatters h <-> h <> earthquake).
Proof.
  split; [apply geography_matters_everywhere|].
  split.
  - intros Hw ->. exact (earthquake_ignores_weather Hw).
  - intros Hne. destruct h; try congruence.
    + exists 0, (sampleGeo coastal true 2 urban), (sampleWeather 50 5 0),
        (sampleWeather 50 5 60). differ.
    + exists 0, (sampleGeo flat false 2 urban), (sampleWeather 50 0 0),
        (sampleWeather 50 25 0). differ.
    + exists 0, (sampleGeo flat false 2 dense), (sampleWeather 50 5 0),
        (sampleWeather 20 5 0). differ.
    + exists 0, (sampleGeo mountainous false 2 urban), (sampleWeather 50 5 0),
        (sampleWeather 50 5 60). differ.
Qed.

End HazardDependence.

(** C3 (as stated) fails: with Mumbai's record and the default weather,
    [calculateFloodRisk] returns probability 0.65 (high) in January and 0.80
    (critical, with the extra factor "Active monsoon season") in July. *)
Lemma flood_result_varies_with_month :
  let geoData :=
    LocationHazardService.mkCity 14 LocationHazardService.coastal true 2 true 0 3 2422
      LocationHazardService.urban LocationHazardService.frequent in
  let weather := LocationHazardService.defaultWeather in
  let january :=
    @LocationHazardService.calculateFloodRisk decimalFormat 0 geoData weather in
  let july :=
    @LocationHazardService.calculateFloodRisk decimalFormat 6 geoData weather in
  (LocationHazardService.probability january == 0.65)%Q
  /\ (LocationHazardService.probability july == 0.80)%Q
  /\ LocationHazardService.riskLevel january = LocationHazardService.high
  /\ LocationHazardService.riskLevel july = LocationHazardService.critical
  /\ january <> july.
Proof.
  cbv zeta. repeat split; try reflexivity.
  intros H.
  apply (f_equal LocationHazardService.riskLevel) in H.
  vm_compute in H. discriminate H.
Qed.

(** C5 (as stated) fails: it is not the case that for every hazard both inputs
    can change the probability, the earthquake probability being the same for
    any two weather records. *)
Lemma not_every_hazard_uses_weather :
  ~ (forall h : LocationHazardService.HazardType,
       @geographyMatters decimalFormat h /\ @weatherMatters decimalFormat h).
Proof.
  intros H.
  destruct (H LocationHazardService.earthquake) as [_ Hw].
  exact (earthquake_ignores_weather Hw).
Qed.

(** Two runs of the flood function in January and in December agree. *)
Lemma hazard_result_determined_witness :
  let geoData :=
    LocationHazardService.mkCity 14 LocationHazardService.coastal true 2 true 0 3 2422
      LocationHazardService.urban LocationHazardService.frequent in
  let weather := LocationHazardService.defaultWeather in
  ((5 <=? 0) && (0 <=? 8) = (5 <=? 11) && (11 <=? 8)
   \/ (LocationHazardService.annualRainfall geoData <= 1000)%Q)
  /\ @LocationHazardService.scoreHazard decimalFormat LocationHazardService.flood
       0 geoData weather
     = @LocationHazardService.scoreHazard decimalFormat LocationHazardService.flood
       11 geoData weather.
Proof.
  cbv zeta. split.
  - left. reflexivity.
  - apply (@hazard_result_determined decimalFormat LocationHazardService.flood 0 11).
    intros _. left. reflexivity.
Defined.

(** ** The prediction entry point and the geographic lookup *)

Section Predictions.
Import LocationHazardService.
Context {fmt : NumberFormat} {cal : Calendar}.
Variable openWeatherMap : Network OpenWeatherBody.

Lemma type_of_scoreHazard h month geoData weather :
  type (scoreHazard h month geoData weather) = h.
Proof.
  destruct h; simpl.
  - unfold calculateFloodRisk.
    destruct (floodTally month geoData weather) as [riskScore fs].
    destruct (negb (nearRiver geoData) && negb (nearCoast geoData)
              && Terrain_eqb (terrain geoData) flat); reflexivity.
  - unfold calculateEarthquakeRisk.
    destruct (earthquakeTally geoData); reflexivity.
  - unfold calculateStormRisk.
    destruct (stormTally geoData weather); reflexivity.
  - unfold calculateFireRisk.
    destruct (fireTally geoData weather); reflexivity.
  - unfold calculateLandslideRisk.
    destruct (landslideTally geoData weather); reflexivity.
Qed.

Lemma hazardResults_types month geoData weather :
  map type (hazardResults month geoData weather)
  = [flood; earthquake; storm; fire; landslide].
Proof.
  change (hazardResults month geoData weather)
    with (map (fun h => scoreHazard h month geoData weather)
            [flood; earthquake; storm; fire; landslide]).
  rewrite map_map. cbn [map].
  rewrite !type_of_scoreHazard. reflexivity.
Qed.

(** C4. [getHazardPredictions] returns exactly five results, for flood,
    earthquake, storm, fire and landslide in this order; each is what the
    hazard's own scoring function returns on the one geographic record looked
    up for the city and the one weather record obtained for the coordinates,
    and the call changes the world only as the weather lookup does. *)
Theorem getHazardPredictions_five (cityName : string) (lat lon : Q)
    (w : World WeatherData) :
  let geoData := fieldsOf (getGeographicData cityName lat lon) in
  let looked := getWeatherData openWeatherMap lat lon w in
  let weather := fst looked in
  let month := getMonth (clock (snd looked)) in
  let run := getHazardPredictions openWeatherMap cityName lat lon w in
  snd run = snd looked
  /\ fst run = [ calculateFloodRisk month geoData weather;
                 calculateEarthquakeRisk geoData;
                 calculateStormRisk geoData weather;
                 calculateFireRisk geoData weather;
                 calculateLandslideRisk geoData weather ]
  /\ length (fst run) = 5%nat
  /\ map type (fst run) = [flood; earthquake; storm; fire; landslide].
Proof.
  cbv zeta. unfold getHazardPredictions, bind, Date_now, ret.
  destruct (getWeatherData openWeatherMap lat lon w) as [weather w1]. simpl.
  repeat split.
  apply hazardResults_types.
Qed.

End Predictions.

Section GeographicLookup.
Import LocationHazardService.

Lemma includes_empty (s : string) : includes s "" = true.
Proof. destruct s; reflexivity. Qed.

Lemma lowerAscii_whiteSpace (c : ascii) : isWhiteSpace c = true -> lowerAscii c = c.
Proof.
  destruct c as [[] [] [] [] [] [] [] []]; intros H; try discriminate H; reflexivity.
Qed.

Lemma normalize_blank (s : string) : allWhiteSpace s = true -> trim (toLowerCase s) = "".
Proof.
  unfold trim. induction s as [|c s IH]; simpl; intros H; [reflexivity|].
  apply andb_true_iff in H as [Hc Hs].
  rewrite (lowerAscii_whiteSpace c Hc), Hc. exact (IH Hs).
Qed.

(** A city name that is empty after normalisation gets Delhi's record: the
    empty string is no key of the table, and the first key contains it. *)
Lemma getGeographicData_blank (cityName : string) (lat lon : Q) :
  trim (toLowerCase cityName) = "" ->
  getGeographicData cityName lat lon = GeoRecord delhi.
Proof.
  intros H. unfold getGeographicData. rewrite H. reflexivity.
Qed.

Lemma getGeographicData_whiteSpace (cityName : string) (lat lon : Q) :
  allWhiteSpace cityName = true ->
  getGeographicData cityName lat lon = GeoRecord delhi.
Proof.
  intros H. apply getGeographicData_blank, normalize_blank, H.
Qed.

(** C10. For the city name "constructor" (in any letter case, with any white
    space around it) the exact lookup [CITY_GEOGRAPHIC_DATA[normalizedCity]]
    finds the member the table inherits from [Object.prototype], which is
    truthy, and [getGeographicData] returns it: the value returned is not a
    geographic-data record. *)
Theorem getGeographicData_constructor (lat lon : Q) :
  getGeographicData " Constructor " lat lon = PrototypeMember "constructor"
  /\ forall d : CityGeographicData,
       getGeographicData " Constructor " lat lon <> GeoRecord d.
Proof.
  split; [reflexivity|]. intros d H. discriminate H.
Qed.

End GeographicLookup.

(** ** Nearby threats *)

Section NearbyThreats.
Import DisasterDataService.
Context {fmt : NumberFormat} {cal : Calendar} {math : JsMath}.

Lemma insertByDistance_Forall (P : Threat.t -> Prop) t l :
  P t -> Forall P l -> Forall P (insertByDistance t l).
Proof.
  intros Ht Hl. induction Hl as [|u rest Hu Hrest IH]; simpl.
  - constructor; [exact Ht|constructor].
  - destruct (Threat.distance t <=? Threat.distance u).
    + constructor; [exact Ht|]. constructor; assumption.
    + constructor; assumption.
Qed.

Lemma insertByDistance_sorted t l :
  StronglySorted nearerOrEqual l -> StronglySorted nearerOrEqual (insertByDistance t l).
Proof.
  intros Hl. induction Hl as [|u rest Hrest IH Hu]; simpl.
  - constructor; constructor.
  - destruct (Threat.distance t <=? Threat.distance u) eqn:E.
    + apply Z.leb_le in E. constructor.
      * constructor; assumption.
      * constructor; [exact E|].
        eapply List.Forall_impl; [|exact Hu].
        intros v Hv. unfold nearerOrEqual in *. lia.
    + apply Z.leb_gt in E. constructor; [exact IH|].
      apply insertByDistance_Forall; [|exact Hu].
      unfold nearerOrEqual. lia.
Qed.

Lemma sortByDistance_sorted l : StronglySorted nearerOrEqual (sortByDistance l).
Proof.
  unfold sortByDistance. induction l as [|t l IH]; simpl.
  - constructor.
  - apply insertByDistance_sorted, IH.
Qed.

Lemma firstn_Forall {A} (P : A -> Prop) n (l : list A) :
  Forall P l -> Forall P (firstn n l).
Proof.
  intros Hl. revert n. induction Hl as [|x l Hx Hl IH]; intros [|n]; simpl;
    constructor; auto.
Qed.

Lemma firstn_sorted {A} (R : A -> A -> Prop) n (l : list A) :
  StronglySorted R l -> StronglySorted R (firstn n l).
Proof.
  intros Hl. revert n. induction Hl as [|x l Hl IH Hx]; intros [|n]; simpl;
    try constructor; auto using firstn_Forall.
Qed.

Lemma calculateNearbyThreats_sorted lat lon earthquakes nasaEvents gdacsAlerts
    activeFires imdWarnings :
  let threats :=
    calculateNearbyThreats lat lon earthquakes nasaEvents gdacsAlerts activeFires
      imdWarnings in
  (length threats <= 10)%nat /\ StronglySorted nearerOrEqual threats.
Proof.
  unfold calculateNearbyThreats. cbv zeta. split.
  - apply firstn_le_length.
  - apply firstn_sorted, sortByDistance_sorted.
Qed.

End NearbyThreats.

(** ** Great-circle distances *)

Section Distances.
Context {math : JsMath}.










Abbreviation distance := DisasterDataService.calculateDistance.
Abbreviation rounded := ShelterService.calculateDistance.
Abbreviation whole := DisasterAlertService.calculateDistance.


End Distances.

(** ** Aggregation *)

Section AggregatedData.
Import DisasterDataService.
Context {fmt : NumberFormat} {cal : Calendar} {math : JsMath}.
Variable BACKEND_URL : string.
Variable eonet : Network (option (list RawEvent.t)).
Variable gdacsProxy : Network (ProxyBody.t GDACSAlert.t).
Variable firmsProxy : Network (ProxyBody.t FIRMSFire.t).
Variable imdProxy : Network (ProxyBody.t IMDWarning.t).
Variable usgs : Network (option (list RawFeature.t)).

Abbreviation aggregate :=
  (getAggregatedData BACKEND_URL eonet gdacsProxy firmsProxy imdProxy usgs).

(** Names the pair a monadic step returns. *)
Ltac run_step :=
  match goal with
  | |- context [let '(_, _) := ?m in _] => destruct m
  end.

(** The threats of the aggregated result are a [calculateNearbyThreats] list. *)
Lemma aggregate_nearbyThreats lat lon w :
  exists earthquakes nasaEvents gdacsAlerts activeFires imdWarnings,
    AggregatedDisasterData.nearbyThreats (fst (aggregate lat lon w))
    = calculateNearbyThreats lat lon earthquakes nasaEvents gdacsAlerts activeFires
        imdWarnings.
Proof.
  unfold getAggregatedData, bind.
  repeat run_step. simpl.
  do 5 eexists. reflexivity.
Qed.

(** C9. The list [calculateNearbyThreats] produces, and so the
    [nearbyThreats] of every aggregated result, has at most 10 entries and is
    in ascending order of distance. *)
Theorem nearbyThreats_sorted_at_most_ten (lat lon : Q)
    (earthquakes : list USGSEarthquake.t) (nasaEvents : list NASAEvent.t)
    (gdacsAlerts : list GDACSAlert.t) (activeFires : list FIRMSFire.t)
    (imdWarnings : list IMDWarning.t) (w : World CachedData) :
  let threats :=
    calculateNearbyThreats lat lon earthquakes nasaEvents gdacsAlerts activeFires
      imdWarnings in
  let returned := AggregatedDisasterData.nearbyThreats (fst (aggregate lat lon w)) in
  ((length threats <= 10)%nat /\ StronglySorted nearerOrEqual threats)
  /\ ((length returned <= 10)%nat /\ StronglySorted nearerOrEqual returned).
Proof.
  cbv zeta. split.
  - apply calculateNearbyThreats_sorted.
  - destruct (aggregate_nearbyThreats lat lon w) as (q & e & g & f & i & ->).
    apply calculateNearbyThreats_sorted.
Qed.

Lemma getFromCache_world key w : snd (getFromCache key w) = w.
Proof.
  unfold getFromCache, bind, Map_get, Date_now, ret. reflexivity.
Qed.

Lemma begin_uncached {B A} (net : Network B) key url (cast : CachedData -> A) w :
  uncached key w ->
  fst (begin net key url cast w) = inr (net (outbound w ++ [url]) (clock w)).
Proof.
  unfold uncached, begin, bind. intros H.
  pose proof (getFromCache_world key w) as Hw.
  destruct (getFromCache key w) as [c w']. simpl in H, Hw. subst. reflexivity.
Qed.

Lemma finishNASAEvents_failed response w :
  failed response = true -> fst (finishNASAEvents response w) = [].
Proof.
  destruct response as [|[] status body]; simpl; intros H;
    try discriminate H; reflexivity.
Qed.

Lemma finishUSGSEarthquakes_failed lat lon response w :
  failed response = true -> fst (finishUSGSEarthquakes lat lon response w) = [].
Proof.
  destruct response as [|[] status body]; simpl; intros H;
    try discriminate H; reflexivity.
Qed.

Lemma finishProxy_failed {A} key (wrap : list A -> CachedData) response w :
  failed response = true -> fst (finishProxy key wrap response w) = [].
Proof.
  destruct response as [|[] status body]; simpl; intros H;
    try discriminate H; reflexivity.
Qed.

(** A fetch function that finds nothing fresh in the cache and whose request
    fails returns the empty list. *)
Lemma resume_failed {B A} (net : Network B) key url (cast : CachedData -> list A)
    (finish : FetchOutcome B -> M CachedData (list A)) w :
  (forall response w', failed response = true -> fst (finish response w') = []) ->
  uncached key w ->
  failed (snd (net (outbound w ++ [url]) (clock w))) = true ->
  fst ((started <- begin net key url cast ;; resume started finish) w) = [].
Proof.
  intros Hfinish Hkey Hfail. unfold bind at 1.
  pose proof (begin_uncached net key url cast w Hkey) as Hb.
  destruct (begin net key url cast w) as [started w1]. simpl in Hb. subst started.
  unfold resume.
  destruct (net (outbound w ++ [url]) (clock w)) as [settled response].
  unfold bind, settle. simpl in *. apply Hfinish, Hfail.
Qed.

Ltac chain_pushes :=
  intros started locals w; destruct started as [value | [settled response]];
  simpl; unfold bind; repeat run_step; simpl;
  rewrite map_app; reflexivity.

Lemma nasaChain_pushes started : pushesSource (nasaChain started) "NASA EONET".
Proof. revert started. chain_pushes. Qed.

Lemma gdacsChain_pushes started : pushesSource (gdacsChain started) "GDACS".
Proof. revert started. chain_pushes. Qed.

Lemma usgsChain_pushes lat lon started :
  pushesSource (usgsChain lat lon started) "USGS Earthquake".
Proof. revert started. chain_pushes. Qed.

Lemma firmsChain_pushes lat lon started :
  pushesSource (firmsChain lat lon started) "NASA FIRMS".
Proof. revert started. chain_pushes. Qed.

Lemma imdChain_pushes lat lon started :
  pushesSource (imdChain lat lon started) "IMD Warnings".
Proof. revert started. chain_pushes. Qed.

Lemma runAll_sources queue names :
  Forall2 pushesSource queue names ->
  forall locals w,
    map DataSource.name (Locals.sources (fst (runAll queue locals w)))
    = map DataSource.name (Locals.sources locals) ++ names.
Proof.
  induction 1 as [|c name queue names Hc Hrest IH]; intros locals w; simpl.
  - rewrite app_nil_r. reflexivity.
  - unfold bind. specialize (Hc locals w).
    destruct (continue c locals w) as [locals' w']. simpl in Hc.
    rewrite IH, Hc, <- app_assoc. reflexivity.
Qed.

Lemma enqueue_permutation c queue : Permutation (c :: queue) (enqueue c queue).
Proof.
  induction queue as [|q rest IH]; simpl.
  - reflexivity.
  - destruct (earlier c q).
    + reflexivity.
    + rewrite perm_swap. apply perm_skip, IH.
Qed.

Lemma settleOrder_permutation chains : Permutation chains (settleOrder chains).
Proof.
  unfold settleOrder. induction chains as [|c chains IH]; simpl.
  - reflexivity.
  - rewrite <- enqueue_permutation. apply perm_skip, IH.
Qed.

Lemma aggregate_sources lat lon w :
  exists settled,
    Permutation
      ["NASA EONET"; "GDACS"; "USGS Earthquake"; "NASA FIRMS"; "IMD Warnings"] settled
    /\ map DataSource.name (AggregatedDisasterData.sources (fst (aggregate lat lon w)))
       = settled ++ ["OpenWeatherMap"].
Proof.
  unfold getAggregatedData. unfold bind at 1 2 3 4 5.
  destruct (begin eonet nasaKey nasaUrl asNASAEvents w) as [nasa w1].
  destruct (begin gdacsProxy gdacsKey (gdacsUrl BACKEND_URL) asGDACSAlerts w1)
    as [gdacs w2].
  destruct (beginUSGSEarthquakes usgs lat lon 1000 w2) as [quakes w3].
  destruct (begin firmsProxy (firmsKey lat lon) (firmsUrl BACKEND_URL lat lon)
              asFIRMSFires w3) as [firms w4].
  destruct (begin imdProxy (imdKey lat lon) (imdUrl BACKEND_URL lat lon)
              asIMDWarnings w4) as [imd w5].
  set (chains := [ nasaChain nasa; gdacsChain gdacs; usgsChain lat lon quakes;
                   firmsChain lat lon firms; imdChain lat lon imd ]).
  assert (Hpush : Forall2 pushesSource chains
            ["NASA EONET"; "GDACS"; "USGS Earthquake"; "NASA FIRMS"; "IMD Warnings"]).
  { repeat constructor;
      auto using nasaChain_pushes, gdacsChain_pushes, usgsChain_pushes,
        firmsChain_pushes, imdChain_pushes. }
  destruct (Permutation_Forall2 (settleOrder_permutation chains) Hpush)
    as (settled & Hperm & Hsettled).
  exists settled. split; [exact Hperm|].
  pose proof (runAll_sources _ _ Hsettled Locals.empty w5) as Hrun.
  unfold bind.
  destruct (runAll (settleOrder chains) Locals.empty w5) as [locals w6].
  simpl in *. rewrite map_app, Hrun. reflexivity.
Qed.

End AggregatedData.

(** ** TTL caches *)

Section CacheEntries.
Context {D : Type}.

Lemma keeps_refl duration now (s : gmap string (Entry D)) : keeps duration now s s.
Proof. intros key entry H. left. exact H. Qed.

(** Storing under a key that held nothing fresh keeps the rest. *)
Lemma keeps_insert duration now (before after : gmap string (Entry D)) key entry :
  keeps duration now before after ->
  (forall old, before !! key = Some old -> fresh duration now old = false) ->
  keeps duration now before (<[key := entry]> after).
Proof.
  intros Hkeeps Hstale k e Hk.
  destruct (decide (key = k)) as [->|Hne].
  - right. split; [apply (Hstale e Hk)|].
    rewrite lookup_insert_eq. eexists; reflexivity.
  - rewrite lookup_insert_ne by exact Hne. apply Hkeeps, Hk.
Qed.

Lemma lookupFresh_None_stale duration (w : World D) key :
  lookupFresh duration w key = None ->
  forall old, store w !! key = Some old -> fresh duration (clock w) old = false.
Proof.
  unfold lookupFresh. intros H old Hold. rewrite Hold in H.
  destruct (fresh duration (clock w) old); [discriminate H|reflexivity].
Qed.

Lemma setsAtMost_keeps duration (w0 : World D) key (before after : gmap string (Entry D)) :
  lookupFresh duration w0 key = None ->
  setsAtMost key before after ->
  keeps duration (clock w0) (store w0) before ->
  keeps duration (clock w0) (store w0) after.
Proof.
  intros Hmiss [-> | [entry ->]] Hkeeps; [exact Hkeeps|].
  apply keeps_insert; [exact Hkeeps|].
  apply lookupFresh_None_stale, Hmiss.
Qed.

(** Validity is a matter of age alone: an entry is fresh exactly when the
    clock reading is less than the duration past its timestamp. *)
Lemma fresh_age duration now (entry : Entry D) :
  fresh duration now entry = true <-> now - timestamp entry < duration.
Proof. unfold fresh. apply Z.ltb_lt. Qed.

End CacheEntries.

Section WeatherCache.
Import LocationHazardService.
Context {fmt : NumberFormat}.
Variable openWeatherMap : Network OpenWeatherBody.

Lemma getWeatherData_hit lat lon (w : World WeatherData) entry :
  store w !! weatherKey lat lon = Some entry ->
  fresh CACHE_DURATION (clock w) entry = true ->
  getWeatherData openWeatherMap lat lon w = (data entry, w).
Proof.
  intros Hentry Hfresh.
  unfold getWeatherData, bind, Map_get, Date_now.
  fold (weatherKey lat lon). rewrite Hentry, Hfresh. reflexivity.
Qed.

Lemma requestWeather_keeps lat lon (w0 w : World WeatherData) :
  keeps CACHE_DURATION (clock w0) (store w0) (store w) ->
  lookupFresh CACHE_DURATION w0 (weatherKey lat lon) = None ->
  keeps CACHE_DURATION (clock w0) (store w0)
    (store (snd (requestWeather openWeatherMap lat lon (weatherKey lat lon) w))).
Proof.
  intros Hkeeps Hmiss.
  unfold requestWeather, bind, fetch, bind, sendRequest, settle, ret.
  destruct (openWeatherMap _ _) as [settled [|[] status [body|]]]; simpl;
    try exact Hkeeps.
  apply keeps_insert; [exact Hkeeps|].
  apply lookupFresh_None_stale, Hmiss.
Qed.

Lemma getWeatherData_keeps lat lon (w : World WeatherData) :
  keeps CACHE_DURATION (clock w) (store w)
    (store (snd (getWeatherData openWeatherMap lat lon w))).
Proof.
  unfold getWeatherData, bind, Map_get, Date_now.
  fold (weatherKey lat lon).
  destruct (store w !! weatherKey lat lon) as [entry|] eqn:Hentry.
  - destruct (fresh CACHE_DURATION (clock w) entry) eqn:Hfresh.
    + apply keeps_refl.
    + apply requestWeather_keeps; [apply keeps_refl|].
      unfold lookupFresh. rewrite Hentry, Hfresh. reflexivity.
  - apply requestWeather_keeps; [apply keeps_refl|].
    unfold lookupFresh. rewrite Hentry. reflexivity.
Qed.

End WeatherCache.

Section DisasterCache.
Import DisasterDataService.
Context {fmt : NumberFormat} {cal : Calendar} {math : JsMath}.
Variable BACKEND_URL : string.
Variable eonet : Network (option (list RawEvent.t)).
Variable gdacsProxy : Network (ProxyBody.t GDACSAlert.t).
Variable firmsProxy : Network (ProxyBody.t FIRMSFire.t).
Variable imdProxy : Network (ProxyBody.t IMDWarning.t).
Variable usgs : Network (option (list RawFeature.t)).

Lemma getFromCache_lookupFresh key (w : World CachedData) :
  getFromCache key w = (lookupFresh CACHE_DURATION w key, w).
Proof.
  unfold getFromCache, lookupFresh, bind, Map_get, Date_now, ret. reflexivity.
Qed.

Lemma begin_hit {B A} (net : Network B) key url (cast : CachedData -> A) w d :
  lookupFresh CACHE_DURATION w key = Some d ->
  begin net key url cast w = (inl (cast d), w).
Proof.
  intros H. unfold begin, bind. rewrite getFromCache_lookupFresh, H. reflexivity.
Qed.

Lemma begin_world {B A} (net : Network B) key url (cast : CachedData -> A) w :
  let started := fst (begin net key url cast w) in
  let w' := snd (begin net key url cast w) in
  store w' = store w /\ clock w' = clock w /\ missed started w key.
Proof.
  unfold begin, bind. rewrite getFromCache_lookupFresh.
  destruct (lookupFresh CACHE_DURATION w key) eqn:E; simpl; auto.
Qed.

Lemma finishNASAEvents_store response w :
  setsAtMost nasaKey (store w) (store (snd (finishNASAEvents response w))).
Proof.
  unfold finishNASAEvents, catchEmpty, bind.
  destruct response as [|[] status [[raw|]|]]; simpl; try (left; reflexivity).
  destruct (mapOrThrow toNASAEvent raw); simpl; [|left; reflexivity].
  right. eexists. reflexivity.
Qed.

Lemma finishUSGSEarthquakes_store lat lon response w :
  setsAtMost (usgsKey lat lon) (store w)
    (store (snd (finishUSGSEarthquakes lat lon response w))).
Proof.
  unfold finishUSGSEarthquakes, catchEmpty, bind.
  destruct response as [|[] status [[raw|]|]]; simpl; try (left; reflexivity).
  destruct (mapOrThrow toUSGSEarthquake raw); simpl; [|left; reflexivity].
  right. eexists. reflexivity.
Qed.

Lemma finishProxy_store {A} key (wrap : list A -> CachedData) response w :
  setsAtMost key (store w) (store (snd (finishProxy key wrap response w))).
Proof.
  unfold finishProxy, catchEmpty, bind.
  destruct response as [|[] status [[[] [items|]]|]]; simpl; try (left; reflexivity).
  right. eexists. reflexivity.
Qed.

Lemma resume_keeps {B A} (started : A + Z * FetchOutcome B)
    (finish : FetchOutcome B -> M CachedData A) key (w0 w : World CachedData) :
  (forall response w', setsAtMost key (store w') (store (snd (finish response w')))) ->
  missed started w0 key ->
  keeps CACHE_DURATION (clock w0) (store w0) (store w) ->
  keeps CACHE_DURATION (clock w0) (store w0) (store (snd (resume started finish w))).
Proof.
  intros Hfinish Hmiss Hkeeps.
  destruct started as [value | [settled response]]; simpl; [exact Hkeeps|].
  unfold bind, settle. simpl.
  match goal with
  | |- context [finish response ?w'] => destruct (Hfinish response w') as [-> | [entry ->]]
  end.
  - exact Hkeeps.
  - apply keeps_insert; [exact Hkeeps|].
    apply lookupFresh_None_stale, Hmiss.
Qed.

(** A fetch function changes the cache only under its own key, and only when
    that key held nothing fresh. *)
Lemma fetch_keeps {B A} (net : Network B) key url (cast : CachedData -> A)
    (finish : FetchOutcome B -> M CachedData A) (w : World CachedData) :
  (forall response w', setsAtMost key (store w') (store (snd (finish response w')))) ->
  keeps CACHE_DURATION (clock w) (store w)
    (store (snd ((started <- begin net key url cast ;; resume started finish) w))).
Proof.
  intros Hfinish. unfold bind at 1.
  pose proof (begin_world net key url cast w) as (Hstore & Hclock & Hmiss).
  destruct (begin net key url cast w) as [started w1]. simpl in *.
  apply resume_keeps with (key := key); [exact Hfinish|exact Hmiss|].
  rewrite Hstore. apply keeps_refl.
Qed.

Lemma fetch_hit {B A} (net : Network B) key url (cast : CachedData -> A)
    (finish : FetchOutcome B -> M CachedData A) (w : World CachedData) d :
  lookupFresh CACHE_DURATION w key = Some d ->
  (started <- begin net key url cast ;; resume started finish) w = (cast d, w).
Proof.
  intros H. unfold bind. rewrite (begin_hit net key url cast w d H). reflexivity.
Qed.

Lemma missed_same_cache {A B} (started : A + Z * FetchOutcome B) (w w' : World CachedData)
    key :
  store w' = store w -> clock w' = clock w -> missed started w' key -> missed started w key.
Proof.
  unfold missed, lookupFresh. intros -> ->. auto.
Qed.

Ltac chain_safe key lemma :=
  intros Hmiss locals w Hkeeps; simpl; unfold bind at 1;
  match goal with
  | |- context [resume ?started ?finish w] =>
      let H := fresh "H" in
      pose proof (resume_keeps started finish key _ w lemma Hmiss Hkeeps) as H;
      destruct (resume started finish w) as [value w'];
      exact H
  end.

Lemma nasaChain_safe w0 started :
  missed started w0 nasaKey -> safeChain w0 (nasaChain started).
Proof. chain_safe nasaKey finishNASAEvents_store. Qed.

Lemma gdacsChain_safe w0 started :
  missed started w0 gdacsKey -> safeChain w0 (gdacsChain started).
Proof.
  chain_safe gdacsKey (@finishProxy_store GDACSAlert.t gdacsKey GDACSAlerts).
Qed.

Lemma usgsChain_safe w0 lat lon started :
  missed started w0 (usgsKey lat lon) -> safeChain w0 (usgsChain lat lon started).
Proof. chain_safe (usgsKey lat lon) (finishUSGSEarthquakes_store lat lon). Qed.

Lemma firmsChain_safe w0 lat lon started :
  missed started w0 (firmsKey lat lon) -> safeChain w0 (firmsChain lat lon started).
Proof.
  chain_safe (firmsKey lat lon)
    (@finishProxy_store FIRMSFire.t (firmsKey lat lon) FIRMSFires).
Qed.

Lemma imdChain_safe w0 lat lon started :
  missed started w0 (imdKey lat lon) -> safeChain w0 (imdChain lat lon started).
Proof.
  chain_safe (imdKey lat lon)
    (@finishProxy_store IMDWarning.t (imdKey lat lon) IMDWarnings).
Qed.

Lemma runAll_keeps w0 queue :
  Forall (safeChain w0) queue ->
  forall locals w,
    keeps CACHE_DURATION (clock w0) (store w0) (store w) ->
    keeps CACHE_DURATION (clock w0) (store w0) (store (snd (runAll queue locals w))).
Proof.
  induction 1 as [|c queue Hc Hrest IH]; intros locals w Hkeeps; simpl.
  - exact Hkeeps.
  - unfold bind. specialize (Hc locals w Hkeeps).
    destruct (continue c locals w) as [locals' w']. apply IH, Hc.
Qed.

Lemma getAggregatedData_keeps lat lon (w : World CachedData) :
  keeps CACHE_DURATION (clock w) (store w)
    (store (snd (getAggregatedData BACKEND_URL eonet gdacsProxy firmsProxy imdProxy usgs
                   lat lon w))).
Proof.
  unfold getAggregatedData. unfold bind at 1 2 3 4 5.
  pose proof (begin_world eonet nasaKey nasaUrl asNASAEvents w) as (S1 & C1 & M1).
  destruct (begin eonet nasaKey nasaUrl asNASAEvents w) as [nasa w1].
  pose proof (begin_world gdacsProxy gdacsKey (gdacsUrl BACKEND_URL) asGDACSAlerts w1)
    as (S2 & C2 & M2).
  destruct (begin gdacsProxy gdacsKey (gdacsUrl BACKEND_URL) asGDACSAlerts w1)
    as [gdacs w2].
  unfold beginUSGSEarthquakes, bind at 1, Date_now at 1.
  pose proof (begin_world usgs (usgsKey lat lon) (usgsUrl (clock w2) lat lon 1000)
                asUSGSEarthquakes w2) as (S3 & C3 & M3).
  destruct (begin usgs (usgsKey lat lon) (usgsUrl (clock w2) lat lon 1000)
              asUSGSEarthquakes w2) as [quakes w3].
  pose proof (begin_world firmsProxy (firmsKey lat lon) (firmsUrl BACKEND_URL lat lon)
                asFIRMSFires w3) as (S4 & C4 & M4).
  destruct (begin firmsProxy (firmsKey lat lon) (firmsUrl BACKEND_URL lat lon)
              asFIRMSFires w3) as [firms w4].
  pose proof (begin_world imdProxy (imdKey lat lon) (imdUrl BACKEND_URL lat lon)
                asIMDWarnings w4) as (S5 & C5 & M5).
  destruct (begin imdProxy (imdKey lat lon) (imdUrl BACKEND_URL lat lon)
              asIMDWarnings w4) as [imd w5].
  simpl in *.
  assert (Hsafe : Forall (safeChain w)
            [ nasaChain nasa; gdacsChain gdacs; usgsChain lat lon quakes;
              firmsChain lat lon firms; imdChain lat lon imd ]).
  { constructor; [apply nasaChain_safe, M1|].
    constructor;
      [apply gdacsChain_safe, (missed_same_cache gdacs w w1); congruence|].
    constructor;
      [apply usgsChain_safe, (missed_same_cache quakes w w2); congruence|].
    constructor;
      [apply firmsChain_safe, (missed_same_cache firms w w3); congruence|].
    constructor;
      [apply imdChain_safe, (missed_same_cache imd w w4); congruence|].
    constructor. }
  apply (Permutation_Forall (settleOrder_permutation _)) in Hsafe.
  assert (Hstart : keeps CACHE_DURATION (clock w) (store w) (store w5)).
  { replace (store w5) with (store w) by congruence. apply keeps_refl. }
  pose proof (runAll_keeps w _ Hsafe Locals.empty w5 Hstart) as Hrun.
  unfold bind.
  destruct (runAll _ Locals.empty w5) as [locals w6].
  exact Hrun.
Qed.

End DisasterCache.

Section ShelterCache.
Import ShelterService.
Context {fmt : NumberFormat} {math : JsMath}.
Variable encodeURIComponent : string -> string.
Variable memberToString : string -> string.
Variable places : Network PlacesBody.t.
Variable overpass : Network (option (list Element.t)).

Abbreviation search := (searchRealShelters encodeURIComponent memberToString places overpass).

Lemma searchRealShelters_hit lat lng apiKey radius (w : World (list RealShelter.t)) entry :
  store w !! cacheKeyOf lat lng radius = Some entry ->
  fresh CACHE_DURATION (clock w) entry = true ->
  search lat lng apiKey radius w = (data entry, w).
Proof.
  intros Hentry Hfresh.
  unfold searchRealShelters, bind, Map_get, Date_now.
  rewrite Hentry, Hfresh. reflexivity.
Qed.

Lemma searchOpenStreetMapShelters_store lat lng radius (w : World (list RealShelter.t)) :
  setsAtMost (cacheKeyOf lat lng radius) (store w)
    (store (snd (searchOpenStreetMapShelters encodeURIComponent memberToString overpass
                   lat lng radius w))).
Proof.
  unfold searchOpenStreetMapShelters, bind, fetch, bind, sendRequest, settle, ret.
  destruct (overpass _ _) as [settled [|[] status [[elements|]|]]]; simpl;
    try (left; reflexivity).
  right. eexists. reflexivity.
Qed.

(** The loop over the place types sends requests and moves the clock; it
    does not touch the cache. *)
Lemma searchPlaces_store lat lng radius apiKey types shelters
    (w : World (list RealShelter.t)) :
  store (snd (searchPlaces places lat lng radius apiKey types shelters w)) = store w.
Proof.
  revert shelters w. induction types as [|type rest IH]; intros shelters w; simpl.
  - reflexivity.
  - unfold bind at 1. unfold fetch, bind, sendRequest, settle, ret.
    destruct (places _ _) as [settled [|[] status [body|]]]; simpl;
      try reflexivity; try (rewrite IH; reflexivity).
    destruct (negb (String.eqb (PlacesBody.status body) "OK")).
    + rewrite IH. reflexivity.
    + destruct (PlacesBody.results body) as [results|]; [|reflexivity].
      destruct (mapOrThrow (placeShelter lat lng type) (firstn 5 results));
        [|reflexivity].
      rewrite IH. reflexivity.
Qed.

Lemma searchUncached_store lat lng apiKey radius (w : World (list RealShelter.t)) :
  setsAtMost (cacheKeyOf lat lng radius) (store w)
    (store (snd (searchUncached encodeURIComponent memberToString places overpass
                   lat lng apiKey radius w))).
Proof.
  unfold searchUncached.
  destruct (String.eqb apiKey "" || String.eqb apiKey "demo-key"
            || includes apiKey "your_").
  - apply searchOpenStreetMapShelters_store.
  - unfold bind at 1.
    pose proof (searchPlaces_store lat lng radius apiKey placeTypes [] w) as Hs.
    destruct (searchPlaces places lat lng radius apiKey placeTypes [] w)
      as [[found|] w1]; simpl in Hs.
    + unfold bind, Map_set_now, ret. simpl. rewrite Hs.
      right. eexists. reflexivity.
    + rewrite <- Hs. apply searchOpenStreetMapShelters_store.
Qed.

Lemma searchRealShelters_keeps lat lng apiKey radius (w : World (list RealShelter.t)) :
  keeps CACHE_DURATION (clock w) (store w) (store (snd (search lat lng apiKey radius w))).
Proof.
  unfold searchRealShelters, bind, Map_get, Date_now.
  destruct (store w !! cacheKeyOf lat lng radius) as [entry|] eqn:Hentry.
  - destruct (fresh CACHE_DURATION (clock w) entry) eqn:Hfresh.
    + apply keeps_refl.
    + eapply setsAtMost_keeps;
        [|apply searchUncached_store|apply keeps_refl].
      unfold lookupFresh. rewrite Hentry, Hfresh. reflexivity.
  - eapply setsAtMost_keeps;
      [|apply searchUncached_store|apply keeps_refl].
    unfold lookupFresh. rewrite Hentry. reflexivity.
Qed.

End ShelterCache.

(** *** What the shared cache of DisasterDataService holds under which key *)

Section CacheShapes.
Import DisasterDataService.
Context {fmt : NumberFormat} {cal : Calendar}.

Lemma wellKeyed_empty : wellKeyed ∅.
Proof. intros key entry H. rewrite lookup_empty in H. discriminate H. Qed.

Lemma wellKeyed_insert s key entry :
  wellKeyed s -> keyFits key (data entry) -> wellKeyed (<[key := entry]> s).
Proof.
  intros Hs Hfit k e Hk.
  destruct (decide (key = k)) as [->|Hne].
  - rewrite lookup_insert_eq in Hk. injection Hk as <-. exact Hfit.
  - rewrite lookup_insert_ne in Hk by exact Hne. apply (Hs k e Hk).
Qed.

Lemma prefix_empty (s : string) : String.prefix "" s = true.
Proof. destruct s; reflexivity. Qed.

Lemma firmsKey_fits lat lon fires : keyFits (firmsKey lat lon) (FIRMSFires fires).
Proof. simpl. apply prefix_empty. Qed.

Lemma imdKey_fits lat lon warnings : keyFits (imdKey lat lon) (IMDWarnings warnings).
Proof. simpl. apply prefix_empty. Qed.

Lemma usgsKey_fits lat lon earthquakes :
  keyFits (usgsKey lat lon) (USGSEarthquakes earthquakes).
Proof. simpl. apply prefix_empty. Qed.

Lemma nasaKey_holds_events s entry :
  wellKeyed s -> s !! nasaKey = Some entry ->
  exists events, data entry = NASAEvents events.
Proof.
  intros Hs H. specialize (Hs _ _ H).
  destruct (data entry) as [l|l|l|l|l]; simpl in Hs; try discriminate Hs.
  exists l. reflexivity.
Qed.

Lemma gdacsKey_holds_alerts s entry :
  wellKeyed s -> s !! gdacsKey = Some entry ->
  exists alerts, data entry = GDACSAlerts alerts.
Proof.
  intros Hs H. specialize (Hs _ _ H).
  destruct (data entry) as [l|l|l|l|l]; simpl in Hs; try discriminate Hs.
  exists l. reflexivity.
Qed.

Lemma firmsKey_holds_fires s lat lon entry :
  wellKeyed s -> s !! firmsKey lat lon = Some entry ->
  exists fires, data entry = FIRMSFires fires.
Proof.
  intros Hs H. specialize (Hs _ _ H).
  destruct (data entry) as [l|l|l|l|l]; simpl in Hs; try discriminate Hs.
  exists l. reflexivity.
Qed.

Lemma imdKey_holds_warnings s lat lon entry :
  wellKeyed s -> s !! imdKey lat lon = Some entry ->
  exists warnings, data entry = IMDWarnings warnings.
Proof.
  intros Hs H. specialize (Hs _ _ H).
  destruct (data entry) as [l|l|l|l|l]; simpl in Hs; try discriminate Hs.
  exists l. reflexivity.
Qed.

Lemma usgsKey_holds_earthquakes s lat lon entry :
  wellKeyed s -> s !! usgsKey lat lon = Some entry ->
  exists earthquakes, data entry = USGSEarthquakes earthquakes.
Proof.
  intros Hs H. specialize (Hs _ _ H).
  destruct (data entry) as [l|l|l|l|l]; simpl in Hs; try discriminate Hs.
  exists l. reflexivity.
Qed.

End CacheShapes.

Section CacheShapesKept.
Import DisasterDataService.
Context {fmt : NumberFormat} {cal : Calendar} {math : JsMath}.
Variable BACKEND_URL : string.
Variable eonet : Network (option (list RawEvent.t)).
Variable gdacsProxy : Network (ProxyBody.t GDACSAlert.t).
Variable firmsProxy : Network (ProxyBody.t FIRMSFire.t).
Variable imdProxy : Network (ProxyBody.t IMDWarning.t).
Variable usgs : Network (option (list RawFeature.t)).

Lemma finishNASAEvents_shapes response : keepsShapes (finishNASAEvents response).
Proof.
  intros w Hw. unfold finishNASAEvents, catchEmpty, bind.
  destruct response as [|[] status [[raw|]|]]; simpl; try exact Hw.
  destruct (mapOrThrow toNASAEvent raw); simpl; [|exact Hw].
  apply wellKeyed_insert; [exact Hw|reflexivity].
Qed.

Lemma finishUSGSEarthquakes_shapes lat lon response :
  keepsShapes (finishUSGSEarthquakes lat lon response).
Proof.
  intros w Hw. unfold finishUSGSEarthquakes, catchEmpty, bind.
  destruct response as [|[] status [[raw|]|]]; simpl; try exact Hw.
  destruct (mapOrThrow toUSGSEarthquake raw); simpl; [|exact Hw].
  apply wellKeyed_insert; [exact Hw|apply usgsKey_fits].
Qed.

Lemma finishProxy_shapes {A} key (wrap : list A -> CachedData) response :
  (forall items, keyFits key (wrap items)) ->
  keepsShapes (finishProxy key wrap response).
Proof.
  intros Hfit w Hw. unfold finishProxy, catchEmpty, bind.
  destruct response as [|[] status [[[] [items|]]|]]; simpl; try exact Hw.
  apply wellKeyed_insert; [exact Hw|apply Hfit].
Qed.

Lemma resume_shapes {B A} (started : A + Z * FetchOutcome B)
    (finish : FetchOutcome B -> M CachedData A) :
  (forall response, keepsShapes (finish response)) ->
  keepsShapes (resume started finish).
Proof.
  intros Hfinish w Hw.
  destruct started as [value | [settled response]]; simpl; [exact Hw|].
  unfold bind, settle. simpl. apply Hfinish. exact Hw.
Qed.

Lemma fetch_shapes {B A} (net : Network B) key url (cast : CachedData -> A)
    (finish : FetchOutcome B -> M CachedData A) :
  (forall response, keepsShapes (finish response)) ->
  keepsShapes (started <- begin net key url cast ;; resume started finish).
Proof.
  intros Hfinish w Hw. unfold bind at 1.
  pose proof (begin_world net key url cast w) as (Hstore & _ & _).
  destruct (begin net key url cast w) as [started w1]. simpl in *.
  apply resume_shapes; [exact Hfinish|]. rewrite Hstore. exact Hw.
Qed.

Ltac chain_shapes lemma :=
  intros locals w Hw; simpl; unfold bind at 1;
  match goal with
  | |- context [resume ?started ?finish w] =>
      let H := fresh "H" in
      pose proof (resume_shapes started finish lemma w Hw) as H;
      destruct (resume started finish w) as [value w'];
      exact H
  end.

Lemma nasaChain_shapes started : chainKeepsShapes (nasaChain started).
Proof. chain_shapes finishNASAEvents_shapes. Qed.

Lemma gdacsChain_shapes started : chainKeepsShapes (gdacsChain started).
Proof.
  chain_shapes (fun response =>
    @finishProxy_shapes GDACSAlert.t gdacsKey GDACSAlerts response (fun _ => eq_refl)).
Qed.

Lemma usgsChain_shapes lat lon started : chainKeepsShapes (usgsChain lat lon started).
Proof. chain_shapes (finishUSGSEarthquakes_shapes lat lon). Qed.

Lemma firmsChain_shapes lat lon started : chainKeepsShapes (firmsChain lat lon started).
Proof.
  chain_shapes (fun response =>
    @finishProxy_shapes FIRMSFire.t (firmsKey lat lon) FIRMSFires response
      (firmsKey_fits lat lon)).
Qed.

Lemma imdChain_shapes lat lon started : chainKeepsShapes (imdChain lat lon started).
Proof.
  chain_shapes (fun response =>
    @finishProxy_shapes IMDWarning.t (imdKey lat lon) IMDWarnings response
      (imdKey_fits lat lon)).
Qed.

Lemma runAll_shapes queue :
  Forall chainKeepsShapes queue -> forall locals, keepsShapes (runAll queue locals).
Proof.
  induction 1 as [|c queue Hc Hrest IH]; intros locals w Hw; simpl.
  - exact Hw.
  - unfold bind. specialize (Hc locals w Hw).
    destruct (continue c locals w) as [locals' w']. apply IH, Hc.
Qed.

Lemma getAggregatedData_shapes lat lon :
  keepsShapes
    (getAggregatedData BACKEND_URL eonet gdacsProxy firmsProxy imdProxy usgs lat lon).
Proof.
  intros w Hw.
  unfold getAggregatedData. unfold bind at 1 2 3 4 5.
  pose proof (begin_world eonet nasaKey nasaUrl asNASAEvents w) as (S1 & _ & _).
  destruct (begin eonet nasaKey nasaUrl asNASAEvents w) as [nasa w1].
  pose proof (begin_world gdacsProxy gdacsKey (gdacsUrl BACKEND_URL) asGDACSAlerts w1)
    as (S2 & _ & _).
  destruct (begin gdacsProxy gdacsKey (gdacsUrl BACKEND_URL) asGDACSAlerts w1)
    as [gdacs w2].
  unfold beginUSGSEarthquakes, bind at 1, Date_now at 1.
  pose proof (begin_world usgs (usgsKey lat lon) (usgsUrl (clock w2) lat lon 1000)
                asUSGSEarthquakes w2) as (S3 & _ & _).
  destruct (begin usgs (usgsKey lat lon) (usgsUrl (clock w2) lat lon 1000)
              asUSGSEarthquakes w2) as [quakes w3].
  pose proof (begin_world firmsProxy (firmsKey lat lon) (firmsUrl BACKEND_URL lat lon)
                asFIRMSFires w3) as (S4 & _ & _).
  destruct (begin firmsProxy (firmsKey lat lon) (firmsUrl BACKEND_URL lat lon)
              asFIRMSFires w3) as [firms w4].
  pose proof (begin_world imdProxy (imdKey lat lon) (imdUrl BACKEND_URL lat lon)
                asIMDWarnings w4) as (S5 & _ & _).
  destruct (begin imdProxy (imdKey lat lon) (imdUrl BACKEND_URL lat lon)
              asIMDWarnings w4) as [imd w5].
  simpl in *.
  assert (Hall : Forall chainKeepsShapes
            [ nasaChain nasa; gdacsChain gdacs; usgsChain lat lon quakes;
              firmsChain lat lon firms; imdChain lat lon imd ]).
  { constructor; [apply nasaChain_shapes|].
    constructor; [apply gdacsChain_shapes|].
    constructor; [apply usgsChain_shapes|].
    constructor; [apply firmsChain_shapes|].
    constructor; [apply imdChain_shapes|].
    constructor. }
  apply (Permutation_Forall (settleOrder_permutation _)) in Hall.
  assert (Hw5 : wellKeyed (store w5)).
  { replace (store w5) with (store w) by congruence. exact Hw. }
  pose proof (runAll_shapes _ Hall Locals.empty w5 Hw5) as Hrun.
  unfold bind.
  destruct (runAll _ Locals.empty w5) as [locals w6].
  exact Hrun.
Qed.

End CacheShapesKept.

(** *** The three caches together *)

Section TtlCaches.
Context {fmt : NumberFormat} {cal : Calendar} {math : JsMath}.
Variable openWeatherMap : Network LocationHazardService.OpenWeatherBody.
Variable BACKEND_URL : string.
Variable eonet : Network (option (list DisasterDataService.RawEvent.t)).
Variable gdacsProxy :
  Network (DisasterDataService.ProxyBody.t DisasterDataService.GDACSAlert.t).
Variable firmsProxy :
  Network (DisasterDataService.ProxyBody.t DisasterDataService.FIRMSFire.t).
Variable imdProxy :
  Network (DisasterDataService.ProxyBody.t DisasterDataService.IMDWarning.t).
Variable usgs : Network (option (list DisasterDataService.RawFeature.t)).
Variable encodeURIComponent : string -> string.
Variable memberToString : string -> string.
Variable places : Network ShelterService.PlacesBody.t.
Variable overpass : Network (option (list ShelterService.Element.t)).

Lemma holdsFresh_lookup {D} duration (w : World D) key entry :
  holdsFresh duration w key entry -> lookupFresh duration w key = Some (data entry).
Proof.
  intros [Hentry Hage]. unfold lookupFresh. rewrite Hentry.
  apply fresh_age in Hage. rewrite Hage. reflexivity.
Qed.

Import DisasterDataService.

Lemma fetchUSGSEarthquakes_unfold lat lon radiusKm (w : World CachedData) :
  fetchUSGSEarthquakes usgs lat lon radiusKm w
  = (started <- begin usgs (usgsKey lat lon) (usgsUrl (clock w) lat lon radiusKm)
                  asUSGSEarthquakes ;;
     resume started (finishUSGSEarthquakes lat lon)) w.
Proof. reflexivity. Qed.

(** C2. In each of the three TTL caches (weather, disaster data, shelters) an
    entry under the request key that is younger than the cache duration is
    what the lookup returns, and the call then sends no request and writes
    nothing; and no call of a service ever removes an entry or replaces one
    that has not expired, so an entry stops being served only by ageing.
    For the disaster-data cache, whose values are untyped, the entry found is
    of the shape the fetch function stores, the cache being well keyed from
    the empty cache on. *)
Theorem ttl_caches_serve_until_expiry :
  (forall lat lon (w : World LocationHazardService.WeatherData) entry,
     holdsFresh LocationHazardService.CACHE_DURATION w (weatherKey lat lon) entry ->
     servedFromCache (LocationHazardService.getWeatherData openWeatherMap lat lon) w
       (data entry))
  /\ (forall lat lon,
       evictsNothing LocationHazardService.CACHE_DURATION
         (LocationHazardService.getWeatherData openWeatherMap lat lon))
  /\ (forall key (w : World CachedData) entry,
       holdsFresh CACHE_DURATION w key entry ->
       servedFromCache (getFromCache key) w (Some (data entry)))
  /\ (forall (w : World CachedData) entry,
       wellKeyed (store w) ->
       holdsFresh CACHE_DURATION w nasaKey entry ->
       exists events,
         data entry = NASAEvents events
         /\ servedFromCache (fetchNASAEvents eonet) w events)
  /\ (forall (w : World CachedData) entry,
       wellKeyed (store w) ->
       holdsFresh CACHE_DURATION w gdacsKey entry ->
       exists alerts,
         data entry = GDACSAlerts alerts
         /\ servedFromCache (fetchGDACSAlerts BACKEND_URL gdacsProxy) w alerts)
  /\ (forall lat lon (w : World CachedData) entry,
       wellKeyed (store w) ->
       holdsFresh CACHE_DURATION w (firmsKey lat lon) entry ->
       exists fires,
         data entry = FIRMSFires fires
         /\ servedFromCache (fetchNASAFIRMS BACKEND_URL firmsProxy lat lon) w fires)
  /\ (forall lat lon (w : World CachedData) entry,
       wellKeyed (store w) ->
       holdsFresh CACHE_DURATION w (imdKey lat lon) entry ->
       exists warnings,
         data entry = IMDWarnings warnings
         /\ servedFromCache (fetchIMDWarnings BACKEND_URL imdProxy lat lon) w warnings)
  /\ (forall lat lon radiusKm (w : World CachedData) entry,
       wellKeyed (store w) ->
       holdsFresh CACHE_DURATION w (usgsKey lat lon) entry ->
       exists earthquakes,
         data entry = USGSEarthquakes earthquakes
         /\ servedFromCache (fetchUSGSEarthquakes usgs lat lon radiusKm) w earthquakes)
  /\ (evictsNothing CACHE_DURATION (fetchNASAEvents eonet)
      /\ evictsNothing CACHE_DURATION (fetchGDACSAlerts BACKEND_URL gdacsProxy)
      /\ (forall lat lon,
            evictsNothing CACHE_DURATION (fetchNASAFIRMS BACKEND_URL firmsProxy lat lon))
      /\ (forall lat lon,
            evictsNothing CACHE_DURATION (fetchIMDWarnings BACKEND_URL imdProxy lat lon))
      /\ (forall lat lon radiusKm,
            evictsNothing CACHE_DURATION (fetchUSGSEarthquakes usgs lat lon radiusKm))
      /\ (forall lat lon,
            evictsNothing CACHE_DURATION
              (getAggregatedData BACKEND_URL eonet gdacsProxy firmsProxy imdProxy usgs
                 lat lon)))
  /\ (wellKeyed ∅
      /\ keepsShapes (fetchNASAEvents eonet)
      /\ keepsShapes (fetchGDACSAlerts BACKEND_URL gdacsProxy)
      /\ (forall lat lon, keepsShapes (fetchNASAFIRMS BACKEND_URL firmsProxy lat lon))
      /\ (forall lat lon, keepsShapes (fetchIMDWarnings BACKEND_URL imdProxy lat lon))
      /\ (forall lat lon radiusKm,
            keepsShapes (fetchUSGSEarthquakes usgs lat lon radiusKm))
      /\ (forall lat lon,
            keepsShapes
              (getAggregatedData BACKEND_URL eonet gdacsProxy firmsProxy imdProxy usgs
                 lat lon)))
  /\ (forall lat lng apiKey radius (w : World (list ShelterService.RealShelter.t)) entry,
       holdsFresh ShelterService.CACHE_DURATION w
         (ShelterService.cacheKeyOf lat lng radius) entry ->
       servedFromCache
         (ShelterService.searchRealShelters encodeURIComponent memberToString places
            overpass lat lng apiKey radius) w (data entry))
  /\ (forall lat lng apiKey radius,
       evictsNothing ShelterService.CACHE_DURATION
         (ShelterService.searchRealShelters encodeURIComponent memberToString places
            overpass lat lng apiKey radius)).
Proof.
  split.
  { intros lat lon w entry [Hentry Hage].
    apply getWeatherData_hit; [exact Hentry|apply fresh_age, Hage]. }
  split.
  { intros lat lon w. apply getWeatherData_keeps. }
  split.
  { intros key w entry Hfresh. unfold servedFromCache.
    rewrite getFromCache_lookupFresh, (holdsFresh_lookup _ _ _ _ Hfresh). reflexivity. }
  split.
  { intros w entry Hkeyed Hfresh.
    destruct (nasaKey_holds_events _ _ Hkeyed (proj1 Hfresh)) as [events Hdata].
    exists events. split; [exact Hdata|].
    unfold servedFromCache, fetchNASAEvents.
    rewrite (fetch_hit _ _ _ _ _ _ _ (holdsFresh_lookup _ _ _ _ Hfresh)), Hdata.
    reflexivity. }
  split.
  { intros w entry Hkeyed Hfresh.
    destruct (gdacsKey_holds_alerts _ _ Hkeyed (proj1 Hfresh)) as [alerts Hdata].
    exists alerts. split; [exact Hdata|].
    unfold servedFromCache, fetchGDACSAlerts.
    rewrite (fetch_hit _ _ _ _ _ _ _ (holdsFresh_lookup _ _ _ _ Hfresh)), Hdata.
    reflexivity. }
  split.
  { intros lat lon w entry Hkeyed Hfresh.
    destruct (firmsKey_holds_fires _ _ _ _ Hkeyed (proj1 Hfresh)) as [fires Hdata].
    exists fires. split; [exact Hdata|].
    unfold servedFromCache, fetchNASAFIRMS.
    rewrite (fetch_hit _ _ _ _ _ _ _ (holdsFresh_lookup _ _ _ _ Hfresh)), Hdata.
    reflexivity. }
  split.
  { intros lat lon w entry Hkeyed Hfresh.
    destruct (imdKey_holds_warnings _ _ _ _ Hkeyed (proj1 Hfresh)) as [warnings Hdata].
    exists warnings. split; [exact Hdata|].
    unfold servedFromCache, fetchIMDWarnings.
    rewrite (fetch_hit _ _ _ _ _ _ _ (holdsFresh_lookup _ _ _ _ Hfresh)), Hdata.
    reflexivity. }
  split.
  { intros lat lon radiusKm w entry Hkeyed Hfresh.
    destruct (usgsKey_holds_earthquakes _ _ _ _ Hkeyed (proj1 Hfresh))
      as [earthquakes Hdata].
    exists earthquakes. split; [exact Hdata|].
    unfold servedFromCache. rewrite fetchUSGSEarthquakes_unfold.
    rewrite (fetch_hit _ _ _ _ _ _ _ (holdsFresh_lookup _ _ _ _ Hfresh)), Hdata.
    reflexivity. }
  split.
  { repeat split.
    - intros w. apply fetch_keeps, finishNASAEvents_store.
    - intros w. apply fetch_keeps, finishProxy_store.
    - intros lat lon w. apply fetch_keeps, finishProxy_store.
    - intros lat lon w. apply fetch_keeps, finishProxy_store.
    - intros lat lon radiusKm w. rewrite fetchUSGSEarthquakes_unfold.
      apply fetch_keeps, finishUSGSEarthquakes_store.
    - intros lat lon w. apply getAggregatedData_keeps. }
  split.
  { split; [apply wellKeyed_empty|].
    split; [apply fetch_shapes, finishNASAEvents_shapes|].
    split.
    { apply fetch_shapes. intros response.
      apply finishProxy_shapes. intros items. reflexivity. }
    split.
    { intros lat lon. apply fetch_shapes. intros response.
      apply finishProxy_shapes, firmsKey_fits. }
    split.
    { intros lat lon. apply fetch_shapes. intros response.
      apply finishProxy_shapes, imdKey_fits. }
    split.
    { intros lat lon radiusKm w. rewrite fetchUSGSEarthquakes_unfold.
      apply fetch_shapes, finishUSGSEarthquakes_shapes. }
    intros lat lon. apply getAggregatedData_shapes. }
  split.
  { intros lat lng apiKey radius w entry [Hentry Hage].
    apply searchRealShelters_hit; [exact Hentry|apply fresh_age, Hage]. }
  intros lat lng apiKey radius w. apply searchRealShelters_keeps.
Qed.

End TtlCaches.

(** ** The merged aggregate *)

Section MergedAggregate.
Import DisasterDataService.
Context {fmt : NumberFormat} {cal : Calendar} {math : JsMath}.
Variable BACKEND_URL : string.
Variable eonet : Network (option (list RawEvent.t)).
Variable gdacsProxy : Network (ProxyBody.t GDACSAlert.t).
Variable firmsProxy : Network (ProxyBody.t FIRMSFire.t).
Variable imdProxy : Network (ProxyBody.t IMDWarning.t).
Variable usgs : Network (option (list RawFeature.t)).

Abbreviation aggregate :=
  (getAggregatedData BACKEND_URL eonet gdacsProxy firmsProxy imdProxy usgs).

Lemma begin_afterSending {B A} (net : Network B) key url (cast : CachedData -> A) w :
  snd (begin net key url cast w) = afterSending w (requestIfMissed w key url).
Proof.
  unfold begin, bind, requestIfMissed, afterSending. rewrite getFromCache_lookupFresh.
  destruct (lookupFresh CACHE_DURATION w key); destruct w; simpl;
    rewrite ?app_nil_r; reflexivity.
Qed.

Lemma beginUSGSEarthquakes_afterSending lat lon radiusKm w :
  snd (beginUSGSEarthquakes usgs lat lon radiusKm w)
  = afterSending w (requestIfMissed w (usgsKey lat lon) (usgsUrl (clock w) lat lon radiusKm)).
Proof.
  unfold beginUSGSEarthquakes, bind, Date_now. apply begin_afterSending.
Qed.

Lemma finishNASAEvents_value response wa wb :
  fst (finishNASAEvents response wa) = fst (finishNASAEvents response wb).
Proof.
  unfold finishNASAEvents, catchEmpty, bind.
  destruct response as [|[] status [[raw|]|]]; simpl; try reflexivity.
  destruct (mapOrThrow toNASAEvent raw); reflexivity.
Qed.

Lemma finishUSGSEarthquakes_value lat lon response wa wb :
  fst (finishUSGSEarthquakes lat lon response wa)
  = fst (finishUSGSEarthquakes lat lon response wb).
Proof.
  unfold finishUSGSEarthquakes, catchEmpty, bind.
  destruct response as [|[] status [[raw|]|]]; simpl; try reflexivity.
  destruct (mapOrThrow toUSGSEarthquake raw); reflexivity.
Qed.

Lemma finishProxy_value {A} key (wrap : list A -> CachedData) response wa wb :
  fst (finishProxy key wrap response wa) = fst (finishProxy key wrap response wb).
Proof.
  unfold finishProxy, catchEmpty, bind.
  destruct response as [|[] status [[[] [items|]]|]]; reflexivity.
Qed.

(** What a started fetch returns does not depend on when it is resumed. *)
Lemma resume_value {B A} (started : A + Z * FetchOutcome B)
    (finish : FetchOutcome B -> M CachedData A) wa wb :
  (forall response wa wb, fst (finish response wa) = fst (finish response wb)) ->
  fst (resume started finish wa) = fst (resume started finish wb).
Proof.
  intros H. destruct started as [value | [settled response]]; simpl; [reflexivity|].
  unfold bind, settle. apply H.
Qed.

(** The locals after a chain has continued. *)
Lemma nasaChain_continue started w0 locals w :
  let events := fst (resume started finishNASAEvents w0) in
  exists source,
    fst (continue (nasaChain started) locals w)
    = Locals.setNasaEvents events (Locals.pushSource source locals)
    /\ listed source = ("NASA EONET", Z.of_nat (length events)).
Proof.
  cbv zeta. simpl. unfold bind.
  rewrite (resume_value started finishNASAEvents w0 w finishNASAEvents_value).
  destruct (resume started finishNASAEvents w) as [events w']. simpl.
  eexists. split; reflexivity.
Qed.

Lemma gdacsChain_continue started w0 locals w :
  let alerts := fst (resume started (finishProxy gdacsKey GDACSAlerts) w0) in
  exists source,
    fst (continue (gdacsChain started) locals w)
    = Locals.setGdacsAlerts alerts (Locals.pushSource source locals)
    /\ listed source = ("GDACS", Z.of_nat (length alerts)).
Proof.
  cbv zeta. simpl. unfold bind.
  rewrite (resume_value started _ w0 w (finishProxy_value gdacsKey GDACSAlerts)).
  destruct (resume started (finishProxy gdacsKey GDACSAlerts) w) as [alerts w']. simpl.
  eexists. split; reflexivity.
Qed.

Lemma usgsChain_continue lat lon started w0 locals w :
  let quakes := fst (resume started (finishUSGSEarthquakes lat lon) w0) in
  exists source,
    fst (continue (usgsChain lat lon started) locals w)
    = Locals.setEarthquakes quakes (Locals.pushSource source locals)
    /\ listed source = ("USGS Earthquake", Z.of_nat (length quakes)).
Proof.
  cbv zeta. simpl. unfold bind.
  rewrite (resume_value started _ w0 w (finishUSGSEarthquakes_value lat lon)).
  destruct (resume started (finishUSGSEarthquakes lat lon) w) as [quakes w']. simpl.
  eexists. split; reflexivity.
Qed.

Lemma firmsChain_continue lat lon started w0 locals w :
  let fires := fst (resume started (finishProxy (firmsKey lat lon) FIRMSFires) w0) in
  exists source,
    fst (continue (firmsChain lat lon started) locals w)
    = Locals.setActiveFires fires (Locals.pushSource source locals)
    /\ listed source = ("NASA FIRMS", Z.of_nat (length fires)).
Proof.
  cbv zeta. simpl. unfold bind.
  rewrite (resume_value started _ w0 w (finishProxy_value (firmsKey lat lon) FIRMSFires)).
  destruct (resume started (finishProxy (firmsKey lat lon) FIRMSFires) w) as [fires w'].
  simpl. eexists. split; reflexivity.
Qed.

Lemma imdChain_continue lat lon started w0 locals w :
  let warnings := fst (resume started (finishProxy (imdKey lat lon) IMDWarnings) w0) in
  exists source,
    fst (continue (imdChain lat lon started) locals w)
    = Locals.setImdWarnings warnings (Locals.pushSource source locals)
    /\ listed source = ("IMD Warnings", Z.of_nat (length warnings)).
Proof.
  cbv zeta. simpl. unfold bind.
  rewrite (resume_value started _ w0 w (finishProxy_value (imdKey lat lon) IMDWarnings)).
  destruct (resume started (finishProxy (imdKey lat lon) IMDWarnings) w) as [warnings w'].
  simpl. eexists. split; reflexivity.
Qed.

Lemma runAll_kept {A} (local : Locals.t -> A) value queue :
  Forall (fun c => assigns local value c \/ leaves local c) queue ->
  forall locals w, local locals = value -> local (fst (runAll queue locals w)) = value.
Proof.
  induction 1 as [|c queue Hc Hrest IH]; intros locals w Hv; simpl; [exact Hv|].
  unfold bind.
  assert (Hstep : local (fst (continue c locals w)) = value).
  { destruct Hc as [Hc | Hc]; rewrite Hc; [reflexivity|exact Hv]. }
  destruct (continue c locals w) as [locals' w']. apply IH, Hstep.
Qed.

(** A local assigned by one chain of the queue, and left alone by the
    others, holds that chain's value when all have continued. *)
Lemma runAll_assigned {A} (local : Locals.t -> A) value queue :
  Forall (fun c => assigns local value c \/ leaves local c) queue ->
  Exists (assigns local value) queue ->
  forall locals w, local (fst (runAll queue locals w)) = value.
Proof.
  intros Hall Hsome. induction Hsome as [c queue Hc | c queue Hsome IH];
    intros locals w; simpl; unfold bind; inversion Hall; subst.
  - specialize (Hc locals w).
    destruct (continue c locals w) as [locals' w']. apply runAll_kept; assumption.
  - destruct (continue c locals w) as [locals' w']. apply IH. assumption.
Qed.

Lemma runAll_listed queue entries :
  Forall2 pushesListed queue entries ->
  forall locals w,
    map listed (Locals.sources (fst (runAll queue locals w)))
    = map listed (Locals.sources locals) ++ entries.
Proof.
  induction 1 as [|c entry queue entries Hc Hrest IH]; intros locals w; simpl.
  - rewrite app_nil_r. reflexivity.
  - unfold bind. specialize (Hc locals w).
    destruct (continue c locals w) as [locals' w']. simpl in Hc.
    rewrite IH, Hc, <- app_assoc. reflexivity.
Qed.

Ltac after_chain continued :=
  let locals := fresh "locals" in
  let w := fresh "w" in
  let source := fresh "source" in
  let listing := fresh "listing" in
  intros locals w; destruct (continued locals w) as (source & -> & listing);
  simpl; rewrite ?map_app, <- ?listing; reflexivity.

Lemma nasaChain_locals started w0 :
  let events := fst (resume started finishNASAEvents w0) in
  let c := nasaChain started in
  (assigns Locals.nasaEvents events c /\ leaves Locals.gdacsAlerts c
   /\ leaves Locals.earthquakes c /\ leaves Locals.activeFires c
   /\ leaves Locals.imdWarnings c)
  /\ pushesListed c ("NASA EONET", Z.of_nat (length events)).
Proof.
  cbv zeta. pose proof (nasaChain_continue started w0) as H. cbv zeta in H.
  repeat split; after_chain H.
Qed.

Lemma gdacsChain_locals started w0 :
  let alerts := fst (resume started (finishProxy gdacsKey GDACSAlerts) w0) in
  let c := gdacsChain started in
  (leaves Locals.nasaEvents c /\ assigns Locals.gdacsAlerts alerts c
   /\ leaves Locals.earthquakes c /\ leaves Locals.activeFires c
   /\ leaves Locals.imdWarnings c)
  /\ pushesListed c ("GDACS", Z.of_nat (length alerts)).
Proof.
  cbv zeta. pose proof (gdacsChain_continue started w0) as H. cbv zeta in H.
  repeat split; after_chain H.
Qed.

Lemma usgsChain_locals lat lon started w0 :
  let quakes := fst (resume started (finishUSGSEarthquakes lat lon) w0) in
  let c := usgsChain lat lon started in
  (leaves Locals.nasaEvents c /\ leaves Locals.gdacsAlerts c
   /\ assigns Locals.earthquakes quakes c /\ leaves Locals.activeFires c
   /\ leaves Locals.imdWarnings c)
  /\ pushesListed c ("USGS Earthquake", Z.of_nat (length quakes)).
Proof.
  cbv zeta. pose proof (usgsChain_continue lat lon started w0) as H. cbv zeta in H.
  repeat split; after_chain H.
Qed.

Lemma firmsChain_locals lat lon started w0 :
  let fires := fst (resume started (finishProxy (firmsKey lat lon) FIRMSFires) w0) in
  let c := firmsChain lat lon started in
  (leaves Locals.nasaEvents c /\ leaves Locals.gdacsAlerts c
   /\ leaves Locals.earthquakes c /\ assigns Locals.activeFires fires c
   /\ leaves Locals.imdWarnings c)
  /\ pushesListed c ("NASA FIRMS", Z.of_nat (length fires)).
Proof.
  cbv zeta. pose proof (firmsChain_continue lat lon started w0) as H. cbv zeta in H.
  repeat split; after_chain H.
Qed.

Lemma imdChain_locals lat lon started w0 :
  let warnings := fst (resume started (finishProxy (imdKey lat lon) IMDWarnings) w0) in
  let c := imdChain lat lon started in
  (leaves Locals.nasaEvents c /\ leaves Locals.gdacsAlerts c
   /\ leaves Locals.earthquakes c /\ leaves Locals.activeFires c
   /\ assigns Locals.imdWarnings warnings c)
  /\ pushesListed c ("IMD Warnings", Z.of_nat (length warnings)).
Proof.
  cbv zeta. pose proof (imdChain_continue lat lon started w0) as H. cbv zeta in H.
  repeat split; after_chain H.
Qed.

(** What the five chains have left in the locals when all have continued, in
    whatever order: each list is what its started fetch returns, and each
    source is listed with the length of its list. *)
Lemma runAll_chains lat lon nasa gdacs quakes firms imd w1 w2 w3 w4 w5 w :
  let events := fst (resume nasa finishNASAEvents w1) in
  let alerts := fst (resume gdacs (finishProxy gdacsKey GDACSAlerts) w2) in
  let earthquakes := fst (resume quakes (finishUSGSEarthquakes lat lon) w3) in
  let fires := fst (resume firms (finishProxy (firmsKey lat lon) FIRMSFires) w4) in
  let warnings := fst (resume imd (finishProxy (imdKey lat lon) IMDWarnings) w5) in
  let locals :=
    fst (runAll
           (settleOrder
              [ nasaChain nasa; gdacsChain gdacs; usgsChain lat lon quakes;
                firmsChain lat lon firms; imdChain lat lon imd ])
           Locals.empty w) in
  Locals.nasaEvents locals = events
  /\ Locals.gdacsAlerts locals = alerts
  /\ Locals.earthquakes locals = earthquakes
  /\ Locals.activeFires locals = fires
  /\ Locals.imdWarnings locals = warnings
  /\ exists settled,
       Permutation
         [ ("NASA EONET", Z.of_nat (length events));
           ("GDACS", Z.of_nat (length alerts));
           ("USGS Earthquake", Z.of_nat (length earthquakes));
           ("NASA FIRMS", Z.of_nat (length fires));
           ("IMD Warnings", Z.of_nat (length warnings)) ] settled
       /\ map listed (Locals.sources locals) = settled.
Proof.
  cbv zeta.
  set (chains := [ nasaChain nasa; gdacsChain gdacs; usgsChain lat lon quakes;
                   firmsChain lat lon firms; imdChain lat lon imd ]).
  pose proof (settleOrder_permutation chains) as Hperm.
  destruct (nasaChain_locals nasa w1) as ((Nn & Ng & Nq & Nf & Ni) & Np).
  destruct (gdacsChain_locals gdacs w2) as ((Gn & Gg & Gq & Gf & Gi) & Gp).
  destruct (usgsChain_locals lat lon quakes w3) as ((Qn & Qg & Qq & Qf & Qi) & Qp).
  destruct (firmsChain_locals lat lon firms w4) as ((Fn & Fg & Fq & Ff & Fi) & Fp).
  destruct (imdChain_locals lat lon imd w5) as ((In & Ig & Iq & If & Ii) & Ip).
  assert (Hlocal : forall {A} (local : Locals.t -> A) value,
             Forall (fun c => assigns local value c \/ leaves local c) chains ->
             Exists (assigns local value) chains ->
             local (fst (runAll (settleOrder chains) Locals.empty w)) = value).
  { intros A local value Hall Hsome. apply runAll_assigned.
    - rewrite <- Hperm. exact Hall.
    - rewrite <- Hperm. exact Hsome. }
  split; [|split; [|split; [|split; [|split]]]].
  1-5: apply Hlocal; unfold chains;
    [ repeat (apply List.Forall_cons; [auto|]); apply List.Forall_nil
    | repeat first [solve [apply List.Exists_cons_hd; assumption] | apply List.Exists_cons_tl] ].
  assert (Hpush : Forall2 pushesListed chains
            [ ("NASA EONET", Z.of_nat (length (fst (resume nasa finishNASAEvents w1))));
              ("GDACS",
               Z.of_nat (length (fst (resume gdacs (finishProxy gdacsKey GDACSAlerts) w2))));
              ("USGS Earthquake",
               Z.of_nat (length (fst (resume quakes (finishUSGSEarthquakes lat lon) w3))));
              ("NASA FIRMS",
               Z.of_nat (length (fst (resume firms
                                        (finishProxy (firmsKey lat lon) FIRMSFires) w4))));
              ("IMD Warnings",
               Z.of_nat (length (fst (resume imd
                                        (finishProxy (imdKey lat lon) IMDWarnings) w5)))) ]).
  { unfold chains. repeat (apply List.Forall2_cons; [assumption|]). apply List.Forall2_nil. }
  destruct (Permutation_Forall2 Hperm Hpush) as (settled & Hsettled & Hrun).
  exists settled. split; [exact Hsettled|].
  apply (runAll_listed _ _ Hrun Locals.empty w).
Qed.

(** C7. [getAggregatedData] returns one aggregate that merges the five
    fetches, whatever becomes of their requests.  Its event lists are what the
    five fetch functions return, each called in the world the calls before it
    have left (the earthquakes with a radius of 1000 km), and the four
    categories of NASA events are filtered from the EONET list; its
    [nearbyThreats] are computed from these same lists; its [sources] list
    each fetched source once, with the length of its list, in the order the
    fetches settle, and then OpenWeatherMap: six in all.  Each fetch function
    that finds nothing fresh in the cache and whose request is rejected
    (network failure, timeout) or answered with a non-OK status returns the
    empty list; so a failing source contributes an empty list and a count of
    0, and the rest of the aggregate is as the other fetches make it. *)
Theorem aggregate_survives_failures (lat lon : Q) (w : World CachedData) :
  let result := fst (aggregate lat lon w) in
  let w1 := afterSending w (requestIfMissed w nasaKey nasaUrl) in
  let w2 := afterSending w1 (requestIfMissed w gdacsKey (gdacsUrl BACKEND_URL)) in
  let w3 :=
    afterSending w2
      (requestIfMissed w (usgsKey lat lon) (usgsUrl (clock w) lat lon 1000)) in
  let w4 :=
    afterSending w3
      (requestIfMissed w (firmsKey lat lon) (firmsUrl BACKEND_URL lat lon)) in
  let nasaEvents := fst (fetchNASAEvents eonet w) in
  let gdacsAlerts := fst (fetchGDACSAlerts BACKEND_URL gdacsProxy w1) in
  let earthquakes := fst (fetchUSGSEarthquakes usgs lat lon 1000 w2) in
  let activeFires := fst (fetchNASAFIRMS BACKEND_URL firmsProxy lat lon w3) in
  let imdWarnings := fst (fetchIMDWarnings BACKEND_URL imdProxy lat lon w4) in
  let names := map DataSource.name (AggregatedDisasterData.sources result) in
  (AggregatedDisasterData.events result
   = {| Events.earthquakes := earthquakes;
        Events.wildfires :=
          filter (fun e => categoryHas "wildfire" e || categoryHas "fire" e) nasaEvents;
        Events.activeFires := activeFires;
        Events.storms :=
          filter (fun e => categoryHas "storm" e || categoryHas "cyclone" e) nasaEvents;
        Events.floods := filter (fun e => categoryHas "flood" e) nasaEvents;
        Events.volcanoes := filter (fun e => categoryHas "volcano" e) nasaEvents;
        Events.gdacsAlerts := gdacsAlerts;
        Events.imdWarnings := imdWarnings |}
   /\ AggregatedDisasterData.nearbyThreats result
      = calculateNearbyThreats lat lon earthquakes nasaEvents gdacsAlerts activeFires
          imdWarnings
   /\ exists settled,
        Permutation
          [ ("NASA EONET", Z.of_nat (length nasaEvents));
            ("GDACS", Z.of_nat (length gdacsAlerts));
            ("USGS Earthquake", Z.of_nat (length earthquakes));
            ("NASA FIRMS", Z.of_nat (length activeFires));
            ("IMD Warnings", Z.of_nat (length imdWarnings)) ] settled
        /\ map listed (AggregatedDisasterData.sources result)
           = settled ++ [("OpenWeatherMap", 1)])
  /\ (Permutation sixSources names /\ length names = 6%nat
      /\ List.last names "" = "OpenWeatherMap")
  /\ (forall w' : World CachedData,
        uncached nasaKey w' ->
        failed (snd (eonet (outbound w' ++ [nasaUrl]) (clock w'))) = true ->
        fst (fetchNASAEvents eonet w') = [])
  /\ (forall w' : World CachedData,
        uncached gdacsKey w' ->
        failed (snd (gdacsProxy (outbound w' ++ [gdacsUrl BACKEND_URL]) (clock w'))) = true ->
        fst (fetchGDACSAlerts BACKEND_URL gdacsProxy w') = [])
  /\ (forall (radiusKm : Q) (w' : World CachedData),
        uncached (usgsKey lat lon) w' ->
        failed (snd (usgs (outbound w' ++ [usgsUrl (clock w') lat lon radiusKm]) (clock w')))
        = true ->
        fst (fetchUSGSEarthquakes usgs lat lon radiusKm w') = [])
  /\ (forall w' : World CachedData,
        uncached (firmsKey lat lon) w' ->
        failed (snd (firmsProxy (outbound w' ++ [firmsUrl BACKEND_URL lat lon]) (clock w')))
        = true ->
        fst (fetchNASAFIRMS BACKEND_URL firmsProxy lat lon w') = [])
  /\ (forall w' : World CachedData,
        uncached (imdKey lat lon) w' ->
        failed (snd (imdProxy (outbound w' ++ [imdUrl BACKEND_URL lat lon]) (clock w')))
        = true ->
        fst (fetchIMDWarnings BACKEND_URL imdProxy lat lon w') = []).
Proof.
  cbv zeta. split; [|split].
  - unfold fetchNASAEvents, fetchGDACSAlerts, fetchUSGSEarthquakes, fetchNASAFIRMS,
      fetchIMDWarnings, getAggregatedData, bind.
    pose proof (begin_afterSending eonet nasaKey nasaUrl asNASAEvents w) as W1.
    destruct (begin eonet nasaKey nasaUrl asNASAEvents w) as [nasa w1].
    simpl in W1. subst w1.
    set (w1 := afterSending w (requestIfMissed w nasaKey nasaUrl)).
    pose proof (begin_afterSending gdacsProxy gdacsKey (gdacsUrl BACKEND_URL)
                  asGDACSAlerts w1) as W2.
    destruct (begin gdacsProxy gdacsKey (gdacsUrl BACKEND_URL) asGDACSAlerts w1)
      as [gdacs w2].
    simpl in W2. subst w2.
    change (requestIfMissed w1 gdacsKey (gdacsUrl BACKEND_URL))
      with (requestIfMissed w gdacsKey (gdacsUrl BACKEND_URL)).
    set (w2 := afterSending w1 (requestIfMissed w gdacsKey (gdacsUrl BACKEND_URL))).
    pose proof (beginUSGSEarthquakes_afterSending lat lon 1000 w2) as W3.
    destruct (beginUSGSEarthquakes usgs lat lon 1000 w2) as [quakes w3].
    simpl in W3. subst w3.
    change (requestIfMissed w2 (usgsKey lat lon) (usgsUrl (clock w) lat lon 1000))
      with (requestIfMissed w (usgsKey lat lon) (usgsUrl (clock w) lat lon 1000)).
    set (w3 := afterSending w2 (requestIfMissed w (usgsKey lat lon)
                                  (usgsUrl (clock w) lat lon 1000))).
    pose proof (begin_afterSending firmsProxy (firmsKey lat lon)
                  (firmsUrl BACKEND_URL lat lon) asFIRMSFires w3) as W4.
    destruct (begin firmsProxy (firmsKey lat lon) (firmsUrl BACKEND_URL lat lon)
                asFIRMSFires w3) as [firms w4].
    simpl in W4. subst w4.
    change (requestIfMissed w3 (firmsKey lat lon) (firmsUrl BACKEND_URL lat lon))
      with (requestIfMissed w (firmsKey lat lon) (firmsUrl BACKEND_URL lat lon)).
    set (w4 := afterSending w3 (requestIfMissed w (firmsKey lat lon)
                                  (firmsUrl BACKEND_URL lat lon))).
    destruct (begin imdProxy (imdKey lat lon) (imdUrl BACKEND_URL lat lon)
                asIMDWarnings w4) as [imd w5].
    cbv beta iota.
    destruct (runAll_chains lat lon nasa gdacs quakes firms imd w1 w2 w3 w4 w5 w5)
      as (Hn & Hg & Hq & Hf & Hi & settled & Hperm & Hlisted).
    destruct (runAll
                (settleOrder
                   [ nasaChain nasa; gdacsChain gdacs; usgsChain lat lon quakes;
                     firmsChain lat lon firms; imdChain lat lon imd ])
                Locals.empty w5) as [locals w6].
    simpl in Hn, Hg, Hq, Hf, Hi, Hlisted. simpl.
    rewrite Hn, Hg, Hq, Hf, Hi.
    split; [reflexivity|]. split; [reflexivity|].
    exists settled. split; [exact Hperm|].
    rewrite map_app, Hlisted. reflexivity.
  - destruct (aggregate_sources BACKEND_URL eonet gdacsProxy firmsProxy imdProxy usgs
                lat lon w) as (settled & Hperm & Hnames).
    rewrite Hnames.
    pose proof (Permutation_length Hperm) as Hlen. simpl in Hlen.
    split; [|split].
    + unfold sixSources.
      change ["NASA EONET"; "GDACS"; "USGS Earthquake"; "NASA FIRMS"; "IMD Warnings";
              "OpenWeatherMap"]
        with (["NASA EONET"; "GDACS"; "USGS Earthquake"; "NASA FIRMS"; "IMD Warnings"]
              ++ ["OpenWeatherMap"]).
      apply Permutation_app_tail, Hperm.
    + rewrite length_app, <- Hlen. reflexivity.
    + apply List.last_last.
  - split; [|split; [|split; [|split]]].
    + intros w' Hkey Hfail. apply resume_failed; auto using finishNASAEvents_failed.
    + intros w' Hkey Hfail. apply resume_failed; auto using @finishProxy_failed.
    + intros radiusKm w' Hkey Hfail.
      unfold fetchUSGSEarthquakes, beginUSGSEarthquakes.
      unfold bind at 1 2. unfold Date_now at 1.
      apply (resume_failed usgs (usgsKey lat lon) (usgsUrl (clock w') lat lon radiusKm)
               asUSGSEarthquakes (finishUSGSEarthquakes lat lon) w');
        auto using finishUSGSEarthquakes_failed.
    + intros w' Hkey Hfail. apply resume_failed; auto using @finishProxy_failed.
    + intros w' Hkey Hfail. apply resume_failed; auto using @finishProxy_failed.
Qed.

End MergedAggregate.

(** ** Closed instances *)

(** A weather entry stored four seconds ago is served without a request. *)
Lemma ttl_caches_serve_until_expiry_witness :
  let key := @weatherKey decimalFormat 28.61%Q 77.21%Q in
  let entry := {| data := LocationHazardService.defaultWeather; timestamp := 1000 |} in
  let w := {| clock := 5000; outbound := []; store := {[ key := entry ]} |} in
  holdsFresh LocationHazardService.CACHE_DURATION w key entry
  /\ @LocationHazardService.getWeatherData decimalFormat offline 28.61%Q 77.21%Q w
     = (LocationHazardService.defaultWeather, w).
Proof.
  cbv zeta.
  assert (H : holdsFresh LocationHazardService.CACHE_DURATION
                {| clock := 5000; outbound := [];
                   store := {[ @weatherKey decimalFormat 28.61%Q 77.21%Q :=
                               {| data := LocationHazardService.defaultWeather;
                                  timestamp := 1000 |} ]} |}
                (@weatherKey decimalFormat 28.61%Q 77.21%Q)
                {| data := LocationHazardService.defaultWeather; timestamp := 1000 |}).
  { split; vm_compute; reflexivity. }
  split; [exact H|].
  exact (proj1 (@ttl_caches_serve_until_expiry decimalFormat meanCalendar coarseMath
                  offline "http://localhost:8000" offline offline offline offline offline
                  (fun query => query) (fun key => key) offline offline)
           28.61%Q 77.21%Q _ _ H).
Defined.

Section AggregateInstance.
Import DisasterDataService.
#[local] Existing Instance decimalFormat.
#[local] Existing Instance meanCalendar.
#[local] Existing Instance coarseMath.

(** EONET and USGS answer, the GDACS proxy answers 503, and the requests for
    fires and warnings time out: the aggregate has the wildfire, the
    earthquake and the two threats they make, empty lists for the three
    failed sources, and all six sources with their counts. *)
Lemma aggregate_survives_failures_witness :
  let BACKEND_URL := "http://localhost:8000" in
  let result :=
    fst (getAggregatedData BACKEND_URL wildfireEonet gdacsDown offline offline quakeFeed
           28.61 77.21 emptyWorld) in
  let events := AggregatedDisasterData.events result in
  let afterEonet : World CachedData := afterSending emptyWorld [nasaUrl] in
  (uncached gdacsKey afterEonet
   /\ failed (snd (gdacsDown (outbound afterEonet ++ [gdacsUrl BACKEND_URL])
                     (clock afterEonet))) = true)
  /\ fst (fetchGDACSAlerts BACKEND_URL gdacsDown afterEonet) = []
  /\ Events.gdacsAlerts events = []
  /\ Events.activeFires events = []
  /\ Events.imdWarnings events = []
  /\ map NASAEvent.id (Events.wildfires events) = ["EONET_6011"]
  /\ map USGSEarthquake.id (Events.earthquakes events) = ["us7000"]
  /\ map (fun t => (Threat.source t, Threat.distance t))
       (AggregatedDisasterData.nearbyThreats result)
     = [("USGS", 13); ("NASA EONET", 222)]
  /\ map listed (AggregatedDisasterData.sources result)
     = [ ("GDACS", 0); ("USGS Earthquake", 1); ("NASA EONET", 1); ("NASA FIRMS", 0);
         ("IMD Warnings", 0); ("OpenWeatherMap", 1) ].
Proof.
  cbv zeta.
  destruct (@aggregate_survives_failures decimalFormat meanCalendar coarseMath
              "http://localhost:8000" wildfireEonet gdacsDown offline offline quakeFeed
              28.61%Q 77.21%Q emptyWorld)
    as ((Hevents & Hthreats & _) & _ & _ & Hgdacs & _ & Hfirms & Himd).
  cbv zeta in Hevents, Hthreats.
  split; [split; reflexivity|].
  split; [apply Hgdacs; reflexivity|].
  rewrite Hthreats, Hevents. cbn [Events.gdacsAlerts Events.activeFires Events.imdWarnings
    Events.wildfires Events.earthquakes].
  split; [apply Hgdacs; reflexivity|].
  split; [apply Hfirms; reflexivity|].
  split; [apply Himd; reflexivity|].
  repeat split; vm_compute; reflexivity.
Defined.

End AggregateInstance.












(** ** Runs on concrete inputs *)

Section Examples.
#[local] Existing Instance decimalFormat.
#[local] Existing Instance meanCalendar.
#[local] Existing Instance coarseMath.
Import LocationHazardService.

Example delhi_cantt_matches_delhi :
  getGeographicData "Delhi Cantt" 28.59 77.13 = GeoRecord delhi.
Proof. reflexivity. Qed.

Example leh_is_estimated_himalayan :
  terrain (fieldsOf (getGeographicData "Leh" 34.15 77.57)) = mountainous
  /\ seismicZone (fieldsOf (getGeographicData "Leh" 34.15 77.57)) = 5.
Proof. split; reflexivity. Qed.

(** Urban area with recent rain: the score 5 reduced by 20 stops at 0. *)
Example fire_score_stops_at_zero :
  fireTally delhi (sampleWeather 50 5 12) =
    (0, ["Urban area - minimal wildfire risk"; "Recent rainfall reduces risk"])
  /\ (probability (calculateFireRisk delhi (sampleWeather 50 5 12)) == 0)%Q.
Proof. split; reflexivity. Qed.

(** Flat Jaipur away from water in a downpour: 30 + 10 points, capped at 0.25. *)
Example flood_cap_on_flat_terrain :
  let jaipur := mkCity 431 flat false 50 false 500 2 650 sparse rare in
  fst (floodTally 6 jaipur (sampleWeather 90 5 80)) = 40
  /\ (probability (calculateFloodRisk 6 jaipur (sampleWeather 90 5 80)) == 0.25)%Q
  /\ riskLevel (calculateFloodRisk 6 jaipur (sampleWeather 90 5 80)) = moderate_risk.
Proof. cbv zeta. repeat split; reflexivity. Qed.

(** The first lookup sends one request and stores the answer; a second one
    five minutes later is answered from the cache. *)
Example second_weather_lookup_is_cached :
  let first := getWeatherData monsoonDay 28.61 77.21 emptyWorld in
  let later :=
    {| clock := clock (snd first) + 300000; outbound := outbound (snd first);
       store := store (snd first) |} in
  let second := getWeatherData monsoonDay 28.61 77.21 later in
  length (outbound (snd first)) = 1%nat
  /\ fst second = fst first
  /\ outbound (snd second) = outbound (snd first)
  /\ (rainfall24h (fst second) == 12.4)%Q.
Proof. cbv zeta. repeat split; vm_compute; reflexivity. Qed.

(** Eleven minutes later the entry has expired and a second request goes out. *)
Example expired_weather_is_fetched_again :
  let first := getWeatherData monsoonDay 28.61 77.21 emptyWorld in
  let later :=
    {| clock := clock (snd first) + 660000; outbound := outbound (snd first);
       store := store (snd first) |} in
  length (outbound (snd (getWeatherData monsoonDay 28.61 77.21 later))) = 2%nat.
Proof. vm_compute. reflexivity. Qed.

Import DisasterDataService.

Example threats_nearest_first :
  map (fun t => (Threat.source t, Threat.distance t))
    (calculateNearbyThreats 28.61 77.21 [quakeNearDelhi] [] [] [] [heatWarning])
  = [("IMD", 0); ("USGS", 13)].
Proof. vm_compute. reflexivity. Qed.

(** The sources are listed in the order the fetches settle. *)
Example sources_in_settling_order :
  map DataSource.name
    (AggregatedDisasterData.sources
       (fst (getAggregatedData "http://localhost:8000" slowEonet quickGdacs offline
               offline offline 28.61 77.21 emptyWorld)))
  = [ "GDACS"; "NASA EONET"; "USGS Earthquake"; "NASA FIRMS"; "IMD Warnings";
      "OpenWeatherMap" ].
Proof. vm_compute. reflexivity. Qed.

End Examples.

(** * Further properties of the services *)

(** ** Scoring rules of LocationHazardService *)

Section ScoringRules.
Import LocationHazardService.
Context {fmt : NumberFormat}.

Lemma Qltb_negb_Qgeb (x c : Q) : Qltb x c = negb (Qgeb x c).
Proof. reflexivity. Qed.

Lemma Qgtb_true (x c : Q) : Qgtb x c = true <-> (c < x)%Q.
Proof.
  unfold Qgtb. rewrite negb_true_iff. split; intros H.
  - apply Qnot_le_lt. intros Hle. apply Qle_bool_iff in Hle. congruence.
  - destruct (Qle_bool x c) eqn:E; [|reflexivity].
    apply Qle_bool_iff in E. exfalso. eapply Qlt_not_le; eassumption.
Qed.

Lemma Qgtb_false (x c : Q) : Qgtb x c = false <-> (x <= c)%Q.
Proof. unfold Qgtb. rewrite negb_false_iff. apply Qle_bool_iff. Qed.

(** X1. Flat terrain away from river and coast: whatever the weather and the
    season, the flood probability is at most 0.25 and the risk level is low or
    moderate. *)
Theorem flood_capped_on_dry_flat_land (month : Z) (geoData : CityGeographicData)
    (weather : WeatherData) :
  nearRiver geoData = false -> nearCoast geoData = false -> terrain geoData = flat ->
  let r := calculateFloodRisk month geoData weather in
  (probability r <= 0.25)%Q /\ (riskLevel r = low \/ riskLevel r = moderate_risk).
Proof.
  intros Hriver Hcoast Hflat r.
  assert (Hcap : floodCapped geoData = true).
  { unfold floodCapped. rewrite Hriver, Hcoast, Hflat. reflexivity. }
  pose proof (probability_of_tally flood month geoData weather) as Hp.
  pose proof (riskLevel_of_probability flood month geoData weather) as Hl.
  simpl in Hp, Hl. rewrite Hcap in Hp. fold r in Hp, Hl.
  assert (Hle : (probability r <= 0.25)%Q) by (rewrite Hp; apply Q.le_min_r).
  split; [exact Hle|].
  rewrite Hl. unfold getRiskLevel.
  assert (Qgeb (probability r) 0.70 = false) as -> by (apply Qgeb_false; lra).
  assert (Qgeb (probability r) 0.45 = false) as -> by (apply Qgeb_false; lra).
  destruct (Qgeb (probability r) 0.20); auto.
Qed.

(** X2. The earthquake probability never exceeds 0.55, so the clamp at 0.60 is
    never reached; the risk level is high exactly in seismic zone 5 and is
    never critical. *)
Theorem earthquake_risk_by_zone (geoData : CityGeographicData) :
  let r := calculateEarthquakeRisk geoData in
  (probability r <= 0.55)%Q
  /\ riskLevel r <> critical
  /\ (riskLevel r = high <-> seismicZone geoData = 5).
Proof.
  unfold calculateEarthquakeRisk, earthquakeTally.
  destruct (seismicZone geoData =? 5) eqn:E5.
  { apply Z.eqb_eq in E5.
    destruct (Terrain_eqb (terrain geoData) mountainous); cbv zeta; simpl;
      (split; [unfold Qle; simpl; lia|]); (split; [discriminate|]);
      (split; intros; [exact E5|reflexivity]). }
  apply Z.eqb_neq in E5.
  destruct (seismicZone geoData =? 4), (seismicZone geoData =? 3),
    (seismicZone geoData =? 2), (Terrain_eqb (terrain geoData) mountainous);
    cbv zeta; simpl;
    (split; [unfold Qle; simpl; lia|]); (split; [discriminate|]);
    (split; intros H; try discriminate H; contradiction).
Qed.

(** X3. On flat terrain the landslide result is fixed: probability 0.02 at
    level low with confidence 0.95, one factor, a stable trend and the
    recommendations for flat terrain; the weather, the seismic zone and the
    elevation play no part. *)
Theorem landslide_on_flat_terrain (geoData : CityGeographicData) (weather : WeatherData) :
  terrain geoData = flat ->
  let r := calculateLandslideRisk geoData weather in
  probability r = 0.02%Q
  /\ riskLevel r = low
  /\ confidence r = 0.95%Q
  /\ factors r = ["Flat terrain - minimal landslide risk"]
  /\ trend r = stable
  /\ recommendations r =
       ["Flat terrain - landslide risk negligible"; "No special precautions needed"].
Proof.
  intros Hflat. unfold calculateLandslideRisk, landslideTally.
  rewrite Hflat. cbv zeta. simpl.
  rewrite andb_false_r. repeat split; reflexivity.
Qed.


Lemma below_let (v1 v2 : Tally) (body1 body2 : Tally -> Tally) :
  below v1 v2 ->
  (forall t1 t2, below t1 t2 -> below (body1 t1) (body2 t2)) ->
  below (let t := v1 in body1 t) (let t := v2 in body2 t).
Proof. intros Hv Hbody. cbv zeta. apply Hbody, Hv. Qed.

(** Rewrites the tests on numbers among the hypotheses into inequalities. *)
Ltac read_tests :=
  repeat match goal with
         | H : Qgtb _ _ = true |- _ => apply Qgtb_true in H
         | H : Qgtb _ _ = false |- _ => apply Qgtb_false in H
         | H : Qltb _ _ = true |- _ => rewrite Qltb_negb_Qgeb, negb_true_iff in H
         | H : Qltb _ _ = false |- _ => rewrite Qltb_negb_Qgeb, negb_false_iff in H
         | H : Qgeb _ _ = true |- _ => apply Qgeb_true in H
         | H : Qgeb _ _ = false |- _ => apply Qgeb_false in H
         end.

(** Compares two tallies built by the same chain of updates, one update at a
    time; a pair of branches is either ordered or excluded by the tests. *)
Ltac tally_below :=
  lazymatch goal with
  | |- below (let a := ?v1 in @?body1 a) (let b := ?v2 in @?body2 b) =>
      apply (below_let v1 v2 body1 body2);
      [ tally_below
      | let t1 := fresh "t" in
        let t2 := fresh "t" in
        let H := fresh "H" in
        intros t1 t2 H; cbv beta; tally_below ]
  | |- below (if ?b then _ else _) _ =>
      let E := fresh "E" in destruct b eqn:E; cbv iota; tally_below
  | |- below _ (if ?b then _ else _) =>
      let E := fresh "E" in destruct b eqn:E; cbv iota; tally_below
  | |- _ =>
      unfold below in *;
      repeat first [rewrite fst_add | rewrite fst_assign | rewrite fst_note];
      change (fst start) with 0;
      first [ lia | exfalso; read_tests; lra ]
  end.

Lemma scaled_le (a b : Z) : a <= b -> (scaled a <= scaled b)%Q.
Proof. intros H. unfold scaled, Qdiv, Qle. simpl. lia. Qed.

Lemma floodTally_weather_le month geoData (w1 w2 : WeatherData) :
  (rainfall24h w1 <= rainfall24h w2)%Q -> (humidity w1 <= humidity w2)%Q ->
  below (floodTally month geoData w1) (floodTally month geoData w2).
Proof.
  intros Hrain Hhumid. cbv beta delta [floodTally]. tally_below.
Qed.

(** X5. More rain and more humidity never lower the flood probability. *)
Theorem flood_probability_monotone (month : Z) (geoData : CityGeographicData)
    (w1 w2 : WeatherData) :
  (rainfall24h w1 <= rainfall24h w2)%Q -> (humidity w1 <= humidity w2)%Q ->
  (probability (calculateFloodRisk month geoData w1)
   <= probability (calculateFloodRisk month geoData w2))%Q.
Proof.
  intros Hrain Hhumid.
  pose proof (floodTally_weather_le month geoData w1 w2 Hrain Hhumid) as [_ Hs].
  apply scaled_le in Hs.
  change (calculateFloodRisk month geoData w1) with (scoreHazard flood month geoData w1).
  change (calculateFloodRisk month geoData w2) with (scoreHazard flood month geoData w2).
  rewrite (probability_of_tally flood month geoData w1),
    (probability_of_tally flood month geoData w2).
  cbv zeta. simpl tallyOf. simpl maxProbability.
  destruct (floodCapped geoData).
  - apply Q.min_le_compat_r, Q.min_le_compat_r, Hs.
  - apply Q.min_le_compat_r, Hs.
Qed.

Lemma fireTally_rain_le geoData (w1 w2 : WeatherData) :
  temperature w1 = temperature w2 -> humidity w1 = humidity w2 ->
  windSpeed w1 = windSpeed w2 -> (rainfall24h w1 <= rainfall24h w2)%Q ->
  below (fireTally geoData w2) (fireTally geoData w1).
Proof.
  intros Ht Hh Hw Hrain. cbv beta delta [fireTally]. rewrite Ht, Hh, Hw.
  tally_below.
Qed.

(** X6. With temperature, humidity and wind unchanged, more rain never raises
    the wildfire probability. *)
Theorem fire_probability_rain (geoData : CityGeographicData) (w1 w2 : WeatherData) :
  temperature w1 = temperature w2 -> humidity w1 = humidity w2 ->
  windSpeed w1 = windSpeed w2 -> (rainfall24h w1 <= rainfall24h w2)%Q ->
  (probability (calculateFireRisk geoData w2)
   <= probability (calculateFireRisk geoData w1))%Q.
Proof.
  intros Ht Hh Hw Hrain.
  pose proof (fireTally_rain_le geoData w1 w2 Ht Hh Hw Hrain) as [_ Hs].
  apply scaled_le in Hs.
  change (calculateFireRisk geoData w1) with (scoreHazard fire 0 geoData w1).
  change (calculateFireRisk geoData w2) with (scoreHazard fire 0 geoData w2).
  rewrite (probability_of_tally fire 0 geoData w1),
    (probability_of_tally fire 0 geoData w2).
  cbv zeta. simpl tallyOf. simpl maxProbability.
  apply Q.min_le_compat_r, Hs.
Qed.

Lemma getFloodRecommendations_by_level (p : Q) :
  getFloodRecommendations p =
  match getRiskLevel p with
  | low =>
      [ "Standard preparedness is sufficient";
        "Keep emergency contacts handy";
        "Monitor weather forecasts during monsoon" ]
  | moderate_risk =>
      [ "Monitor local weather updates";
        "Keep important documents elevated";
        "Know your evacuation routes";
        "Have emergency supplies ready" ]
  | high | critical =>
      [ "⚠️ Prepare for potential flooding";
        "Move valuables to higher ground";
        "Stock emergency supplies and water";
        "Avoid low-lying areas";
        "Keep emergency evacuation bag ready" ]
  end.
Proof.
  unfold getFloodRecommendations, getRiskLevel. rewrite !Qltb_negb_Qgeb.
  destruct (Qgeb p 0.70) eqn:E1, (Qgeb p 0.45) eqn:E2, (Qgeb p 0.20) eqn:E3;
    simpl; try reflexivity; exfalso; read_tests; lra.
Qed.

Lemma getStormRecommendations_by_level (p : Q) :
  getStormRecommendations p =
  match getRiskLevel p with
  | low => [ "No storm precautions needed currently"; "Continue monitoring forecasts" ]
  | moderate_risk =>
      [ "Secure loose outdoor items";
        "Keep devices charged";
        "Stay updated on weather alerts" ]
  | high | critical =>
      [ "⚠️ Storm conditions developing";
        "Stay indoors during storm";
        "Secure all outdoor objects";
        "Have flashlights and batteries ready";
        "Avoid windows and electrical equipment" ]
  end.
Proof.
  unfold getStormRecommendations, getRiskLevel. rewrite !Qltb_negb_Qgeb.
  destruct (Qgeb p 0.70) eqn:E1, (Qgeb p 0.45) eqn:E2, (Qgeb p 0.20) eqn:E3;
    simpl; try reflexivity; exfalso; read_tests; lra.
Qed.

Lemma recommendations_by_level (h : HazardType) :
  h <> fire -> h <> landslide ->
  exists advice : RiskLevel -> list string,
    forall month geoData weather,
      let r := scoreHazard h month geoData weather in
      recommendations r = advice (riskLevel r).
Proof.
  intros Hfire Hslide. destruct h; try congruence; clear Hfire Hslide.
  - exists (fun l => match l with
                     | low => getFloodRecommendations 0
                     | moderate_risk => getFloodRecommendations 0.20
                     | _ => getFloodRecommendations 0.45
                     end).
    intros month geoData weather. cbv zeta. simpl scoreHazard.
    unfold calculateFloodRisk.
    destruct (floodTally month geoData weather) as [riskScore fs].
    destruct (negb (nearRiver geoData) && negb (nearCoast geoData)
              && Terrain_eqb (terrain geoData) flat);
      cbn [recommendations riskLevel]; rewrite getFloodRecommendations_by_level;
      match goal with |- context [getRiskLevel ?p] => destruct (getRiskLevel p) end;
      reflexivity.
  - exists (fun l => match l with
                     | low => getEarthquakeRecommendations 0
                     | _ => getEarthquakeRecommendations 0.25
                     end).
    intros month geoData weather. cbv zeta. simpl scoreHazard.
    unfold calculateEarthquakeRisk, earthquakeTally.
    destruct (seismicZone geoData =? 5), (seismicZone geoData =? 4),
      (seismicZone geoData =? 3), (seismicZone geoData =? 2),
      (Terrain_eqb (terrain geoData) mountainous); reflexivity.
  - exists (fun l => match l with
                     | low => getStormRecommendations 0
                     | moderate_risk => getStormRecommendations 0.20
                     | _ => getStormRecommendations 0.45
                     end).
    intros month geoData weather. cbv zeta. simpl scoreHazard.
    unfold calculateStormRisk.
    destruct (stormTally geoData weather) as [riskScore fs].
    cbn [recommendations riskLevel]. rewrite getStormRecommendations_by_level.
    match goal with |- context [getRiskLevel ?p] => destruct (getRiskLevel p) end;
      reflexivity.
Qed.

(** X7. Two flood results with the same risk level carry the same
    recommendations, whatever the place, month and weather that led to them;
    so do two earthquake results and two storm results. *)
Theorem same_level_same_recommendations (h : HazardType)
    (month1 month2 : Z) (geo1 geo2 : CityGeographicData) (w1 w2 : WeatherData) :
  h <> fire -> h <> landslide ->
  riskLevel (scoreHazard h month1 geo1 w1) = riskLevel (scoreHazard h month2 geo2 w2) ->
  recommendations (scoreHazard h month1 geo1 w1)
  = recommendations (scoreHazard h month2 geo2 w2).
Proof.
  intros Hfire Hslide Hlevel.
  destruct (recommendations_by_level h Hfire Hslide) as (advice & Hadvice).
  rewrite (Hadvice month1 geo1 w1), (Hadvice month2 geo2 w2), Hlevel. reflexivity.
Qed.

(** For fire and landslide the level does not fix the advice: two fire
    results of low level differ in their recommendations, as do two landslide
    results of low level. *)
Lemma level_does_not_fix_fire_and_landslide_advice :
  let blaze v := calculateFireRisk (sampleGeo flat false 2 v) (sampleWeather 50 5 0) in
  let slide t := calculateLandslideRisk (sampleGeo t false 2 urban) (sampleWeather 50 5 0) in
  (riskLevel (blaze urban) = riskLevel (blaze moderate)
   /\ recommendations (blaze urban) <> recommendations (blaze moderate))
  /\ (riskLevel (slide flat) = riskLevel (slide coastal)
      /\ recommendations (slide flat) <> recommendations (slide coastal)).
Proof.
  cbv zeta. repeat split; try reflexivity; vm_compute; discriminate.
Qed.

Lemma length_positive_nonempty {A} (l : list A) :
  (0 <? Z.of_nat (length l)) = true -> l <> [].
Proof. destruct l; [discriminate|]. intros _ H. discriminate H. Qed.

(** X8. The flood, earthquake and storm results always name at least one factor
    (the first and the last substitute a sentence when none applies); the
    fire and landslide results can come without any. *)
Theorem factors_listed (month : Z) (geoData : CityGeographicData) (weather : WeatherData) :
  factors (calculateFloodRisk month geoData weather) <> []
  /\ factors (calculateEarthquakeRisk geoData) <> []
  /\ factors (calculateStormRisk geoData weather) <> []
  /\ factors (calculateFireRisk (sampleGeo coastal false 2 sparse) (sampleWeather 60 5 0))
     = []
  /\ factors (calculateLandslideRisk (sampleGeo coastal false 2 sparse)
                (sampleWeather 60 5 0)) = [].
Proof.
  split; [|split; [|split; [|split; reflexivity]]].
  - unfold calculateFloodRisk.
    destruct (floodTally month geoData weather) as [riskScore fs].
    destruct (negb (nearRiver geoData) && negb (nearCoast geoData)
              && Terrain_eqb (terrain geoData) flat);
      cbn [factors];
      (destruct (0 <? Z.of_nat (length fs)) eqn:E;
       [apply length_positive_nonempty, E|discriminate]).
  - unfold calculateEarthquakeRisk, earthquakeTally.
    destruct (seismicZone geoData =? 5), (seismicZone geoData =? 4),
      (seismicZone geoData =? 3), (seismicZone geoData =? 2),
      (Terrain_eqb (terrain geoData) mountainous); cbv zeta; simpl; discriminate.
  - unfold calculateStormRisk.
    destruct (stormTally geoData weather) as [riskScore fs]. cbn [factors].
    destruct (0 <? Z.of_nat (length fs)) eqn:E;
      [apply length_positive_nonempty, E|discriminate].
Qed.

End ScoringRules.

(** ** Estimated geography and the weather request *)

Section EstimatedGeography.
Import LocationHazardService.

(** X9. The record estimated from coordinates is consistent in these respects:
    the seismic zone is between II and V, and V exactly for mountainous
    terrain; a place near the coast is also near a river, 10 km from the
    coast and never flat; flood history is rare or occasional, the latter
    exactly near a river. *)
Theorem estimated_geography_consistent (lat lon : Q) :
  let g := estimateGeographicData lat lon in
  2 <= seismicZone g <= 5
  /\ (terrain g = mountainous <-> seismicZone g = 5)
  /\ (nearCoast g = true ->
      nearRiver g = true /\ coastDistance g = 10%Q /\ terrain g <> flat)
  /\ (floodHistory g = occasional <-> nearRiver g = true)
  /\ (floodHistory g = rare <-> nearRiver g = false).
Proof.
  unfold estimateGeographicData.
  generalize (Qgtb lat 28 && Qltb lat 36 && Qgtb lon 74 && Qltb lon 92).
  generalize ((Qltb lon 73 || Qgtb lon 87) || Qltb lat 12).
  generalize (Qgtb lat 22 && Qltb lat 28 && Qgtb lon 78 && Qltb lon 90).
  generalize (Qgtb lat 24 && Qltb lat 30 && Qgtb lon 68 && Qltb lon 76).
  generalize (Qgtb lon 73 && Qltb lon 78 && Qgtb lat 8 && Qltb lat 21).
  intros [] [] [] [] []; cbv zeta; simpl;
    repeat split; intros; try lia; try congruence; try reflexivity.
Qed.

End EstimatedGeography.

Section WeatherRequest.
Import LocationHazardService.
Context {fmt : NumberFormat} {cal : Calendar}.
Variable openWeatherMap : Network OpenWeatherBody.

Lemma requestWeather_unfold lat lon key (w : World WeatherData) :
  requestWeather openWeatherMap lat lon key w =
  let p := openWeatherMap (outbound w ++ [weatherUrl lat lon]) (clock w) in
  let w1 := {| clock := fst p; outbound := outbound w ++ [weatherUrl lat lon];
               store := store w |} in
  match answer (snd p) with
  | Some body =>
      (weatherOf body,
       {| clock := fst p; outbound := outbound w ++ [weatherUrl lat lon];
          store := <[ key := {| data := weatherOf body; timestamp := fst p |} ]> (store w) |})
  | None => (defaultWeather, w1)
  end.
Proof.
  unfold requestWeather, bind, fetch, bind, sendRequest, settle, ret, weatherUrl.
  destruct (openWeatherMap _ _) as [settled [|[] status [body|]]]; reflexivity.
Qed.

Lemma getWeatherData_miss lat lon (w : World WeatherData) :
  lookupFresh CACHE_DURATION w (weatherKey lat lon) = None ->
  getWeatherData openWeatherMap lat lon w
  = requestWeather openWeatherMap lat lon (weatherKey lat lon) w.
Proof.
  unfold lookupFresh, getWeatherData, bind, Map_get, Date_now.
  fold (weatherKey lat lon).
  destruct (store w !! weatherKey lat lon) as [entry|]; [|reflexivity].
  destruct (fresh CACHE_DURATION (clock w) entry); [discriminate|reflexivity].
Qed.

(** X10. When nothing fresh is cached and the weather request is rejected, gets a
    non-OK status or an unreadable body, [getWeatherData] sends that one
    request, returns the default weather and stores nothing; the predictions
    of [getHazardPredictions] are then those for the default weather. *)
Theorem weather_failure_gives_defaults (cityName : string) (lat lon : Q)
    (w : World WeatherData) :
  lookupFresh CACHE_DURATION w (weatherKey lat lon) = None ->
  answer (snd (openWeatherMap (outbound w ++ [weatherUrl lat lon]) (clock w))) = None ->
  let settled := fst (openWeatherMap (outbound w ++ [weatherUrl lat lon]) (clock w)) in
  let after := {| clock := settled; outbound := outbound w ++ [weatherUrl lat lon];
                  store := store w |} in
  getWeatherData openWeatherMap lat lon w = (defaultWeather, after)
  /\ getHazardPredictions openWeatherMap cityName lat lon w
     = (hazardResults (getMonth settled) (fieldsOf (getGeographicData cityName lat lon))
          defaultWeather, after).
Proof.
  intros Hmiss Hfail. cbv zeta.
  assert (Hget : getWeatherData openWeatherMap lat lon w
                 = (defaultWeather,
                    {| clock := fst (openWeatherMap (outbound w ++ [weatherUrl lat lon])
                                       (clock w));
                       outbound := outbound w ++ [weatherUrl lat lon];
                       store := store w |})).
  { rewrite (getWeatherData_miss _ _ _ Hmiss), requestWeather_unfold.
    cbv zeta. rewrite Hfail. reflexivity. }
  split; [exact Hget|].
  unfold getHazardPredictions, bind. rewrite Hget. reflexivity.
Qed.

(** X11. When nothing fresh is cached and the request succeeds, the weather read
    from the response is returned and cached: for the next ten minutes every
    call for coordinates with the same two-decimal rounding returns it
    without a request. *)
Theorem weather_success_is_cached (lat lon : Q) (w : World WeatherData)
    (body : OpenWeatherBody) :
  lookupFresh CACHE_DURATION w (weatherKey lat lon) = None ->
  answer (snd (openWeatherMap (outbound w ++ [weatherUrl lat lon]) (clock w))) = Some body ->
  let first := getWeatherData openWeatherMap lat lon w in
  fst first = weatherOf body
  /\ sends (getWeatherData openWeatherMap lat lon) w [weatherUrl lat lon]
  /\ forall (lat' lon' : Q) (later : World WeatherData),
       weatherKey lat' lon' = weatherKey lat lon ->
       store later = store (snd first) ->
       clock later - clock (snd first) < CACHE_DURATION ->
       servedFromCache (getWeatherData openWeatherMap lat' lon') later (weatherOf body).
Proof.
  intros Hmiss Hok. cbv zeta.
  rewrite (getWeatherData_miss _ _ _ Hmiss).
  unfold sends. rewrite (getWeatherData_miss _ _ _ Hmiss), requestWeather_unfold.
  cbv zeta. rewrite Hok. cbn [fst snd clock outbound store].
  split; [reflexivity|]. split; [reflexivity|].
  intros lat' lon' later Hkey Hstore Hage.
  unfold servedFromCache.
  apply (getWeatherData_hit openWeatherMap lat' lon' later
           {| data := weatherOf body;
              timestamp := fst (openWeatherMap (outbound w ++ [weatherUrl lat lon])
                                  (clock w)) |}).
  - rewrite Hstore, Hkey. apply lookup_insert_eq.
  - apply fresh_age. exact Hage.
Qed.

End WeatherRequest.

(** ** The list of nearby threats *)

Section ThreatList.
Import DisasterDataService.
Context {fmt : NumberFormat} {math : JsMath}.

Lemma Qltb_lt (x c : Q) : Qltb x c = true <-> (x < c)%Q.
Proof. rewrite Qltb_negb_Qgeb, negb_true_iff. apply Qgeb_false. Qed.

Lemma Math_round_below (x : Q) (c : Z) : (x < inject_Z c)%Q -> Math_round x <= c.
Proof.
  intros H. unfold Math_round.
  assert (Hle : (x + (1 # 2) <= inject_Z c + (1 # 2))%Q) by lra.
  apply Qfloor_resp_le in Hle.
  replace (Qfloor (inject_Z c + (1 # 2))) with c in Hle; [exact Hle|].
  unfold Qfloor, Qplus, inject_Z. cbn [Qnum Qden].
  apply Z.div_unique with (r := 1); lia.
Qed.

Lemma fold_left_Forall {A} (P : Threat.t -> Prop)
    (step : list Threat.t -> A -> list Threat.t) (xs : list A) :
  (forall acc x, Forall P acc -> Forall P (step acc x)) ->
  forall acc, Forall P acc -> Forall P (fold_left step xs acc).
Proof.
  intros Hstep. induction xs as [|x xs IH]; intros acc Hacc; simpl; auto.
Qed.

Lemma push_Forall (P : Threat.t -> Prop) threats t :
  Forall P threats -> P t -> Forall P (push threats t).
Proof.
  intros Hl Ht. unfold push. apply Forall_app. split; [exact Hl|].
  constructor; [exact Ht|constructor].
Qed.

Lemma allThreats_within_reach lat lon earthquakes nasaEvents gdacsAlerts activeFires
    imdWarnings :
  Forall withinReach
    (allThreats lat lon earthquakes nasaEvents gdacsAlerts activeFires imdWarnings).
Proof.
  unfold allThreats, gdacsThreats, imdThreats, fireThreats, nasaThreats,
    earthquakeThreats.
  apply fold_left_Forall.
  { intros acc alert Hacc. cbv zeta.
    destruct (negb _ && negb _); [|exact Hacc].
    destruct (Qltb _ 1000) eqn:E; [|exact Hacc].
    apply push_Forall; [exact Hacc|].
    do 4 right. split; [reflexivity|].
    apply (Math_round_below _ 1000), Qltb_lt, E. }
  apply fold_left_Forall.
  { intros acc warning Hacc. cbv zeta.
    apply push_Forall; [exact Hacc|]. do 3 right. left. split; reflexivity. }
  apply fold_left_Forall.
  { intros acc fire Hacc.
    destruct (FIRMSFire.distance_km fire) as [distance_km|]; [|exact Hacc].
    destruct (negb (Qeq_bool distance_km 0)); [|exact Hacc].
    destruct (Qltb distance_km 200) eqn:E; [|exact Hacc].
    cbv zeta. simpl andb. cbv iota.
    apply push_Forall; [exact Hacc|].
    do 2 right. left. split; [reflexivity|].
    apply (Math_round_below _ 200), Qltb_lt, E. }
  apply fold_left_Forall.
  { intros acc event Hacc.
    destruct (NASAEvent.geometry event) as [[|first rest]|]; try exact Hacc.
    cbv zeta.
    destruct (Qltb _ 1000) eqn:E; [|exact Hacc].
    apply push_Forall; [exact Hacc|].
    right. left. split; [reflexivity|].
    apply (Math_round_below _ 1000), Qltb_lt, E. }
  apply fold_left_Forall; [|constructor].
  intros acc eq Hacc.
  destruct (USGSEarthquake.coordinates eq) as [[c0 c1] c2]. cbv zeta.
  destruct (Qltb _ 500) eqn:E; [|exact Hacc].
  apply push_Forall; [exact Hacc|].
  left. split; [reflexivity|].
  apply (Math_round_below _ 500), Qltb_lt, E.
Qed.

Lemma sortByDistance_Forall (P : Threat.t -> Prop) l :
  Forall P l -> Forall P (sortByDistance l).
Proof.
  unfold sortByDistance. induction 1 as [|t l Ht Hl IH]; simpl.
  - constructor.
  - apply insertByDistance_Forall; assumption.
Qed.

(** X12. Every threat listed as nearby names one of the five sources, and the
    distance shown with it is at most 500 km for a USGS earthquake, 1000 km
    for an EONET event or a GDACS alert, 200 km for a FIRMS fire, and 0 for
    an IMD warning. *)
Theorem nearby_threats_within_reach (lat lon : Q)
    (earthquakes : list USGSEarthquake.t) (nasaEvents : list NASAEvent.t)
    (gdacsAlerts : list GDACSAlert.t) (activeFires : list FIRMSFire.t)
    (imdWarnings : list IMDWarning.t) :
  Forall withinReach
    (calculateNearbyThreats lat lon earthquakes nasaEvents gdacsAlerts activeFires
       imdWarnings).
Proof.
  change (Forall withinReach
            (firstn 10 (sortByDistance
               (allThreats lat lon earthquakes nasaEvents gdacsAlerts activeFires
                  imdWarnings)))).
  apply firstn_Forall, sortByDistance_Forall, allThreats_within_reach.
Qed.

Lemma insertByDistance_permutation t l : Permutation (t :: l) (insertByDistance t l).
Proof.
  induction l as [|u rest IH]; simpl.
  - reflexivity.
  - destruct (Threat.distance t <=? Threat.distance u).
    + reflexivity.
    + rewrite perm_swap. apply perm_skip, IH.
Qed.

Lemma sortByDistance_permutation l : Permutation l (sortByDistance l).
Proof.
  unfold sortByDistance. induction l as [|t l IH]; simpl.
  - reflexivity.
  - rewrite <- insertByDistance_permutation. apply perm_skip, IH.
Qed.

Lemma sorted_app_le {A} (R : A -> A -> Prop) (l1 l2 : list A) :
  StronglySorted R (l1 ++ l2) ->
  forall t u, In t l1 -> In u l2 -> R t u.
Proof.
  induction l1 as [|x l1 IH]; simpl; intros Hs t u Ht Hu; [contradiction|].
  inversion Hs as [|y l Hrest Hx]; subst.
  destruct Ht as [<- | Ht].
  - rewrite List.Forall_forall in Hx. apply Hx, in_or_app. right. exact Hu.
  - apply IH; assumption.
Qed.

(** X13. The threats returned are the nearest ones collected: together with the
    ones left out they are all the threats of the five loops, none left out is
    nearer than one returned, and ten are returned whenever there are ten. *)
Theorem nearest_threats_are_kept (lat lon : Q)
    (earthquakes : list USGSEarthquake.t) (nasaEvents : list NASAEvent.t)
    (gdacsAlerts : list GDACSAlert.t) (activeFires : list FIRMSFire.t)
    (imdWarnings : list IMDWarning.t) :
  let collected :=
    allThreats lat lon earthquakes nasaEvents gdacsAlerts activeFires imdWarnings in
  let returned :=
    calculateNearbyThreats lat lon earthquakes nasaEvents gdacsAlerts activeFires
      imdWarnings in
  length returned = Nat.min 10 (length collected)
  /\ exists leftOut,
       Permutation collected (returned ++ leftOut)
       /\ forall t u, In t returned -> In u leftOut -> nearerOrEqual t u.
Proof.
  intros collected returned.
  assert (Hreturned : returned = firstn 10 (sortByDistance collected)) by reflexivity.
  split.
  - rewrite Hreturned, length_firstn.
    rewrite <- (Permutation_length (sortByDistance_permutation collected)).
    reflexivity.
  - exists (skipn 10 (sortByDistance collected)). rewrite Hreturned. split.
    + rewrite firstn_skipn. apply sortByDistance_permutation.
    + apply sorted_app_le. rewrite firstn_skipn. apply sortByDistance_sorted.
Qed.



End ThreatList.

(** ** Requests, sources and confidence of the aggregation *)

Section AggregatedRequests.
Import DisasterDataService.
Context {fmt : NumberFormat} {cal : Calendar} {math : JsMath}.
Variable BACKEND_URL : string.
Variable eonet : Network (option (list RawEvent.t)).
Variable gdacsProxy : Network (ProxyBody.t GDACSAlert.t).
Variable firmsProxy : Network (ProxyBody.t FIRMSFire.t).
Variable imdProxy : Network (ProxyBody.t IMDWarning.t).
Variable usgs : Network (option (list RawFeature.t)).

Abbreviation aggregated :=
  (getAggregatedData BACKEND_URL eonet gdacsProxy firmsProxy imdProxy usgs).

Ltac name_step :=
  match goal with
  | |- context [let '(_, _) := ?m in _] => destruct m
  end.

Lemma begin_outbound {B A} (net : Network B) key url (cast : CachedData -> A) w :
  outbound (snd (begin net key url cast w)) = outbound w ++ requestIfMissed w key url.
Proof.
  unfold begin, bind, requestIfMissed. rewrite getFromCache_lookupFresh.
  destruct (lookupFresh CACHE_DURATION w key); simpl; [rewrite app_nil_r|]; reflexivity.
Qed.

Lemma requestIfMissed_same_cache (w w' : World CachedData) key url :
  store w' = store w -> clock w' = clock w ->
  requestIfMissed w' key url = requestIfMissed w key url.
Proof. unfold requestIfMissed, lookupFresh. intros -> ->. reflexivity. Qed.

Lemma finishNASAEvents_outbound response w :
  outbound (snd (finishNASAEvents response w)) = outbound w.
Proof.
  unfold finishNASAEvents, catchEmpty, bind.
  destruct response as [|[] status [[raw|]|]]; simpl; try reflexivity.
  destruct (mapOrThrow toNASAEvent raw); reflexivity.
Qed.

Lemma finishUSGSEarthquakes_outbound lat lon response w :
  outbound (snd (finishUSGSEarthquakes lat lon response w)) = outbound w.
Proof.
  unfold finishUSGSEarthquakes, catchEmpty, bind.
  destruct response as [|[] status [[raw|]|]]; simpl; try reflexivity.
  destruct (mapOrThrow toUSGSEarthquake raw); reflexivity.
Qed.

Lemma finishProxy_outbound {A} key (wrap : list A -> CachedData) response w :
  outbound (snd (finishProxy key wrap response w)) = outbound w.
Proof.
  unfold finishProxy, catchEmpty, bind.
  destruct response as [|[] status [[[] [items|]]|]]; reflexivity.
Qed.

Lemma resume_outbound {B A} (started : A + Z * FetchOutcome B)
    (finish : FetchOutcome B -> M CachedData A) w :
  (forall response w', outbound (snd (finish response w')) = outbound w') ->
  outbound (snd (resume started finish w)) = outbound w.
Proof.
  intros Hfinish. destruct started as [value | [settled response]]; simpl;
    [reflexivity|].
  unfold bind, settle. simpl. rewrite Hfinish. reflexivity.
Qed.

Ltac chain_quiet lemma :=
  intros locals w; simpl; unfold bind at 1;
  match goal with
  | |- context [resume ?started ?finish w] =>
      let H := fresh "H" in
      pose proof (resume_outbound started finish w lemma) as H;
      destruct (resume started finish w) as [value w'];
      exact H
  end.

Lemma nasaChain_quiet started : quiet (nasaChain started).
Proof. chain_quiet finishNASAEvents_outbound. Qed.

Lemma gdacsChain_quiet started : quiet (gdacsChain started).
Proof. chain_quiet (@finishProxy_outbound GDACSAlert.t gdacsKey GDACSAlerts). Qed.

Lemma usgsChain_quiet lat lon started : quiet (usgsChain lat lon started).
Proof. chain_quiet (finishUSGSEarthquakes_outbound lat lon). Qed.

Lemma firmsChain_quiet lat lon started : quiet (firmsChain lat lon started).
Proof.
  chain_quiet (@finishProxy_outbound FIRMSFire.t (firmsKey lat lon) FIRMSFires).
Qed.

Lemma imdChain_quiet lat lon started : quiet (imdChain lat lon started).
Proof.
  chain_quiet (@finishProxy_outbound IMDWarning.t (imdKey lat lon) IMDWarnings).
Qed.

Lemma runAll_outbound queue :
  Forall quiet queue ->
  forall locals w, outbound (snd (runAll queue locals w)) = outbound w.
Proof.
  induction 1 as [|c queue Hc Hrest IH]; intros locals w; simpl.
  - reflexivity.
  - unfold bind. specialize (Hc locals w).
    destruct (continue c locals w) as [locals' w']. simpl in Hc.
    rewrite IH. exact Hc.
Qed.

(** X15. [getAggregatedData] sends one request for each of the five sources whose
    cache key holds nothing fresh, in the order NASA EONET, GDACS, USGS, FIRMS,
    IMD, and no other request; the dates in the USGS request are those of the
    time of the call.  With five fresh entries it sends none. *)
Theorem aggregate_requests_only_what_is_missing (lat lon : Q) (w : World CachedData) :
  sends (aggregated lat lon) w
    (requestIfMissed w nasaKey nasaUrl
     ++ requestIfMissed w gdacsKey (gdacsUrl BACKEND_URL)
     ++ requestIfMissed w (usgsKey lat lon) (usgsUrl (clock w) lat lon 1000)
     ++ requestIfMissed w (firmsKey lat lon) (firmsUrl BACKEND_URL lat lon)
     ++ requestIfMissed w (imdKey lat lon) (imdUrl BACKEND_URL lat lon)).
Proof.
  unfold sends, getAggregatedData. unfold bind at 1 2 3 4 5.
  pose proof (begin_world eonet nasaKey nasaUrl asNASAEvents w) as (S1 & C1 & _).
  pose proof (begin_outbound eonet nasaKey nasaUrl asNASAEvents w) as O1.
  destruct (begin eonet nasaKey nasaUrl asNASAEvents w) as [nasa w1].
  pose proof (begin_world gdacsProxy gdacsKey (gdacsUrl BACKEND_URL) asGDACSAlerts w1)
    as (S2 & C2 & _).
  pose proof (begin_outbound gdacsProxy gdacsKey (gdacsUrl BACKEND_URL) asGDACSAlerts w1)
    as O2.
  destruct (begin gdacsProxy gdacsKey (gdacsUrl BACKEND_URL) asGDACSAlerts w1)
    as [gdacs w2].
  unfold beginUSGSEarthquakes, bind at 1, Date_now at 1.
  pose proof (begin_world usgs (usgsKey lat lon) (usgsUrl (clock w2) lat lon 1000)
                asUSGSEarthquakes w2) as (S3 & C3 & _).
  pose proof (begin_outbound usgs (usgsKey lat lon) (usgsUrl (clock w2) lat lon 1000)
                asUSGSEarthquakes w2) as O3.
  destruct (begin usgs (usgsKey lat lon) (usgsUrl (clock w2) lat lon 1000)
              asUSGSEarthquakes w2) as [quakes w3].
  pose proof (begin_world firmsProxy (firmsKey lat lon) (firmsUrl BACKEND_URL lat lon)
                asFIRMSFires w3) as (S4 & C4 & _).
  pose proof (begin_outbound firmsProxy (firmsKey lat lon) (firmsUrl BACKEND_URL lat lon)
                asFIRMSFires w3) as O4.
  destruct (begin firmsProxy (firmsKey lat lon) (firmsUrl BACKEND_URL lat lon)
              asFIRMSFires w3) as [firms w4].
  pose proof (begin_world imdProxy (imdKey lat lon) (imdUrl BACKEND_URL lat lon)
                asIMDWarnings w4) as (S5 & C5 & _).
  pose proof (begin_outbound imdProxy (imdKey lat lon) (imdUrl BACKEND_URL lat lon)
                asIMDWarnings w4) as O5.
  destruct (begin imdProxy (imdKey lat lon) (imdUrl BACKEND_URL lat lon)
              asIMDWarnings w4) as [imd w5].
  simpl in S1, C1, O1, S2, C2, O2, S3, C3, O3, S4, C4, O4, S5, C5, O5.
  assert (Hquiet : Forall quiet
            [ nasaChain nasa; gdacsChain gdacs; usgsChain lat lon quakes;
              firmsChain lat lon firms; imdChain lat lon imd ]).
  { constructor; [apply nasaChain_quiet|].
    constructor; [apply gdacsChain_quiet|].
    constructor; [apply usgsChain_quiet|].
    constructor; [apply firmsChain_quiet|].
    constructor; [apply imdChain_quiet|].
    constructor. }
  apply (Permutation_Forall (settleOrder_permutation _)) in Hquiet.
  pose proof (runAll_outbound _ Hquiet Locals.empty w5) as Hrun.
  unfold bind.
  destruct (runAll _ Locals.empty w5) as [locals w6]. simpl in Hrun |- *.
  rewrite Hrun, O5, O4, O3, O2, O1.
  rewrite (requestIfMissed_same_cache w w1) by assumption.
  rewrite (requestIfMissed_same_cache w w2) by congruence.
  rewrite (requestIfMissed_same_cache w w3) by congruence.
  rewrite (requestIfMissed_same_cache w w4) by congruence.
  replace (clock w2) with (clock w) by congruence.
  rewrite <- !app_assoc. reflexivity.
Qed.

Lemma statusOf_active {A} (l : list A) : statusOf l = Status.active.
Proof.
  unfold statusOf. replace (0 <=? Z.of_nat (length l)) with true; [reflexivity|].
  symmetry. apply Z.leb_le. lia.
Qed.

Ltac chain_within :=
  intros started locals w; destruct started as [value | [settled response]];
  simpl; unfold bind; repeat name_step; simpl;
  (eexists; split; [reflexivity|]);
  simpl; rewrite ?statusOf_active; (split; [reflexivity|]);
  unfold ifAny;
  try match goal with |- context [0 <? ?n] => destruct (0 <? n) end;
  lra.

Lemma nasaChain_within started : pushesWithin (nasaChain started) (50, 95)%Q.
Proof. revert started. chain_within. Qed.

Lemma gdacsChain_within started : pushesWithin (gdacsChain started) (60, 92)%Q.
Proof. revert started. chain_within. Qed.

Lemma usgsChain_within lat lon started :
  pushesWithin (usgsChain lat lon started) (98, 98)%Q.
Proof. revert started. chain_within. Qed.

Lemma firmsChain_within lat lon started :
  pushesWithin (firmsChain lat lon started) (70, 94)%Q.
Proof. revert started. chain_within. Qed.

Lemma imdChain_within lat lon started :
  pushesWithin (imdChain lat lon started) (75, 88)%Q.
Proof. revert started. chain_within. Qed.

Lemma total_app (l1 l2 : list Q) : (total (l1 ++ l2) == total l1 + total l2)%Q.
Proof.
  unfold total. induction l1 as [|x l1 IH]; simpl; [lra|]. rewrite IH. lra.
Qed.

Lemma total_permutation (l l' : list Q) : Permutation l l' -> (total l == total l')%Q.
Proof.
  unfold total. induction 1; simpl; lra.
Qed.

Lemma runAll_within queue ranges :
  Forall2 pushesWithin queue ranges ->
  forall locals w,
    exists new,
      Locals.sources (fst (runAll queue locals w)) = Locals.sources locals ++ new
      /\ length new = length queue
      /\ Forall (fun s => DataSource.status s = Status.active) new
      /\ (total (map fst ranges) <= total (map DataSource.confidence new)
          <= total (map snd ranges))%Q.
Proof.
  induction 1 as [|c range queue ranges Hc Hrest IH]; intros locals w; simpl.
  - exists []. rewrite app_nil_r. repeat split; try constructor; unfold total; simpl; lra.
  - unfold bind. destruct (Hc locals w) as (s & Hs & Hactive & Hlo & Hhi).
    destruct (continue c locals w) as [locals' w']. simpl in Hs.
    destruct (IH locals' w') as (new & Hnew & Hlen & Hall & Hlo' & Hhi').
    exists (s :: new). rewrite Hnew, Hs, <- app_assoc. simpl.
    split; [reflexivity|]. split; [congruence|].
    split; [constructor; assumption|].
    unfold total in *. simpl. lra.
Qed.

Lemma fold_left_confidence (l : list DataSource.t) (a : Q) :
  (fold_left (fun sum s => sum + DataSource.confidence s) l a
   == a + total (map DataSource.confidence l))%Q.
Proof.
  revert a. unfold total. induction l as [|s l IH]; intros a; simpl; [lra|].
  rewrite IH. lra.
Qed.

(** X16. Whatever the five requests do, every source of the aggregate is reported
    as active, never in error, and the overall confidence is between 73 and
    92: a call in which every request failed still reports 73. *)
Theorem sources_active_confidence_bounded (lat lon : Q) (w : World CachedData) :
  let result := fst (aggregated lat lon w) in
  Forall (fun s => DataSource.status s = Status.active)
    (AggregatedDisasterData.sources result)
  /\ (73 <= AggregatedDisasterData.overallConfidence result <= 92)%Q.
Proof.
  cbv zeta. unfold getAggregatedData, bind.
  destruct (begin eonet nasaKey nasaUrl asNASAEvents w) as [nasa w1].
  destruct (begin gdacsProxy gdacsKey (gdacsUrl BACKEND_URL) asGDACSAlerts w1)
    as [gdacs w2].
  destruct (beginUSGSEarthquakes usgs lat lon 1000 w2) as [quakes w3].
  destruct (begin firmsProxy (firmsKey lat lon) (firmsUrl BACKEND_URL lat lon)
              asFIRMSFires w3) as [firms w4].
  destruct (begin imdProxy (imdKey lat lon) (imdUrl BACKEND_URL lat lon)
              asIMDWarnings w4) as [imd w5].
  set (chains := [ nasaChain nasa; gdacsChain gdacs; usgsChain lat lon quakes;
                   firmsChain lat lon firms; imdChain lat lon imd ]).
  assert (Hwithin : Forall2 pushesWithin chains
            [ (50, 95); (60, 92); (98, 98); (70, 94); (75, 88) ]%Q).
  { constructor; [apply nasaChain_within|].
    constructor; [apply gdacsChain_within|].
    constructor; [apply usgsChain_within|].
    constructor; [apply firmsChain_within|].
    constructor; [apply imdChain_within|].
    constructor. }
  destruct (Permutation_Forall2 (settleOrder_permutation chains) Hwithin)
    as (ranges & Hperm & Hsettled).
  destruct (runAll_within _ _ Hsettled Locals.empty w5)
    as (new & Hnew & Hlen & Hactive & Hlo & Hhi).
  rewrite <- (total_permutation _ _ (Permutation_map fst Hperm)) in Hlo.
  rewrite <- (total_permutation _ _ (Permutation_map snd Hperm)) in Hhi.
  rewrite <- (Permutation_length (settleOrder_permutation chains)) in Hlen.
  destruct (runAll (settleOrder chains) Locals.empty w5) as [locals w6].
  simpl in Hnew. cbv zeta. simpl. rewrite Hnew.
  split.
  - apply Forall_app. split; [exact Hactive|].
    constructor; [reflexivity|constructor].
  - rewrite length_app, Hlen. simpl length.
    rewrite fold_left_confidence, map_app, total_app.
    unfold total at 1 in Hlo. unfold total at 2 in Hhi. simpl in Hlo, Hhi.
    unfold total at 2. simpl.
    change (inject_Z (Z.of_nat 6)) with 6%Q.
    split.
    + apply Qle_shift_div_l; [reflexivity|]. lra.
    + apply Qle_shift_div_r; [reflexivity|]. lra.
Qed.

Lemma begin_miss {B A} (net : Network B) key url (cast : CachedData -> A) w :
  lookupFresh CACHE_DURATION w key = None ->
  begin net key url cast w
  = (inr (net (outbound w ++ [url]) (clock w)),
     {| clock := clock w; outbound := outbound w ++ [url]; store := store w |}).
Proof.
  intros H. unfold begin, bind. rewrite getFromCache_lookupFresh, H. reflexivity.
Qed.

Lemma mapOrThrow_None {A B} (f : A -> option B) (xs : list A) :
  Exists (fun x => f x = None) xs -> mapOrThrow f xs = None.
Proof.
  induction 1 as [x xs Hx | x xs Hxs IH]; simpl.
  - rewrite Hx. reflexivity.
  - destruct (f x); [rewrite IH|]; reflexivity.
Qed.

Lemma toUSGSEarthquake_malformed f : malformedFeature f -> toUSGSEarthquake f = None.
Proof.
  unfold malformedFeature, toUSGSEarthquake. intros [-> | ->]; [reflexivity|].
  destruct (RawFeature.properties f); reflexivity.
Qed.

Lemma toNASAEvent_malformed e : malformedEvent e -> toNASAEvent e = None.
Proof. unfold malformedEvent, toNASAEvent. intros ->. reflexivity. Qed.

(** X17. One feature of a USGS response without properties or geometry makes
    [fetchUSGSEarthquakes] return no earthquake at all, however many well
    formed ones the response holds, and store nothing; the same holds for
    [fetchNASAEvents] and one event without categories. *)
Theorem malformed_item_discards_batch (lat lon radiusKm : Q) (w : World CachedData)
    (status : Z) :
  (forall features,
     lookupFresh CACHE_DURATION w (usgsKey lat lon) = None ->
     snd (usgs (outbound w ++ [usgsUrl (clock w) lat lon radiusKm]) (clock w))
     = Responded true status (Some (Some features)) ->
     Exists malformedFeature features ->
     fst (fetchUSGSEarthquakes usgs lat lon radiusKm w) = []
     /\ store (snd (fetchUSGSEarthquakes usgs lat lon radiusKm w)) = store w)
  /\ (forall events,
       lookupFresh CACHE_DURATION w nasaKey = None ->
       snd (eonet (outbound w ++ [nasaUrl]) (clock w))
       = Responded true status (Some (Some events)) ->
       Exists malformedEvent events ->
       fst (fetchNASAEvents eonet w) = []
       /\ store (snd (fetchNASAEvents eonet w)) = store w).
Proof.
  split.
  - intros features Hmiss Hresponse Hbad.
    unfold fetchUSGSEarthquakes, beginUSGSEarthquakes, bind, Date_now.
    rewrite (begin_miss usgs _ _ asUSGSEarthquakes w Hmiss).
    destruct (usgs _ _) as [settled response]. simpl in Hresponse. subst response.
    unfold resume, bind, settle, finishUSGSEarthquakes, catchEmpty, bind.
    rewrite mapOrThrow_None; [split; reflexivity|].
    eapply List.Exists_impl; [|exact Hbad]. apply toUSGSEarthquake_malformed.
  - intros events Hmiss Hresponse Hbad.
    unfold fetchNASAEvents, bind.
    rewrite (begin_miss eonet _ _ asNASAEvents w Hmiss).
    destruct (eonet _ _) as [settled response]. simpl in Hresponse. subst response.
    unfold resume, bind, settle, finishNASAEvents, catchEmpty, bind.
    rewrite mapOrThrow_None; [split; reflexivity|].
    eapply List.Exists_impl; [|exact Hbad]. apply toNASAEvent_malformed.
Qed.

(** X18. The earthquake cache key leaves the radius out: once a query has
    succeeded, a query for the same place with any other radius within five
    minutes is answered with the list fetched for the first radius, without a
    request. *)
Theorem earthquake_cache_ignores_radius (lat lon radius1 radius2 : Q)
    (w : World CachedData) (status : Z) (features : list RawFeature.t)
    (quakes : list USGSEarthquake.t) :
  lookupFresh CACHE_DURATION w (usgsKey lat lon) = None ->
  snd (usgs (outbound w ++ [usgsUrl (clock w) lat lon radius1]) (clock w))
  = Responded true status (Some (Some features)) ->
  mapOrThrow toUSGSEarthquake features = Some quakes ->
  let first := fetchUSGSEarthquakes usgs lat lon radius1 w in
  fst first = quakes
  /\ forall later : World CachedData,
       store later = store (snd first) ->
       clock later - clock (snd first) < CACHE_DURATION ->
       servedFromCache (fetchUSGSEarthquakes usgs lat lon radius2) later quakes.
Proof.
  intros Hmiss Hresponse Hquakes. cbv zeta.
  unfold fetchUSGSEarthquakes at 1 2 3, beginUSGSEarthquakes, bind, Date_now.
  rewrite (begin_miss usgs _ _ asUSGSEarthquakes w Hmiss).
  destruct (usgs _ _) as [settled response]. simpl in Hresponse. subst response.
  unfold resume, bind, settle, finishUSGSEarthquakes, catchEmpty, bind.
  rewrite Hquakes. cbn [fst snd clock store setCache Map_set_now ret default].
  split; [reflexivity|].
  intros later Hstore Hage. unfold servedFromCache.
  rewrite (fetchUSGSEarthquakes_unfold usgs lat lon radius2 later).
  apply (fetch_hit usgs (usgsKey lat lon) _ asUSGSEarthquakes
           (finishUSGSEarthquakes lat lon) later (USGSEarthquakes quakes)).
  unfold lookupFresh. rewrite Hstore. simpl. rewrite lookup_insert_eq.
  replace (fresh CACHE_DURATION (clock later) _) with true; [reflexivity|].
  symmetry. apply fresh_age. exact Hage.
Qed.

End AggregatedRequests.

(** ** Shelter search *)

Section ShelterSearch.
Import ShelterService.
Context {fmt : NumberFormat} {math : JsMath}.
Variable encodeURIComponent : string -> string.
Variable memberToString : string -> string.
Variable places : Network PlacesBody.t.
Variable overpass : Network (option (list Element.t)).

Abbreviation searchShelters :=
  (searchRealShelters encodeURIComponent memberToString places overpass).
Abbreviation searchOsm :=
  (searchOpenStreetMapShelters encodeURIComponent memberToString overpass).
Abbreviation overpassPost := (overpassRequest encodeURIComponent).

Lemma searchRealShelters_miss lat lng apiKey radius (w : World (list RealShelter.t)) :
  lookupFresh CACHE_DURATION w (cacheKeyOf lat lng radius) = None ->
  searchShelters lat lng apiKey radius w
  = searchUncached encodeURIComponent memberToString places overpass
      lat lng apiKey radius w.
Proof.
  unfold lookupFresh, searchRealShelters, bind, Map_get, Date_now.
  destruct (store w !! cacheKeyOf lat lng radius) as [entry|]; [|reflexivity].
  destruct (fresh CACHE_DURATION (clock w) entry); [discriminate|reflexivity].
Qed.

Lemma searchUncached_placeholder lat lng apiKey radius (w : World (list RealShelter.t)) :
  placeholderKey apiKey ->
  searchUncached encodeURIComponent memberToString places overpass
    lat lng apiKey radius w
  = searchOsm lat lng radius w.
Proof.
  unfold searchUncached, placeholderKey. intros [-> | [-> | H]].
  - reflexivity.
  - reflexivity.
  - rewrite H, orb_true_r. reflexivity.
Qed.

Lemma searchOsm_unfold lat lng radius (w : World (list RealShelter.t)) :
  searchOsm lat lng radius w =
  let p := overpass (outbound w ++ [overpassPost lat lng radius]) (clock w) in
  let sent := outbound w ++ [overpassPost lat lng radius] in
  match answer (snd p) with
  | Some (Some elements) =>
      let shelters := sortShelters (elementShelters memberToString lat lng 0 elements) in
      (firstn 20 shelters,
       {| clock := fst p; outbound := sent;
          store := <[ cacheKeyOf lat lng radius :=
                        {| data := shelters; timestamp := fst p |} ]> (store w) |})
  | _ => ([], {| clock := fst p; outbound := sent; store := store w |})
  end.
Proof.
  unfold searchOpenStreetMapShelters, bind, fetch, bind, sendRequest, settle, ret.
  destruct (overpass _ _) as [settled [|[] status [[elements|]|]]]; reflexivity.
Qed.

(** X19. With an empty, demo or placeholder API key and nothing fresh in the
    cache, [searchRealShelters] sends exactly one request, the Overpass one:
    nothing goes to Google Places. *)
Theorem placeholder_key_uses_overpass_only (lat lng : Q) (apiKey : string) (radius : Q)
    (w : World (list RealShelter.t)) :
  lookupFresh CACHE_DURATION w (cacheKeyOf lat lng radius) = None ->
  placeholderKey apiKey ->
  sends (searchShelters lat lng apiKey radius) w [overpassPost lat lng radius].
Proof.
  intros Hmiss Hkey. unfold sends.
  rewrite (searchRealShelters_miss _ _ _ _ _ Hmiss),
    (searchUncached_placeholder _ _ _ _ _ Hkey), searchOsm_unfold.
  cbv zeta. destruct (answer _) as [[elements|]|]; reflexivity.
Qed.

(** X20. A successful OpenStreetMap search returns the twenty nearest shelters but
    caches all it found: a repeat of the search within fifteen minutes, with
    whatever API key, returns the whole list without a request. *)
Theorem osm_search_returns_twenty_caches_all (lat lng : Q) (apiKey : string) (radius : Q)
    (w : World (list RealShelter.t)) (elements : list Element.t) :
  lookupFresh CACHE_DURATION w (cacheKeyOf lat lng radius) = None ->
  placeholderKey apiKey ->
  answer (snd (overpass (outbound w ++ [overpassPost lat lng radius]) (clock w)))
  = Some (Some elements) ->
  let found := sortShelters (elementShelters memberToString lat lng 0 elements) in
  let first := searchShelters lat lng apiKey radius w in
  fst first = firstn 20 found
  /\ forall (otherKey : string) (later : World (list RealShelter.t)),
       store later = store (snd first) ->
       clock later - clock (snd first) < CACHE_DURATION ->
       servedFromCache (searchShelters lat lng otherKey radius) later found.
Proof.
  intros Hmiss Hkey Hok. cbv zeta.
  rewrite (searchRealShelters_miss _ _ _ _ _ Hmiss),
    (searchUncached_placeholder _ _ _ _ _ Hkey), searchOsm_unfold.
  cbv zeta. rewrite Hok. cbn [fst snd clock store].
  split; [reflexivity|].
  intros otherKey later Hstore Hage. unfold servedFromCache.
  apply (searchRealShelters_hit encodeURIComponent memberToString places overpass
           lat lng otherKey radius later
           {| data := sortShelters (elementShelters memberToString lat lng 0 elements);
              timestamp := fst (overpass (outbound w ++ [overpassPost lat lng radius])
                                  (clock w)) |}).
  - rewrite Hstore. apply lookup_insert_eq.
  - apply fresh_age. exact Hage.
Qed.

Lemma insertShelter_Forall (P : RealShelter.t -> Prop) s l :
  P s -> Forall P l -> Forall P (insertShelter s l).
Proof.
  intros Hs Hl. induction Hl as [|u rest Hu Hrest IH]; simpl.
  - constructor; [exact Hs|constructor].
  - destruct (Qle_bool (distanceOrZero s) (distanceOrZero u)).
    + constructor; [exact Hs|]. constructor; assumption.
    + constructor; assumption.
Qed.

Lemma insertShelter_sorted s l :
  StronglySorted closerOrEqual l -> StronglySorted closerOrEqual (insertShelter s l).
Proof.
  intros Hl. induction Hl as [|u rest Hrest IH Hu]; simpl.
  - constructor; constructor.
  - destruct (Qle_bool (distanceOrZero s) (distanceOrZero u)) eqn:E.
    + apply Qle_bool_iff in E. constructor.
      * constructor; assumption.
      * constructor; [exact E|].
        eapply List.Forall_impl; [|exact Hu].
        intros v Hv. unfold closerOrEqual in *. lra.
    + constructor; [exact IH|].
      apply insertShelter_Forall; [|exact Hu].
      unfold closerOrEqual. apply Qlt_le_weak, Qnot_le_lt.
      intros Hle. apply Qle_bool_iff in Hle. congruence.
Qed.

Lemma sortShelters_sorted l : StronglySorted closerOrEqual (sortShelters l).
Proof.
  unfold sortShelters. induction l as [|s l IH]; simpl.
  - constructor.
  - apply insertShelter_sorted, IH.
Qed.

Lemma insertShelter_length s l : length (insertShelter s l) = S (length l).
Proof.
  induction l as [|u rest IH]; simpl; [reflexivity|].
  destruct (Qle_bool (distanceOrZero s) (distanceOrZero u)); simpl; congruence.
Qed.

Lemma sortShelters_length l : length (sortShelters l) = length l.
Proof.
  unfold sortShelters. induction l as [|s l IH]; simpl; [reflexivity|].
  rewrite insertShelter_length, IH. reflexivity.
Qed.

Lemma mapOrThrow_length {A B} (f : A -> option B) (xs : list A) (ys : list B) :
  mapOrThrow f xs = Some ys -> length ys = length xs.
Proof.
  revert ys. induction xs as [|x xs IH]; simpl; intros ys H.
  - injection H as <-. reflexivity.
  - destruct (f x) as [y|]; [|discriminate H].
    destruct (mapOrThrow f xs) as [ys'|]; [|discriminate H].
    injection H as <-. simpl. rewrite (IH ys' eq_refl). reflexivity.
Qed.

(** The loop over the place types adds at most five shelters per type and
    sends at most one request per type. *)
Lemma searchPlaces_bounds lat lng radius apiKey types shelters
    (w : World (list RealShelter.t)) :
  let run := searchPlaces places lat lng radius apiKey types shelters w in
  (forall found, fst run = Some found ->
     (length found <= length shelters + 5 * length types)%nat)
  /\ exists urls, outbound (snd run) = outbound w ++ urls
               /\ (length urls <= length types)%nat.
Proof.
  cbv zeta. revert shelters w.
  induction types as [|type rest IH]; intros shelters w; simpl.
  - split.
    + intros found H. injection H as <-. lia.
    + exists []. rewrite app_nil_r. split; [reflexivity|simpl; lia].
  - unfold bind at 1 2. unfold fetch, bind, sendRequest, settle, ret.
    destruct (places _ _) as [settled response]. cbn [fst snd].
    set (w1 := {| clock := settled;
                  outbound := outbound w ++ [placesUrl lat lng radius type apiKey];
                  store := store w |}).
    assert (Hnext : forall shelters',
              (length shelters' <= length shelters + 5)%nat ->
              let run := searchPlaces places lat lng radius apiKey rest shelters' w1 in
              (forall found, fst run = Some found ->
                 (length found <= length shelters + 5 * S (length rest))%nat)
              /\ exists urls, outbound (snd run) = outbound w ++ urls
                           /\ (length urls <= S (length rest))%nat).
    { intros shelters' Hlen. cbv zeta.
      destruct (IH shelters' w1) as (Hfound & urls & Hurls & Hcount). split.
      - intros found H. specialize (Hfound found H). lia.
      - exists (placesUrl lat lng radius type apiKey :: urls).
        rewrite Hurls. subst w1. simpl. rewrite <- app_assoc. split; [reflexivity|lia]. }
    assert (Hstop : (forall found, @None (list RealShelter.t) = Some found ->
                       (length found <= length shelters + 5 * S (length rest))%nat)
                    /\ exists urls, outbound w1 = outbound w ++ urls
                                 /\ (length urls <= S (length rest))%nat).
    { split; [discriminate|].
      exists [placesUrl lat lng radius type apiKey]. split; [reflexivity|simpl; lia]. }
    destruct response as [|[] status [body|]]; cbn [fst snd]; fold w1;
      try exact Hstop; try (apply Hnext; lia).
    destruct (negb (String.eqb (PlacesBody.status body) "OK")); [apply Hnext; lia|].
    destruct (PlacesBody.results body) as [results|]; [|exact Hstop].
    destruct (mapOrThrow (placeShelter lat lng type) (firstn 5 results)) as [found|] eqn:E;
      [|exact Hstop].
    apply Hnext. rewrite length_app, (mapOrThrow_length _ _ _ E), length_firstn. lia.
Qed.

(** X21. On a cache miss the shelters [searchRealShelters] returns are in
    ascending order of distance and at most 25, and the search has sent at
    most six requests. *)
Theorem shelter_search_sorted_and_bounded (lat lng : Q) (apiKey : string) (radius : Q)
    (w : World (list RealShelter.t)) :
  lookupFresh CACHE_DURATION w (cacheKeyOf lat lng radius) = None ->
  let run := searchShelters lat lng apiKey radius w in
  StronglySorted closerOrEqual (fst run)
  /\ (length (fst run) <= 25)%nat
  /\ exists urls, sends (searchShelters lat lng apiKey radius) w urls
               /\ (length urls <= 6)%nat.
Proof.
  intros Hmiss. cbv zeta. unfold sends.
  rewrite (searchRealShelters_miss _ _ _ _ _ Hmiss).
  assert (Hosm : forall w1 : World (list RealShelter.t),
            StronglySorted closerOrEqual (fst (searchOsm lat lng radius w1))
            /\ (length (fst (searchOsm lat lng radius w1)) <= 20)%nat
            /\ outbound (snd (searchOsm lat lng radius w1))
               = outbound w1 ++ [overpassPost lat lng radius]).
  { intros w1. rewrite searchOsm_unfold. cbv zeta.
    destruct (answer _) as [[elements|]|]; cbn [fst snd outbound].
    - split; [apply firstn_sorted, sortShelters_sorted|].
      split; [apply firstn_le_length|reflexivity].
    - split; [constructor|]. split; [simpl; lia|reflexivity].
    - split; [constructor|]. split; [simpl; lia|reflexivity]. }
  unfold searchUncached.
  destruct (String.eqb apiKey "" || String.eqb apiKey "demo-key"
            || includes apiKey "your_").
  - destruct (Hosm w) as (Hsorted & Hlen & Hout).
    split; [exact Hsorted|]. split; [lia|].
    eexists. split; [exact Hout|simpl; lia].
  - unfold bind at 1 3 5.
    destruct (searchPlaces_bounds lat lng radius apiKey placeTypes [] w)
      as (Hfound & urls & Hurls & Hcount).
    destruct (searchPlaces places lat lng radius apiKey placeTypes [] w)
      as [[found|] w1]; cbn [fst snd] in *.
    + specialize (Hfound found eq_refl). simpl in Hfound, Hcount.
      unfold bind, Map_set_now, ret. cbn [fst snd outbound].
      split; [apply sortShelters_sorted|].
      split; [rewrite sortShelters_length; lia|].
      exists urls. split; [exact Hurls|lia].
    + destruct (Hosm w1) as (Hsorted & Hlen & Hout).
      split; [exact Hsorted|]. split; [lia|].
      exists (urls ++ [overpassPost lat lng radius]).
      rewrite Hout, Hurls, <- app_assoc. split; [reflexivity|].
      rewrite length_app. simpl in *. lia.
Qed.

End ShelterSearch.

(** ** The hazard panel *)

Section HazardPanel.
Import LocationHazardService MultiHazardPanel.
Context {fmt : NumberFormat} {cal : Calendar}.
Variable openWeatherMap : Network OpenWeatherBody.

Abbreviation panel := (generateHazardPredictions openWeatherMap).

Lemma maxRisk_from (acc : RiskLevel) (l : list HazardRiskResult) :
  let step max h :=
    if indexOf levels (riskLevel h) >? indexOf levels max then riskLevel h else max in
  let top := fold_left step l acc in
  indexOf levels acc <= indexOf levels top
  /\ Forall (fun h => indexOf levels (riskLevel h) <= indexOf levels top) l
  /\ (top = acc \/ Exists (fun h => riskLevel h = top) l).
Proof.
  cbv zeta. revert acc. induction l as [|h l IH]; intros acc; simpl.
  - split; [lia|]. split; [constructor|left; reflexivity].
  - match goal with |- context [fold_left ?f l ?a] => destruct (IH a) as (Hacc & Hall & Htop) end.
    destruct (indexOf levels (riskLevel h) >? indexOf levels acc) eqn:E.
    + apply Z.gtb_lt in E. split; [lia|]. split; [constructor; assumption|].
      right. destruct Htop as [-> | Htop]; [left; reflexivity|right; exact Htop].
    + assert (Hle : indexOf levels (riskLevel h) <= indexOf levels acc).
      { destruct (Z.gtb_spec (indexOf levels (riskLevel h)) (indexOf levels acc));
          [discriminate E|assumption]. }
      split; [lia|]. split; [constructor; [lia|assumption]|].
      destruct Htop as [-> | Htop]; [left; reflexivity|right; right; exact Htop].
Qed.

Lemma indexOf_low (l : RiskLevel) : indexOf levels l <= indexOf levels low -> l = low.
Proof. destruct l; vm_compute; intros H; try reflexivity; exfalso; apply H; reflexivity. Qed.

Lemma panel_hazards latitude longitude cityName (w : World WeatherData) :
  hazards (fst (panel latitude longitude cityName w))
  = fst (getHazardPredictions openWeatherMap (cityOrUnknown cityName) latitude longitude w).
Proof.
  unfold generateHazardPredictions, bind.
  destruct (getHazardPredictions _ _ _ _ w) as [predictions w1]. reflexivity.
Qed.

Lemma panel_overallRisk latitude longitude cityName (w : World WeatherData) :
  overallRisk (fst (panel latitude longitude cityName w))
  = maxRisk (hazards (fst (panel latitude longitude cityName w))).
Proof.
  unfold generateHazardPredictions, bind.
  destruct (getHazardPredictions _ _ _ _ w) as [predictions w1]. reflexivity.
Qed.

Lemma getHazardPredictions_results cityName lat lon (w : World WeatherData) :
  fst (getHazardPredictions openWeatherMap cityName lat lon w)
  = hazardResults
      (getMonth (clock (snd (getWeatherData openWeatherMap lat lon w))))
      (fieldsOf (getGeographicData cityName lat lon))
      (fst (getWeatherData openWeatherMap lat lon w)).
Proof.
  unfold getHazardPredictions, bind.
  destruct (getWeatherData openWeatherMap lat lon w) as [weather w1]. reflexivity.
Qed.

(** X22. The overall risk the panel shows is the highest risk level among the five
    hazards it shows: no hazard has a higher level, and one has that level. *)
Theorem overall_risk_is_highest_level (latitude longitude : Q) (cityName : string)
    (w : World WeatherData) :
  let state := fst (panel latitude longitude cityName w) in
  length (hazards state) = 5%nat
  /\ Forall (fun h => indexOf levels (riskLevel h) <= indexOf levels (overallRisk state))
       (hazards state)
  /\ Exists (fun h => riskLevel h = overallRisk state) (hazards state).
Proof.
  cbv zeta. rewrite panel_overallRisk.
  assert (Hfive : length (hazards (fst (panel latitude longitude cityName w))) = 5%nat).
  { rewrite panel_hazards, getHazardPredictions_results. reflexivity. }
  split; [exact Hfive|].
  destruct (maxRisk_from low (hazards (fst (panel latitude longitude cityName w))))
    as (_ & Hall & Htop).
  fold (maxRisk (hazards (fst (panel latitude longitude cityName w)))) in Hall, Htop.
  split; [exact Hall|].
  destruct Htop as [Hlow | Hex]; [|exact Hex].
  destruct (hazards (fst (panel latitude longitude cityName w))) as [|h rest];
    [discriminate Hfive|].
  rewrite Hlow in *. left.
  inversion Hall as [|x l Hh Hrest]; subst. apply indexOf_low, Hh.
Qed.

(** X23. Given no city name the panel asks for the place [unknown], which matches
    no entry of the table: its hazards are scored on the geography estimated
    from the coordinates.  Given a name of white space only it passes the name
    on and the hazards are scored on Delhi's record, wherever the place is. *)
Theorem panel_geography_of_unnamed_place (latitude longitude : Q)
    (w : World WeatherData) :
  let weather := fst (getWeatherData openWeatherMap latitude longitude w) in
  let month :=
    getMonth (clock (snd (getWeatherData openWeatherMap latitude longitude w))) in
  hazards (fst (panel latitude longitude "" w))
  = hazardResults month (estimateGeographicData latitude longitude) weather
  /\ forall blank : string,
       blank <> "" -> allWhiteSpace blank = true ->
       hazards (fst (panel latitude longitude blank w))
       = hazardResults month delhi weather.
Proof.
  cbv zeta. split.
  - rewrite panel_hazards, getHazardPredictions_results. reflexivity.
  - intros blank Hne Hblank.
    rewrite panel_hazards, getHazardPredictions_results.
    destruct blank as [|c rest]; [congruence|].
    cbn [cityOrUnknown].
    rewrite (getGeographicData_whiteSpace _ _ _ Hblank). reflexivity.
Qed.

End HazardPanel.

(** ** The weather service with a backup *)

Section SimpleWeather.
Import SimpleWeatherService.
Context {fmt : NumberFormat}.
Variable toISOString : Z -> string.
Variable openWeatherMap : Network OwmBody.t.
Variable openMeteo : Network MeteoBody.t.

Abbreviation weatherOrBackup := (getWeather toISOString openWeatherMap openMeteo).
Abbreviation primary := (fetchOpenWeatherMap toISOString openWeatherMap).
Abbreviation backup := (fetchOpenMeteo toISOString openMeteo).

Lemma fetchOpenWeatherMap_world lat lon (w : World SimpleWeatherData.t) :
  let run := primary lat lon w in
  store (snd run) = store w
  /\ outbound (snd run) = outbound w ++ [owmUrl lat lon]
  /\ forall d, fst run = Some d -> genuine d.
Proof.
  cbv zeta. unfold fetchOpenWeatherMap, bind, fetch, bind, sendRequest, settle, ret.
  destruct (openWeatherMap _ _) as [settled [|[] status [body|]]]; cbn [fst snd];
    try (split; [reflexivity|split; [reflexivity|discriminate]]).
  destruct (OwmBody.main body) as [main|], (OwmBody.wind body) as [speed|];
    try (split; [reflexivity|split; [reflexivity|discriminate]]).
  split; [reflexivity|]. split; [reflexivity|].
  intros d H. injection H as <-. unfold genuine. simpl. auto.
Qed.

Lemma fetchOpenMeteo_world lat lon (w : World SimpleWeatherData.t) :
  let run := backup lat lon w in
  store (snd run) = store w
  /\ outbound (snd run) = outbound w ++ [meteoUrl lat lon]
  /\ forall d, fst run = Some d -> genuine d.
Proof.
  cbv zeta. unfold fetchOpenMeteo, bind, fetch, bind, sendRequest, settle, ret.
  destruct (openMeteo _ _) as [settled [|[] status [body|]]]; cbn [fst snd];
    try (split; [reflexivity|split; [reflexivity|discriminate]]).
  destruct (MeteoBody.current body) as [current|];
    try (split; [reflexivity|split; [reflexivity|discriminate]]).
  split; [reflexivity|]. split; [reflexivity|].
  intros d H. injection H as <-. unfold genuine. simpl. auto.
Qed.

(** What [fetchWithFallback] does, by the three ways it can end:
    OpenWeatherMap answered, Open-Meteo answered, or neither did. *)
Lemma fetchWithFallback_cases lat lon key cached (w : World SimpleWeatherData.t) :
  let run := fetchWithFallback toISOString openWeatherMap openMeteo lat lon key cached w in
  (exists d,
     fst run = Some d /\ genuine d
     /\ store (snd run) = <[ key := {| data := d; timestamp := clock (snd run) |} ]> (store w)
     /\ (outbound (snd run) = outbound w ++ [owmUrl lat lon]
         \/ outbound (snd run) = outbound w ++ [owmUrl lat lon; meteoUrl lat lon]))
  \/ (fst run = option_map data cached
      /\ store (snd run) = store w
      /\ outbound (snd run) = outbound w ++ [owmUrl lat lon; meteoUrl lat lon]).
Proof.
  cbv zeta. unfold fetchWithFallback, bind.
  destruct (fetchOpenWeatherMap_world lat lon w) as (S1 & O1 & G1).
  destruct (primary lat lon w) as [[d|] w1]; cbn [fst snd] in *.
  - left. exists d. unfold Map_set_now, ret. cbn [fst snd store clock outbound].
    split; [reflexivity|]. split; [apply G1; reflexivity|].
    split; [rewrite S1; reflexivity|left; exact O1].
  - destruct (fetchOpenMeteo_world lat lon w1) as (S2 & O2 & G2).
    destruct (backup lat lon w1) as [[d|] w2]; cbn [fst snd] in *.
    + left. exists d. unfold Map_set_now, ret. cbn [fst snd store clock outbound].
      split; [reflexivity|]. split; [apply G2; reflexivity|].
      split; [rewrite S2, S1; reflexivity|].
      right. rewrite O2, O1, <- app_assoc. reflexivity.
    + right. destruct cached as [entry|]; unfold ret; cbn [fst snd option_map];
        (split; [reflexivity|]); (split; [congruence|]);
        rewrite O2, O1, <- app_assoc; reflexivity.
Qed.

Lemma getWeather_miss lat lon (w : World SimpleWeatherData.t) :
  lookupFresh CACHE_DURATION w (weatherKey lat lon) = None ->
  weatherOrBackup lat lon w
  = fetchWithFallback toISOString openWeatherMap openMeteo lat lon (weatherKey lat lon)
      (store w !! weatherKey lat lon) w.
Proof.
  unfold lookupFresh, getWeather, bind, Map_get, Date_now.
  fold (weatherKey lat lon).
  destruct (store w !! weatherKey lat lon) as [entry|]; [|reflexivity].
  destruct (fresh CACHE_DURATION (clock w) entry); [discriminate|reflexivity].
Qed.

(** X24. When the cache holds an entry for the place, however old, [getWeather]
    does not throw: it returns that entry's weather, or a weather it has just
    fetched and stored under the key with the time of the answer. *)
Theorem weather_with_entry_never_throws (lat lon : Q) (w : World SimpleWeatherData.t)
    (entry : Entry SimpleWeatherData.t) :
  store w !! weatherKey lat lon = Some entry ->
  let run := weatherOrBackup lat lon w in
  exists d,
    fst run = Some d
    /\ ((d = data entry /\ store (snd run) = store w)
        \/ store (snd run) !! weatherKey lat lon
           = Some {| data := d; timestamp := clock (snd run) |}).
Proof.
  intros Hentry. cbv zeta.
  destruct (lookupFresh CACHE_DURATION w (weatherKey lat lon)) as [d|] eqn:Hfresh.
  - unfold lookupFresh in Hfresh. rewrite Hentry in Hfresh.
    destruct (fresh CACHE_DURATION (clock w) entry) eqn:E; [|discriminate Hfresh].
    exists (data entry).
    unfold getWeather, bind, Map_get, Date_now. fold (weatherKey lat lon).
    rewrite Hentry, E. cbn [fst snd ret]. split; [reflexivity|left; split; reflexivity].
  - rewrite (getWeather_miss _ _ _ Hfresh), Hentry.
    destruct (fetchWithFallback_cases lat lon (weatherKey lat lon) (Some entry) w)
      as [(d & Hd & _ & Hstore & _) | (Hd & Hstore & _)].
    + exists d. split; [exact Hd|]. right. rewrite Hstore. apply lookup_insert_eq.
    + exists (data entry). split; [exact Hd|]. left. split; [reflexivity|exact Hstore].
Qed.

(** X25. With nothing fresh in the cache [getWeather] asks OpenWeatherMap, and
    Open-Meteo after it or not at all, and sends nothing else.  It throws only
    when the cache has no entry for the place at all; both requests were then
    sent and the cache is left as it was. *)
Theorem weather_backup_asked_second (lat lon : Q) (w : World SimpleWeatherData.t) :
  lookupFresh CACHE_DURATION w (weatherKey lat lon) = None ->
  (sends (weatherOrBackup lat lon) w [owmUrl lat lon]
   \/ sends (weatherOrBackup lat lon) w [owmUrl lat lon; meteoUrl lat lon])
  /\ (fst (weatherOrBackup lat lon w) = None ->
      store w !! weatherKey lat lon = None
      /\ sends (weatherOrBackup lat lon) w [owmUrl lat lon; meteoUrl lat lon]
      /\ store (snd (weatherOrBackup lat lon w)) = store w).
Proof.
  intros Hmiss. unfold sends. rewrite (getWeather_miss _ _ _ Hmiss).
  destruct (fetchWithFallback_cases lat lon (weatherKey lat lon)
              (store w !! weatherKey lat lon) w)
    as [(d & Hd & _ & _ & Hout) | (Hd & Hstore & Hout)].
  - split; [exact Hout|]. rewrite Hd. discriminate.
  - split; [right; exact Hout|]. rewrite Hd. intros Hnone.
    split; [|split; [exact Hout|exact Hstore]].
    destruct (store w !! weatherKey lat lon); [discriminate Hnone|reflexivity].
Qed.

(** X26. From a cache whose entries were all built by the two fetch functions
    (the empty cache, say), every weather [getWeather] returns is marked
    real, names OpenWeatherMap or Open-Meteo as its source and has a UV index
    of 0, and the cache stays of that kind. *)
Theorem weather_results_are_genuine (lat lon : Q) (w : World SimpleWeatherData.t) :
  allGenuine (store w) ->
  let run := weatherOrBackup lat lon w in
  allGenuine (store (snd run))
  /\ forall d, fst run = Some d -> genuine d.
Proof.
  intros Hall. cbv zeta.
  destruct (lookupFresh CACHE_DURATION w (weatherKey lat lon)) as [d|] eqn:Hfresh.
  - unfold lookupFresh in Hfresh.
    destruct (store w !! weatherKey lat lon) as [entry|] eqn:Hentry; [|discriminate Hfresh].
    destruct (fresh CACHE_DURATION (clock w) entry) eqn:E; [|discriminate Hfresh].
    unfold getWeather, bind, Map_get, Date_now. fold (weatherKey lat lon).
    rewrite Hentry, E. cbn [fst snd ret]. split; [exact Hall|].
    intros d' H. injection H as <-. apply (Hall _ _ Hentry).
  - rewrite (getWeather_miss _ _ _ Hfresh).
    destruct (fetchWithFallback_cases lat lon (weatherKey lat lon)
                (store w !! weatherKey lat lon) w)
      as [(d & Hd & Hgenuine & Hstore & _) | (Hd & Hstore & _)].
    + split.
      * rewrite Hstore. intros key entry Hkey.
        destruct (decide (weatherKey lat lon = key)) as [<-|Hne].
        -- rewrite lookup_insert_eq in Hkey. injection Hkey as <-. exact Hgenuine.
        -- rewrite lookup_insert_ne in Hkey by exact Hne. apply (Hall _ _ Hkey).
      * intros d' H. rewrite Hd in H. injection H as <-. exact Hgenuine.
    + split; [rewrite Hstore; exact Hall|].
      intros d' H. rewrite Hd in H.
      destruct (store w !! weatherKey lat lon) as [entry|] eqn:Hentry;
        [|discriminate H].
      injection H as <-. apply (Hall _ _ Hentry).
Qed.

End SimpleWeather.

(** ** Real disaster alerts *)

Section RealAlerts.
Import DisasterAlertService.
Context {fmt : NumberFormat} {cal : Calendar} {math : JsMath}.
Variable toISOString : Z -> string.
Variable memberToString : string -> string.
Variable usgs : Network (option (list UsgsFeature.t)).
Variable eonet : Network (option (list EonetEvent.t)).

Abbreviation realAlerts := (fetchRealDisasterAlerts toISOString memberToString usgs eonet).
Abbreviation quakeAlerts := (earthquakeAlerts toISOString).
Abbreviation eventAlerts := (eonetAlerts memberToString).

Abbreviation quakeRequest := (quakeOutcome usgs).
Abbreviation eventRequest := (eventOutcome eonet).

Lemma fetchRealDisasterAlerts_miss lat lng radiusKm (w : World (list DisasterAlert.t)) :
  lookupFresh CACHE_DURATION w (cacheKeyOf lat lng radiusKm) = None ->
  realAlerts lat lng radiusKm w =
  let quakes := quakeRequest lat lng radiusKm w in
  let events := eventRequest lat lng radiusKm w in
  let alerts :=
    sortAlerts (quakeAlerts lat lng (snd quakes)
                ++ eventAlerts lat lng radiusKm (snd events)) in
  let settled := Z.max (fst quakes) (fst events) in
  (alerts,
   {| clock := settled;
      outbound := (outbound w ++ [usgsUrl (clock w) lat lng radiusKm]) ++ [eonetUrl];
      store := <[ cacheKeyOf lat lng radiusKm := {| data := alerts; timestamp := settled |} ]>
                 (store w) |}).
Proof.
  intros Hmiss.
  assert (Hrun : realAlerts lat lng radiusKm w
                 = fetchUncached toISOString memberToString usgs eonet lat lng radiusKm w).
  { unfold lookupFresh in Hmiss. unfold fetchRealDisasterAlerts, bind, Map_get, Date_now.
    destruct (store w !! cacheKeyOf lat lng radiusKm) as [entry|]; [|reflexivity].
    destruct (fresh CACHE_DURATION (clock w) entry); [discriminate|reflexivity]. }
  rewrite Hrun.
  unfold quakeOutcome, eventOutcome, fetchUncached, bind, Date_now, sendRequest, settle,
    Map_set_now, ret.
  reflexivity.
Qed.

Lemma fetchRealDisasterAlerts_hit lat lng radiusKm (w : World (list DisasterAlert.t)) entry :
  store w !! cacheKeyOf lat lng radiusKm = Some entry ->
  fresh CACHE_DURATION (clock w) entry = true ->
  realAlerts lat lng radiusKm w = (data entry, w).
Proof.
  intros Hentry Hfresh.
  unfold fetchRealDisasterAlerts, bind, Map_get, Date_now.
  rewrite Hentry, Hfresh. reflexivity.
Qed.

(** X27. Whatever a call that finds nothing fresh gets, it caches: the two
    requests are sent, USGS first, and for the next ten minutes the list
    returned is served again without a request.  When both requests fail that
    list is empty, so an outage is remembered for ten minutes. *)
Theorem alert_outcome_is_cached (lat lng radiusKm : Q) (w : World (list DisasterAlert.t)) :
  lookupFresh CACHE_DURATION w (cacheKeyOf lat lng radiusKm) = None ->
  let first := realAlerts lat lng radiusKm w in
  sends (realAlerts lat lng radiusKm) w [usgsUrl (clock w) lat lng radiusKm; eonetUrl]
  /\ (forall later : World (list DisasterAlert.t),
        store later = store (snd first) ->
        clock later - clock (snd first) < CACHE_DURATION ->
        servedFromCache (realAlerts lat lng radiusKm) later (fst first))
  /\ (failed (snd (quakeRequest lat lng radiusKm w)) = true ->
      failed (snd (eventRequest lat lng radiusKm w)) = true ->
      fst first = []).
Proof.
  intros Hmiss. cbv zeta. unfold sends.
  rewrite (fetchRealDisasterAlerts_miss _ _ _ _ Hmiss). cbv zeta.
  cbn [fst snd clock outbound store].
  split; [rewrite <- app_assoc; reflexivity|]. split.
  - intros later Hstore Hage. unfold servedFromCache.
    apply (fetchRealDisasterAlerts_hit lat lng radiusKm later
             {| data := sortAlerts
                          (quakeAlerts lat lng (snd (quakeRequest lat lng radiusKm w))
                           ++ eventAlerts lat lng radiusKm
                                (snd (eventRequest lat lng radiusKm w)));
                timestamp := Z.max (fst (quakeRequest lat lng radiusKm w))
                               (fst (eventRequest lat lng radiusKm w)) |}).
    + rewrite Hstore. apply lookup_insert_eq.
    + apply fresh_age. exact Hage.
  - intros Hquakes Hevents.
    destruct (snd (quakeRequest lat lng radiusKm w)) as [|[] status body];
      try discriminate Hquakes;
      destruct (snd (eventRequest lat lng radiusKm w)) as [|[] status' body'];
      try discriminate Hevents; reflexivity.
Qed.

Lemma inOrder_moreUrgent a b : inOrder a b = true -> moreUrgent a b.
Proof.
  unfold inOrder, moreUrgent. cbv zeta.
  destruct (severityOrder (DisasterAlert.severity a)
            - severityOrder (DisasterAlert.severity b) =? 0) eqn:E; simpl; intros H.
  - apply Z.eqb_eq in E. apply Z.leb_le in H. right. lia.
  - apply Z.eqb_neq in E. apply Z.leb_le in H. left. lia.
Qed.

Lemma not_inOrder_moreUrgent a b : inOrder a b = false -> moreUrgent b a.
Proof.
  unfold inOrder, moreUrgent. cbv zeta.
  destruct (severityOrder (DisasterAlert.severity a)
            - severityOrder (DisasterAlert.severity b) =? 0) eqn:E; simpl; intros H.
  - apply Z.eqb_eq in E. apply Z.leb_gt in H. right. lia.
  - apply Z.eqb_neq in E. apply Z.leb_gt in H. left. lia.
Qed.

Lemma moreUrgent_trans a b c : moreUrgent a b -> moreUrgent b c -> moreUrgent a c.
Proof. unfold moreUrgent. intros [H1 | [H1 H1']] [H2 | [H2 H2']]; [left|left|left|right]; lia. Qed.

Lemma insertAlert_Forall (P : DisasterAlert.t -> Prop) a l :
  P a -> Forall P l -> Forall P (insertAlert a l).
Proof.
  intros Ha Hl. induction Hl as [|b rest Hb Hrest IH]; simpl.
  - constructor; [exact Ha|constructor].
  - destruct (inOrder a b).
    + constructor; [exact Ha|]. constructor; assumption.
    + constructor; assumption.
Qed.

Lemma insertAlert_sorted a l :
  StronglySorted moreUrgent l -> StronglySorted moreUrgent (insertAlert a l).
Proof.
  intros Hl. induction Hl as [|b rest Hrest IH Hb]; simpl.
  - constructor; constructor.
  - destruct (inOrder a b) eqn:E.
    + apply inOrder_moreUrgent in E. constructor.
      * constructor; assumption.
      * constructor; [exact E|].
        eapply List.Forall_impl; [|exact Hb].
        intros c Hc. exact (moreUrgent_trans _ _ _ E Hc).
    + apply not_inOrder_moreUrgent in E. constructor; [exact IH|].
      apply insertAlert_Forall; assumption.
Qed.

Lemma sortAlerts_sorted l : StronglySorted moreUrgent (sortAlerts l).
Proof.
  unfold sortAlerts. induction l as [|a l IH]; simpl.
  - constructor.
  - apply insertAlert_sorted, IH.
Qed.

Lemma sortAlerts_Forall (P : DisasterAlert.t -> Prop) l :
  Forall P l -> Forall P (sortAlerts l).
Proof.
  unfold sortAlerts. induction 1 as [|a l Ha Hl IH]; simpl.
  - constructor.
  - apply insertAlert_Forall; assumption.
Qed.

Lemma insertAlert_length a l : length (insertAlert a l) = S (length l).
Proof.
  induction l as [|b rest IH]; simpl; [reflexivity|].
  destruct (inOrder a b); simpl; congruence.
Qed.

Lemma sortAlerts_length l : length (sortAlerts l) = length l.
Proof.
  unfold sortAlerts. induction l as [|a l IH]; simpl; [reflexivity|].
  rewrite insertAlert_length, IH. reflexivity.
Qed.

Lemma earthquakeAlerts_length lat lng response :
  (length (quakeAlerts lat lng response) <= 10)%nat.
Proof.
  unfold earthquakeAlerts.
  destruct response as [|[] status [[features|]|]]; simpl; try lia.
  destruct (mapOrThrow _ features); [apply firstn_le_length|simpl; lia].
Qed.

Lemma eonetAlerts_length lat lng radiusKm response :
  (length (eventAlerts lat lng radiusKm response) <= 10)%nat.
Proof.
  unfold eonetAlerts.
  destruct response as [|[] status [[events|]|]]; simpl; try lia.
  apply firstn_le_length.
Qed.

(** X28. The alerts a call that finds nothing fresh returns are at most twenty,
    the most severe first and, among alerts of one severity, the nearest
    first. *)
Theorem alerts_by_severity_then_distance (lat lng radiusKm : Q)
    (w : World (list DisasterAlert.t)) :
  lookupFresh CACHE_DURATION w (cacheKeyOf lat lng radiusKm) = None ->
  let alerts := fst (realAlerts lat lng radiusKm w) in
  StronglySorted moreUrgent alerts /\ (length alerts <= 20)%nat.
Proof.
  intros Hmiss. cbv zeta.
  rewrite (fetchRealDisasterAlerts_miss _ _ _ _ Hmiss). cbv zeta. cbn [fst].
  split; [apply sortAlerts_sorted|].
  rewrite sortAlerts_length, length_app.
  pose proof (earthquakeAlerts_length lat lng (snd (quakeRequest lat lng radiusKm w))).
  pose proof (eonetAlerts_length lat lng radiusKm (snd (eventRequest lat lng radiusKm w))).
  lia.
Qed.

Lemma mapOrThrow_Forall {A B} (f : A -> option B) (P : B -> Prop) xs ys :
  (forall x y, f x = Some y -> P y) ->
  mapOrThrow f xs = Some ys -> Forall P ys.
Proof.
  intros Hf. revert ys. induction xs as [|x xs IH]; simpl; intros ys H.
  - injection H as <-. constructor.
  - destruct (f x) as [y|] eqn:E; [|discriminate H].
    destruct (mapOrThrow f xs) as [ys'|]; [|discriminate H].
    injection H as <-. constructor; [apply (Hf x y E)|apply IH; reflexivity].
Qed.

Lemma earthquakeAlerts_known lat lng radiusKm response :
  Forall (fromKnownSource radiusKm) (quakeAlerts lat lng response).
Proof.
  unfold earthquakeAlerts.
  destruct response as [|[] status [[features|]|]]; try constructor.
  destruct (mapOrThrow _ features) as [alerts|] eqn:E; [|constructor].
  apply firstn_Forall.
  refine (mapOrThrow_Forall _ _ _ _ _ E). intros x y H.
  unfold toEarthquakeAlert in H.
  destruct (UsgsFeature.coordinates x), (UsgsFeature.properties x) as [props|];
    try discriminate H.
  destruct (UsgsProps.mag props), (UsgsProps.time props); try discriminate H.
  injection H as <-. left. split; reflexivity.
Qed.

(** The [map] callback is defined on every event the filter lets through. *)
Lemma toEonetAlert_defined lat lng radiusKm event :
  withinRadius lat lng radiusKm event = true ->
  is_Some (toEonetAlert memberToString lat lng event).
Proof.
  unfold withinRadius, toEonetAlert.
  destruct (firstPlace event) as [[geometry [evtLng evtLat]]|]; [|discriminate].
  intros _. eexists. reflexivity.
Qed.

Lemma eonetAlerts_known lat lng radiusKm response :
  Forall (fromKnownSource radiusKm) (eventAlerts lat lng radiusKm response).
Proof.
  unfold eonetAlerts.
  destruct response as [|[] status [[events|]|]]; try constructor.
  apply firstn_Forall. induction events as [|event events IH]; simpl; [constructor|].
  destruct (withinRadius lat lng radiusKm event) eqn:E; [|exact IH].
  simpl. unfold withinRadius in E. unfold toEonetAlert.
  destruct (firstPlace event) as [[geometry [evtLng evtLat]]|]; [|discriminate E].
  constructor; [|exact IH].
  right. split; [reflexivity|]. split; [reflexivity|].
  apply Qle_bool_iff, E.
Qed.

(** X29. Every alert of a call that finds nothing fresh is an earthquake from USGS
    or an event from NASA EONET; an EONET alert is always of moderate severity
    and its distance is at most the radius asked for. *)
Theorem alerts_from_two_sources (lat lng radiusKm : Q) (w : World (list DisasterAlert.t)) :
  lookupFresh CACHE_DURATION w (cacheKeyOf lat lng radiusKm) = None ->
  Forall (fromKnownSource radiusKm) (fst (realAlerts lat lng radiusKm w)).
Proof.
  intros Hmiss.
  rewrite (fetchRealDisasterAlerts_miss _ _ _ _ Hmiss). cbv zeta. cbn [fst].
  apply sortAlerts_Forall, Forall_app. split.
  - apply earthquakeAlerts_known.
  - apply eonetAlerts_known.
Qed.

End RealAlerts.

(** ** Clearing the caches *)

Section ClearedCaches.
Context {fmt : NumberFormat} {cal : Calendar} {math : JsMath}.
Variable toISOString : Z -> string.
Variable memberToString : string -> string.
Variable usgs : Network (option (list DisasterAlertService.UsgsFeature.t)).
Variable eonet : Network (option (list DisasterAlertService.EonetEvent.t)).
Variable openWeatherMap : Network SimpleWeatherService.OwmBody.t.
Variable openMeteo : Network SimpleWeatherService.MeteoBody.t.

Lemma lookupFresh_cleared {D} duration (w : World D) key :
  lookupFresh duration
    ({| clock := clock w; outbound := outbound w; store := ∅ |} : World D) key
  = None.
Proof. unfold lookupFresh. simpl. rewrite lookup_empty. reflexivity. Qed.

(** X30. Clearing a cache forces the next call to the network, whatever the cache
    held: after [clearAlertCache] the next [fetchRealDisasterAlerts] sends its
    two requests, and after [clearCache] the next [getWeather] sends its
    request to OpenWeatherMap and returns only a weather it has just fetched
    and stored, or throws. *)
Theorem cleared_caches_refetch :
  (forall lat lng radiusKm (w : World (list DisasterAlertService.DisasterAlert.t)),
     let cleared := snd (DisasterAlertService.clearAlertCache w) in
     outbound (snd (DisasterAlertService.fetchRealDisasterAlerts toISOString
                      memberToString usgs eonet lat lng radiusKm cleared))
     = outbound w ++ [DisasterAlertService.usgsUrl (clock w) lat lng radiusKm;
                      DisasterAlertService.eonetUrl])
  /\ (forall lat lon (w : World SimpleWeatherService.SimpleWeatherData.t),
       let cleared := snd (SimpleWeatherService.clearCache w) in
       let run :=
         SimpleWeatherService.getWeather toISOString openWeatherMap openMeteo lat lon
           cleared in
       (exists rest,
          outbound (snd run)
          = outbound w ++ SimpleWeatherService.owmUrl lat lon :: rest)
       /\ forall d,
            fst run = Some d ->
            store (snd run) !! weatherKey lat lon
            = Some {| data := d; timestamp := clock (snd run) |}).
Proof.
  split.
  - intros lat lng radiusKm w. cbv zeta. unfold DisasterAlertService.clearAlertCache.
    cbn [snd].
    rewrite (fetchRealDisasterAlerts_miss toISOString memberToString usgs eonet
               lat lng radiusKm _ (lookupFresh_cleared _ w _)).
    cbv zeta. cbn [snd outbound clock]. rewrite <- app_assoc. reflexivity.
  - intros lat lon w. cbv zeta. unfold SimpleWeatherService.clearCache. cbn [snd].
    rewrite (getWeather_miss toISOString openWeatherMap openMeteo lat lon _
               (lookupFresh_cleared _ w _)).
    cbn [store]. rewrite lookup_empty.
    destruct (fetchWithFallback_cases toISOString openWeatherMap openMeteo lat lon
                (weatherKey lat lon) None
                {| clock := clock w; outbound := outbound w; store := ∅ |})
      as [(d & Hd & _ & Hstore & Hout) | (Hd & _ & Hout)].
    + split.
      * destruct Hout as [Hout | Hout]; rewrite Hout; eexists; reflexivity.
      * intros d' H. rewrite Hd in H. injection H as <-.
        rewrite Hstore. apply lookup_insert_eq.
    + split; [rewrite Hout; eexists; reflexivity|].
      intros d' H. rewrite Hd in H. discriminate H.
Qed.

End ClearedCaches.

(** ** Closed instances of the further properties *)

Section FurtherInstances.
#[local] Existing Instance decimalFormat.
#[local] Existing Instance meanCalendar.
#[local] Existing Instance coarseMath.
Import LocationHazardService.

(** A flat inland place in July under 60 mm of rain. *)
Lemma flood_capped_on_dry_flat_land_witness :
  let geoData := sampleGeo flat false 2 urban in
  let r := calculateFloodRisk 6 geoData (sampleWeather 90 5 60) in
  (nearRiver geoData = false /\ nearCoast geoData = false /\ terrain geoData = flat)
  /\ (probability r <= 0.25)%Q /\ (riskLevel r = low \/ riskLevel r = moderate_risk).
Proof.
  cbv zeta. split; [repeat split|].
  apply (flood_capped_on_dry_flat_land 6 (sampleGeo flat false 2 urban)
           (sampleWeather 90 5 60)); reflexivity.
Defined.

Lemma landslide_on_flat_terrain_witness :
  terrain delhi = flat
  /\ probability (calculateLandslideRisk delhi (sampleWeather 90 5 60)) = 0.02%Q.
Proof.
  split; [reflexivity|].
  apply (landslide_on_flat_terrain delhi (sampleWeather 90 5 60) eq_refl).
Defined.


Lemma flood_probability_monotone_witness :
  ((0 <= 60)%Q /\ (50 <= 90)%Q)
  /\ (probability (calculateFloodRisk 6 delhi (sampleWeather 50 5 0))
      <= probability (calculateFloodRisk 6 delhi (sampleWeather 90 5 60)))%Q.
Proof.
  assert (H1 : (rainfall24h (sampleWeather 50 5 0) <= rainfall24h (sampleWeather 90 5 60))%Q)
    by (vm_compute; discriminate).
  assert (H2 : (humidity (sampleWeather 50 5 0) <= humidity (sampleWeather 90 5 60))%Q)
    by (vm_compute; discriminate).
  split; [split; [exact H1|exact H2]|].
  exact (flood_probability_monotone 6 delhi (sampleWeather 50 5 0) (sampleWeather 90 5 60)
           H1 H2).
Defined.

Lemma fire_probability_rain_witness :
  let geoData := sampleGeo hilly false 2 dense in
  (0 <= 12)%Q
  /\ (probability (calculateFireRisk geoData (sampleWeather 20 25 12))
      <= probability (calculateFireRisk geoData (sampleWeather 20 25 0)))%Q.
Proof.
  cbv zeta.
  assert (H : (rainfall24h (sampleWeather 20 25 0) <= rainfall24h (sampleWeather 20 25 12))%Q)
    by (vm_compute; discriminate).
  split; [exact H|].
  exact (fire_probability_rain (sampleGeo hilly false 2 dense)
           (sampleWeather 20 25 0) (sampleWeather 20 25 12)
           eq_refl eq_refl eq_refl H).
Defined.

(** Delhi in January and an inland plain in July, both at low flood risk. *)
Lemma same_level_same_recommendations_witness :
  let a := scoreHazard flood 0 delhi (sampleWeather 50 5 0) in
  let b := scoreHazard flood 6 (sampleGeo flat false 2 urban) (sampleWeather 90 5 60) in
  riskLevel a = riskLevel b /\ recommendations a = recommendations b.
Proof.
  cbv zeta.
  assert (H : riskLevel (scoreHazard flood 0 delhi (sampleWeather 50 5 0))
              = riskLevel (scoreHazard flood 6 (sampleGeo flat false 2 urban)
                             (sampleWeather 90 5 60)))
    by (vm_compute; reflexivity).
  split; [exact H|].
  apply (same_level_same_recommendations flood 0 6 delhi (sampleGeo flat false 2 urban)
           (sampleWeather 50 5 0) (sampleWeather 90 5 60));
    [discriminate|discriminate|exact H].
Defined.

(** No network and an empty cache: the default weather. *)
Lemma weather_failure_gives_defaults_witness :
  lookupFresh CACHE_DURATION (@emptyWorld WeatherData) (weatherKey 28.61 77.21) = None
  /\ fst (getWeatherData offline 28.61 77.21 emptyWorld) = defaultWeather.
Proof.
  assert (H : lookupFresh CACHE_DURATION (@emptyWorld WeatherData)
                (weatherKey 28.61 77.21) = None) by reflexivity.
  split; [exact H|].
  rewrite (proj1 (weather_failure_gives_defaults offline "Delhi" 28.61 77.21
                    emptyWorld H eq_refl)).
  reflexivity.
Defined.

Lemma weather_success_is_cached_witness :
  lookupFresh CACHE_DURATION (@emptyWorld WeatherData) (weatherKey 28.61 77.21) = None
  /\ rainfall24h (fst (getWeatherData monsoonDay 28.61 77.21 emptyWorld)) = 12.4%Q.
Proof.
  assert (H : lookupFresh CACHE_DURATION (@emptyWorld WeatherData)
                (weatherKey 28.61 77.21) = None) by reflexivity.
  split; [exact H|].
  rewrite (proj1 (weather_success_is_cached monsoonDay 28.61 77.21 emptyWorld _ H eq_refl)).
  reflexivity.
Defined.


(** A response of two features, the second without geometry: no earthquake
    is returned and nothing stored. *)
Lemma malformed_item_discards_batch_witness :
  Exists malformedFeature [quakeFeature; tornFeature]
  /\ DisasterDataService.fetchUSGSEarthquakes tornFeed 28.61 77.21 500 emptyWorld
     = ([], {| clock := 300;
               outbound := [DisasterDataService.usgsUrl 0 28.61 77.21 500];
               store := ∅ |})
  /\ fst (DisasterDataService.fetchNASAEvents tornEonet emptyWorld) = [].
Proof.
  assert (Hbad : Exists malformedFeature [quakeFeature; tornFeature]).
  { apply List.Exists_cons_tl, List.Exists_cons_hd. right. reflexivity. }
  assert (Hevent : Exists malformedEvent [tornEvent]).
  { apply List.Exists_cons_hd. reflexivity. }
  destruct (malformed_item_discards_batch tornEonet tornFeed 28.61 77.21 500
              emptyWorld 200) as (Husgs & Hnasa).
  split; [exact Hbad|]. split.
  - reflexivity.
  - apply (Hnasa [tornEvent] eq_refl eq_refl Hevent).
Defined.

(** A query for 500 km a minute after one for 1000 km has succeeded. *)
Lemma earthquake_cache_ignores_radius_witness :
  let first := DisasterDataService.fetchUSGSEarthquakes quakeFeed 28.61 77.21 1000
                 emptyWorld in
  let later := {| clock := 60300; outbound := outbound (snd first);
                  store := store (snd first) |} in
  clock later - clock (snd first) < DisasterDataService.CACHE_DURATION
  /\ DisasterDataService.fetchUSGSEarthquakes quakeFeed 28.61 77.21 500 later
     = ([quakeNearDelhi], later).
Proof.
  cbv zeta. split; [reflexivity|].
  apply (proj2 (earthquake_cache_ignores_radius quakeFeed 28.61 77.21 1000 500
                  emptyWorld 200 [quakeFeature] [quakeNearDelhi]
                  eq_refl eq_refl eq_refl)).
  - reflexivity.
  - reflexivity.
Defined.

(** The demo key and an empty cache: one request, to Overpass. *)
Lemma placeholder_key_uses_overpass_only_witness :
  placeholderKey "demo-key"
  /\ length (outbound (snd (ShelterService.searchRealShelters (fun query => query)
                              (fun key => key) offline offline 28.61 77.21 "demo-key"
                              5000 emptyWorld))) = 1%nat.
Proof.
  assert (H : placeholderKey "demo-key") by (right; left; reflexivity).
  split; [exact H|].
  rewrite (placeholder_key_uses_overpass_only (fun query => query) (fun key => key)
             offline offline 28.61 77.21 "demo-key" 5000 emptyWorld eq_refl H).
  reflexivity.
Defined.

(** Two places found: the repeat of the search returns both, from the cache. *)
Lemma osm_search_returns_twenty_caches_all_witness :
  let search := ShelterService.searchRealShelters (fun query => query) (fun key => key)
                  offline overpassTwo 28.61 77.21 in
  let first := search "" 5000%Q emptyWorld in
  let later := {| clock := 60400; outbound := outbound (snd first);
                  store := store (snd first) |} in
  placeholderKey ""
  /\ map ShelterService.RealShelter.id (fst (search "a-real-key" 5000%Q later))
     = ["osm-102"; "osm-101"]
  /\ snd (search "a-real-key" 5000%Q later) = later.
Proof.
  cbv zeta.
  assert (H : placeholderKey "") by (left; reflexivity).
  split; [exact H|].
  pose proof (proj2 (osm_search_returns_twenty_caches_all (fun query => query)
                       (fun key => key) offline overpassTwo 28.61 77.21 "" 5000
                       emptyWorld twoPlaces eq_refl H eq_refl)
                "a-real-key"
                {| clock := 60400;
                   outbound := outbound (snd (ShelterService.searchRealShelters
                                 (fun query => query) (fun key => key) offline overpassTwo
                                 28.61 77.21 "" 5000 emptyWorld));
                   store := store (snd (ShelterService.searchRealShelters
                                 (fun query => query) (fun key => key) offline overpassTwo
                                 28.61 77.21 "" 5000 emptyWorld)) |}
                eq_refl eq_refl) as Hserved.
  unfold servedFromCache in Hserved. rewrite Hserved.
  split; [vm_compute; reflexivity|reflexivity].
Defined.

(** A real key and a Places service that answers: five requests, none to
    Overpass, and the five shelters come back nearest first, the reverse of
    the order they arrived in. *)
Lemma shelter_search_sorted_and_bounded_witness :
  let run := ShelterService.searchRealShelters (fun query => query) (fun key => key)
               placesByRequest offline 28.61 77.21 "a-real-key" 5000 emptyWorld in
  lookupFresh ShelterService.CACHE_DURATION (@emptyWorld (list ShelterService.RealShelter.t))
    (ShelterService.cacheKeyOf 28.61 77.21 5000) = None
  /\ map (fun s => (ShelterService.RealShelter.id s, ShelterService.RealShelter.distance s))
       (fst run)
     = [ ("place-5", Some 111.1%Q); ("place-4", Some 222.2%Q); ("place-3", Some 333.5%Q);
         ("place-2", Some 444.6%Q); ("place-1", Some 555.9%Q) ]
  /\ length (outbound (snd run)) = 5%nat
  /\ StronglySorted closerOrEqual (fst run)
  /\ (length (fst run) <= 25)%nat.
Proof.
  cbv zeta. split; [reflexivity|].
  split; [vm_compute; reflexivity|].
  split; [vm_compute; reflexivity|].
  destruct (shelter_search_sorted_and_bounded (fun query => query) (fun key => key)
              placesByRequest offline 28.61 77.21 "a-real-key" 5000 emptyWorld eq_refl)
    as (Hsorted & Hbound & _).
  exact (conj Hsorted Hbound).
Defined.

(** A city name of one space, at the coordinates of Leh. *)
Lemma panel_geography_of_unnamed_place_witness :
  allWhiteSpace " " = true
  /\ map probability
       (MultiHazardPanel.hazards
          (fst (MultiHazardPanel.generateHazardPredictions offline 34.15 77.58 " "
                  emptyWorld)))
     = map probability (hazardResults 0 delhi defaultWeather).
Proof.
  split; [reflexivity|].
  rewrite (proj2 (panel_geography_of_unnamed_place offline 34.15 77.58 emptyWorld)
             " " ltac:(discriminate) eq_refl).
  reflexivity.
Defined.

(** An hour-old entry and no network: the old weather is returned. *)
Lemma weather_with_entry_never_throws_witness :
  let key := weatherKey 28.61 77.21 in
  let w := {| clock := 3600000; outbound := [];
              store := {[ key := {| data := agedWeather; timestamp := 0 |} ]} |} in
  store w !! key = Some {| data := agedWeather; timestamp := 0 |}
  /\ is_Some (fst (SimpleWeatherService.getWeather isoDate offline offline 28.61 77.21 w)).
Proof.
  cbv zeta.
  assert (H : ({[ weatherKey 28.61 77.21 := {| data := agedWeather; timestamp := 0 |} ]}
               : gmap string (Entry SimpleWeatherService.SimpleWeatherData.t))
              !! weatherKey 28.61 77.21
              = Some {| data := agedWeather; timestamp := 0 |})
    by apply lookup_singleton_eq.
  split; [exact H|].
  destruct (weather_with_entry_never_throws isoDate offline offline 28.61 77.21
              {| clock := 3600000; outbound := [];
                 store := {[ weatherKey 28.61 77.21 :=
                             {| data := agedWeather; timestamp := 0 |} ]} |}
              {| data := agedWeather; timestamp := 0 |} H) as (d & Hd & _).
  rewrite Hd. eexists. reflexivity.
Defined.

(** OpenWeatherMap unreachable, Open-Meteo answering: two requests. *)
Lemma weather_backup_asked_second_witness :
  lookupFresh SimpleWeatherService.CACHE_DURATION
    (@emptyWorld SimpleWeatherService.SimpleWeatherData.t) (weatherKey 28.61 77.21) = None
  /\ length (outbound (snd (SimpleWeatherService.getWeather isoDate offline rainyMeteo
                              28.61 77.21 emptyWorld))) = 2%nat.
Proof.
  split; [reflexivity|].
  destruct (proj1 (weather_backup_asked_second isoDate offline rainyMeteo 28.61 77.21
                     emptyWorld eq_refl)) as [H | H];
    unfold sends in H; rewrite H; [|reflexivity].
  exfalso. vm_compute in H. discriminate H.
Defined.

Lemma weather_results_are_genuine_witness :
  allGenuine (store (@emptyWorld SimpleWeatherService.SimpleWeatherData.t))
  /\ forall d,
       fst (SimpleWeatherService.getWeather isoDate offline rainyMeteo 28.61 77.21
              emptyWorld) = Some d ->
       SimpleWeatherService.SimpleWeatherData.is_real d = true.
Proof.
  assert (H : allGenuine (store (@emptyWorld SimpleWeatherService.SimpleWeatherData.t))).
  { intros key entry Hkey. simpl in Hkey. rewrite lookup_empty in Hkey. discriminate Hkey. }
  split; [exact H|].
  intros d Hd.
  apply (proj2 (weather_results_are_genuine isoDate offline rainyMeteo 28.61 77.21
                  emptyWorld H) d Hd).
Defined.

(** No network: the empty list is returned and then served from the cache. *)
Lemma alert_outcome_is_cached_witness :
  let fetchAlerts :=
    DisasterAlertService.fetchRealDisasterAlerts isoDate (fun key => key)
      offline offline 28.61 77.21 500 in
  let later := {| clock := 70000; outbound := outbound (snd (fetchAlerts emptyWorld));
                  store := store (snd (fetchAlerts emptyWorld)) |} in
  lookupFresh DisasterAlertService.CACHE_DURATION
    (@emptyWorld (list DisasterAlertService.DisasterAlert.t))
    (DisasterAlertService.cacheKeyOf 28.61 77.21 500) = None
  /\ fst (fetchAlerts emptyWorld) = []
  /\ fetchAlerts later = ([], later).
Proof.
  cbv zeta.
  destruct (alert_outcome_is_cached isoDate (fun key => key) offline offline
              28.61 77.21 500 emptyWorld eq_refl) as (_ & Hserved & Hempty).
  split; [reflexivity|].
  split; [apply Hempty; reflexivity|].
  match goal with
  | |- _ ?later = _ =>
      let H := fresh "H" in
      pose proof (Hserved later eq_refl eq_refl) as H;
      unfold servedFromCache in H; rewrite H
  end.
  rewrite (Hempty eq_refl eq_refl). reflexivity.
Defined.

(** Two earthquakes and a wildfire: the strongest earthquake first. *)
Lemma alerts_by_severity_then_distance_witness :
  lookupFresh DisasterAlertService.CACHE_DURATION
    (@emptyWorld (list DisasterAlertService.DisasterAlert.t))
    (DisasterAlertService.cacheKeyOf 28.61 77.21 500) = None
  /\ StronglySorted moreUrgent
       (fst (DisasterAlertService.fetchRealDisasterAlerts isoDate (fun key => key)
               alertQuakes alertEvents 28.61 77.21 500 emptyWorld)).
Proof.
  split; [reflexivity|].
  apply (alerts_by_severity_then_distance isoDate (fun key => key) alertQuakes alertEvents
           28.61 77.21 500 emptyWorld eq_refl).
Defined.

Lemma alerts_from_two_sources_witness :
  lookupFresh DisasterAlertService.CACHE_DURATION
    (@emptyWorld (list DisasterAlertService.DisasterAlert.t))
    (DisasterAlertService.cacheKeyOf 28.61 77.21 500) = None
  /\ Forall (fromKnownSource 500)
       (fst (DisasterAlertService.fetchRealDisasterAlerts isoDate (fun key => key)
               alertQuakes alertEvents 28.61 77.21 500 emptyWorld)).
Proof.
  split; [reflexivity|].
  apply (alerts_from_two_sources isoDate (fun key => key) alertQuakes alertEvents
           28.61 77.21 500 emptyWorld eq_refl).
Defined.

Example alerts_strongest_first :
  map DisasterAlertService.DisasterAlert.id
    (fst (DisasterAlertService.fetchRealDisasterAlerts isoDate (fun key => key)
            alertQuakes alertEvents 28.61 77.21 500 emptyWorld))
  = ["usgs-us6000b"; "usgs-us6000a"; "nasa-EONET_6500"].
Proof. vm_compute. reflexivity. Qed.

Example backup_weather_reads_slight_rain :
  option_map
    (fun d => (SimpleWeatherService.SimpleWeatherData.source d,
               SimpleWeatherService.Current.weather
                 (SimpleWeatherService.SimpleWeatherData.current d)))
    (fst (SimpleWeatherService.getWeather isoDate offline rainyMeteo 28.61 77.21
            emptyWorld))
  = Some ("Open-Meteo", [SimpleWeatherService.item "Rain" "slight rain" "10d"]).
Proof. vm_compute. reflexivity. Qed.

End FurtherInstances.
